(** * Ai-Team-Monitor: the intent-scoped aggregation and caching layer

    A shallow embedding of [src/query-parser.js] (identity resolution),
    [src/github-client.js] and [src/jira-client.js] (upstream connectors)
    and [src/response-generator.js] (data cache, intent classifier and
    orchestrator), with the properties the specification states about them.

    A JavaScript string is modelled as a [string]: the bytes of its UTF-8
    encoding, so that a text of ASCII characters is the sequence of its
    characters.  Concatenation, comparison, the search for a text
    ([includes], [startsWith]) and the split at a slash act on these bytes
    as the runtime acts on the text.  The case conversions and [trim] follow
    the Unicode tables of the runtime: they are functions of the
    environment ([String_toLowerCase], [String_toUpperCase], [String_trim]),
    of which [lowerAscii], [upperAscii] and [trimAscii] give the values on
    the texts of ASCII characters ([asciiFaithful]). *)

From Stdlib Require Import ZArith Lia Ascii String.
From stdpp Require Import gmap strings list fin_maps pretty.

Local Open Scope string_scope.
Local Open Scope Z_scope.

(** ** JavaScript string primitives *)

Module JsString.

(** The double quote character, for the template literals that contain it. *)
Definition dq : string := String (Ascii.ascii_of_nat 34) EmptyString.

(** The line feed character. *)
Definition nl : string := String (Ascii.ascii_of_nat 10) EmptyString.

Fixpoint startsWith (needle hay : string) : bool :=
  match needle, hay with
  | EmptyString, _ => true
  | String _ _, EmptyString => false
  | String a n, String b h => if Ascii.eqb a b then startsWith n h else false
  end.

(** [hay.includes(needle)] *)
Fixpoint includes (needle hay : string) : bool :=
  if startsWith needle hay then true
  else match hay with
       | EmptyString => false
       | String _ h => includes needle h
       end.

Definition isUpper (c : ascii) : bool :=
  let n := Ascii.nat_of_ascii c in (65 <=? n)%nat && (n <=? 90)%nat.

Definition isLower (c : ascii) : bool :=
  let n := Ascii.nat_of_ascii c in (97 <=? n)%nat && (n <=? 122)%nat.

Definition lowerChar (c : ascii) : ascii :=
  if isUpper c then Ascii.ascii_of_nat (Ascii.nat_of_ascii c + 32) else c.

Definition upperChar (c : ascii) : ascii :=
  if isLower c then Ascii.ascii_of_nat (Ascii.nat_of_ascii c - 32) else c.

Fixpoint mapChars (f : ascii -> ascii) (s : string) : string :=
  match s with
  | EmptyString => EmptyString
  | String c t => String (f c) (mapChars f t)
  end.

(** A text of ASCII characters: every byte is below 128. *)
Definition isAsciiChar (c : ascii) : bool := (Ascii.nat_of_ascii c <? 128)%nat.

Fixpoint isAscii (s : string) : bool :=
  match s with
  | EmptyString => true
  | String c t => isAsciiChar c && isAscii t
  end.

(** What [s.toLowerCase()] and [s.toUpperCase()] make of a text of ASCII
    characters: the letters A to Z, or a to z, change case. *)
Definition lowerAscii : string -> string := mapChars lowerChar.
Definition upperAscii : string -> string := mapChars upperChar.

(** The ASCII characters [trim] removes: tab, line feed, vertical tab, form
    feed, carriage return and space. *)
Definition isSpace (c : ascii) : bool :=
  let n := Ascii.nat_of_ascii c in
  ((9 <=? n)%nat && (n <=? 13)%nat) || (n =? 32)%nat.

Fixpoint trimStart (s : string) : string :=
  match s with
  | EmptyString => EmptyString
  | String c t => if isSpace c then trimStart t else s
  end.

Fixpoint trimEnd (s : string) : string :=
  match s with
  | EmptyString => EmptyString
  | String c t =>
      match trimEnd t with
      | EmptyString => if isSpace c then EmptyString else String c EmptyString
      | t' => String c t'
      end
  end.

(** What [s.trim()] makes of a text of ASCII characters. *)
Definition trimAscii (s : string) : string := trimEnd (trimStart s).

(** [s.split('/')] *)
Fixpoint splitSlash (s : string) : list string :=
  match s with
  | EmptyString => [EmptyString]
  | String c t =>
      if Ascii.eqb c "/"%char then EmptyString :: splitSlash t
      else match splitSlash t with
           | [] => [String c EmptyString]
           | seg :: segs => String c seg :: segs
           end
  end.

(** A string is falsy exactly when it is empty. *)
Definition truthyStr (s : string) : bool :=
  match s with EmptyString => false | _ => true end.

End JsString.
Import JsString.

(** ** JavaScript values, objects and errors *)

#[warnings="-register-all"]
Inductive jsval : Type :=
| JUndefined
| JNull
| JBool (b : bool)
| JNum (n : Z)
| JStr (s : string)
| JArr (items : list jsval)
| JObj (fields : list (string * jsval)).

(** A plain object: its own properties in creation order, keys distinct. *)
Definition obj : Type := list (string * jsval).

Module JsValue.

Fixpoint lookupField (k : string) (o : obj) : option jsval :=
  match o with
  | [] => None
  | (k', v) :: rest => if String.eqb k k' then Some v else lookupField k rest
  end.

Definition hasField (k : string) (o : obj) : bool :=
  match lookupField k o with Some _ => true | None => false end.

(** [o.k] on an object. *)
Definition getField (k : string) (o : obj) : jsval :=
  match lookupField k o with Some v => v | None => JUndefined end.

(** [v?.k]: [undefined] when [v] is [null] or [undefined], the property
    otherwise (no primitive or array has one of the properties read here). *)
Definition optChain (v : jsval) (k : string) : jsval :=
  match v with
  | JObj fields => getField k fields
  | _ => JUndefined
  end.

(** [{ ...o, k: v }]: an existing key keeps its place and takes the new
    value, a new key goes last. *)
Fixpoint setField (k : string) (v : jsval) (o : obj) : obj :=
  match o with
  | [] => [(k, v)]
  | (k', v') :: rest =>
      if String.eqb k k' then (k', v) :: rest else (k', v') :: setField k v rest
  end.

(** Truthiness ([Boolean(v)], [v ? a : b], [!v]). *)
Definition truthy (v : jsval) : bool :=
  match v with
  | JUndefined | JNull => false
  | JBool b => b
  | JNum n => negb (n =? 0)
  | JStr s => truthyStr s
  | JArr _ | JObj _ => true
  end.

(** [v === s] for a string [s]. *)
Definition strictEqStr (v : jsval) (s : string) : bool :=
  match v with JStr s' => String.eqb s' s | _ => false end.

(** Truthiness of an environment variable or optional string. *)
Definition truthyOpt (o : option string) : bool :=
  match o with Some s => truthyStr s | None => false end.

End JsValue.
Import JsValue.

(** An [Error] object, as far as the code looks at it. *)
Record JsError := mkError { message : string }.

Inductive Result (A : Type) : Type :=
| Ok (a : A)
| Throw (e : JsError).
Arguments Ok {A} a.
Arguments Throw {A} e.

(** ** A state and exception monad *)

Definition SE (S A : Type) : Type := S -> Result A * S.

Module SEMonad.
Section Ops.
Context {S : Type}.

Definition ret {A} (a : A) : SE S A := fun s => (Ok a, s).

Definition bind {A B} (m : SE S A) (k : A -> SE S B) : SE S B :=
  fun s => match m s with
           | (Ok a, s') => k a s'
           | (Throw e, s') => (Throw e, s')
           end.

(** [throw e] *)
Definition throw {A} (e : JsError) : SE S A := fun s => (Throw e, s).

(** [try { m } catch (error) { handler(error) }] *)
Definition tryCatch {A} (m : SE S A) (handler : JsError -> SE S A) : SE S A :=
  fun s => match m s with
           | (Ok a, s') => (Ok a, s')
           | (Throw e, s') => handler e s'
           end.

(** Runs [m] to the point where its promise settles and hands the
    outcome over as a value. *)
Definition settle {A} (m : SE S A) : SE S (Result A) :=
  fun s => let '(r, s') := m s in (Ok r, s').

Definition gets {A} (f : S -> A) : SE S A := fun s => (Ok (f s), s).

Definition modify (f : S -> S) : SE S unit := fun s => (Ok tt, f s).

(** [xs.map(f)] for an effectful [f], left to right. *)
Fixpoint mapM {A B} (f : A -> SE S B) (xs : list A) : SE S (list B) :=
  match xs with
  | [] => ret []
  | x :: rest =>
      bind (f x) (fun y => bind (mapM f rest) (fun ys => ret (y :: ys)))
  end.
End Ops.
End SEMonad.
Import SEMonad.

Notation "'let*' x ':=' m 'in' k" := (bind m (fun x => k))
  (at level 10, x pattern, m at level 100, k at level 200).

(** ** The outside world

    Every call that leaves the process is recorded as an [Event]; the
    events so far, newest first, are the history.  The collaborators are
    functions of the history and of the request, so that they may answer the
    same request differently at different moments. *)

Inductive Event : Type :=
| EvNow                                             (* Date.now(), new Date() *)
| EvGenerate (prompt : string)                      (* genAI.models.generateContent *)
| EvJiraSearch (url authEmail authToken jql : string) (* fetch(url, { POST ... }) *)
| EvInstallation (installationId : option string)   (* app.getInstallationOctokit *)
| EvEvents (username : string)                      (* GET /users/{username}/events *)
| EvCommits (owner repo author since : string)      (* GET /repos/{owner}/{repo}/commits *)
| EvPulls (owner repo : string).                    (* GET /repos/{owner}/{repo}/pulls, open *)

Definition History : Type := list Event.

Definition isSummarizerCall (ev : Event) : bool :=
  match ev with EvGenerate _ => true | _ => false end.

Definition isUpstreamCall (ev : Event) : bool :=
  match ev with
  | EvJiraSearch _ _ _ _ | EvInstallation _ | EvEvents _
  | EvCommits _ _ _ _ | EvPulls _ _ => true
  | EvNow | EvGenerate _ => false
  end.

(** One issue of the tracker's search response, with the fields the client
    reads: [key], [fields.summary], [fields.status.name],
    [fields.issuetype.name], [fields.priority?.name], [fields.updated]. *)
Record RawIssue := mkRawIssue {
  raw_key : string;
  raw_summary : string;
  raw_status : string;
  raw_issuetype : string;
  raw_priority : option string;
  raw_updated : string
}.

(** The tracker's HTTP response: [ok], [status], [text()] and, through
    [json()], the [issues] array. *)
Record JiraResponse := mkJiraResponse {
  resp_ok : bool;
  resp_status : Z;
  resp_text : string;
  resp_issues : Result (list RawIssue)
}.

(** [process.env] *)
Record Config := mkConfig {
  JIRA_HOST : option string;
  JIRA_USER_EMAIL : option string;
  JIRA_API_TOKEN : option string;
  GITHUB_TOKEN : option string;
  GITHUB_INSTALLATION_ID : option string
}.

Record Env := mkEnv {
  (** the clock, in milliseconds *)
  Date_now : History -> Z;
  (** the language model; the answer's [text] may be [undefined] *)
  generateContent : History -> string -> Result (option string);
  (** the issue tracker's search endpoint *)
  jiraSearch : History -> string -> string -> string -> string -> Result JiraResponse;
  (** the code host: installation login, the activity feed given by the
      [repo?.name] of each event, commits of a repository, open pulls *)
  getInstallationOctokit : History -> option string -> Result unit;
  paginateEvents : History -> string -> Result (list (option string));
  requestCommits : History -> string -> string -> string -> string -> Result (list obj);
  requestPulls : History -> string -> string -> Result (list obj);
  (** runtime functions: [new Date(v).getTime()] ([None] for an invalid
      date), the ISO text of the date seven calendar days before a clock
      reading, and [JSON.stringify(records, null, 2)] *)
  Date_parse : jsval -> option Z;
  sevenDaysBefore : Z -> string;
  JSON_stringify : list obj -> string;
  (** [String.prototype.toLowerCase], [toUpperCase] and [trim] *)
  String_toLowerCase : string -> string;
  String_toUpperCase : string -> string;
  String_trim : string -> string;
  (** the promises given to [Promise.all] that the runtime saw reject, by
      their positions in the array, the earliest first *)
  rejectionOrder : History -> list nat
}.

(** Decimal text of an integer, as a template literal prints it. *)
Definition showZ (n : Z) : string := pretty n.

(** ** Identity resolver ([query-parser.js]) *)

Record Identity := mkIdentity { jiraId : string; githubId : string }.

#[global] Instance Identity_eq_dec : EqDecision Identity.
Proof. solve_decision. Defined.

(** The object literal [userMapping]: its keys in definition order, which
    is the order a [for ... in] loop visits them (none is an array index). *)
Definition userMapping : list (string * Identity) :=
  [ ("praveenk pandey", mkIdentity "Praveenk Pandey" "PraveenPandey987");
    ("praveenpandey987", mkIdentity "Praveenk Pandey" "PraveenPandey987");
    ("pp7007144435@gmail.com", mkIdentity "pp7007144435@gmail.com" "PraveenPandey987");
    ("mike", mkIdentity "Mike Ross" "mikeross88");
    ("sarah", mkIdentity "Sarah Connor" "sarah-connor");
    ("lisa", mkIdentity "Lisa Smith" "lsmith") ].

(** The loop [for (const key in table) if (q.includes(key)) return table[key]]. *)
Fixpoint firstIncluded (normalizedQuery : string) (table : list (string * Identity))
  : option Identity :=
  match table with
  | [] => None
  | (key, user) :: rest =>
      if includes key normalizedQuery then Some user
      else firstIncluded normalizedQuery rest
  end.

Definition findUserInQuery (env : Env) (question : string) : option Identity :=
  let normalizedQuery := String_toLowerCase env question in
  firstIncluded normalizedQuery userMapping.

(** ** Upstream connectors *)

Section Connectors.
Context (cfg : Config) (env : Env).

(** The connectors see the history only. *)
Definition T (A : Type) : Type := SE History A.

Definition call {A} (ev : Event) (answer : History -> Result A) : T A :=
  fun h => (answer h, ev :: h).

(** [Date.now()] *)
Definition now : T Z := call EvNow (fun h => Ok (Date_now env h)).

(** *** [github-client.js] *)

Definition getOctokit : T unit :=
  if truthyOpt (GITHUB_TOKEN cfg) then ret tt
  else call (EvInstallation (GITHUB_INSTALLATION_ID cfg))
            (fun h => getInstallationOctokit env h (GITHUB_INSTALLATION_ID cfg)).

Definition getRecentCommits (username owner repo : string) : T (list obj) :=
  let* _ := getOctokit in
  let* today := now in
  let since := sevenDaysBefore env today in
  call (EvCommits owner repo username since)
       (fun h => requestCommits env h owner repo username since).

Definition getActivePullRequests (username owner repo : string) : T (list obj) :=
  let* _ := getOctokit in
  let* prs := call (EvPulls owner repo) (fun h => requestPulls env h owner repo) in
  ret (List.filter (fun pr => strictEqStr (optChain (getField "user" pr) "login") username) prs).

(** [[...new Set(xs)]]: first occurrences, in order. *)
Fixpoint setFrom (xs seen : list string) : list string :=
  match xs with
  | [] => seen
  | x :: rest => if decide (x ∈ seen) then setFrom rest seen else setFrom rest (seen ++ [x])
  end.

Definition getContributionRepos (username : string) : T (list string) :=
  let* _ := getOctokit in
  let* events := call (EvEvents username) (fun h => paginateEvents env h username) in
  let names := omap (fun name => match name with
                                 | Some s => if truthyStr s then Some s else None
                                 | None => None
                                 end) events in
  ret (setFrom names []).

(** The body of the [try] block of one loop iteration; [None] stands for
    [continue]. *)
Definition commitsOfRepo (username fullName : string) : T (option (list obj)) :=
  match splitSlash fullName with
  | owner :: repo :: _ =>
      if negb (truthyStr owner) || negb (truthyStr repo) then ret None
      else
        let* commits := getRecentCommits username owner repo in
        ret (Some (map (setField "repo" (JStr fullName)) commits))
  | _ => ret None
  end.

Definition prsOfRepo (username fullName : string) : T (option (list obj)) :=
  match splitSlash fullName with
  | owner :: repo :: _ =>
      if negb (truthyStr owner) || negb (truthyStr repo) then ret None
      else
        let* prs := getActivePullRequests username owner repo in
        ret (Some (map (setField "repo" (JStr fullName)) prs))
  | _ => ret None
  end.

(** [for (const fullName of repoFullNames) { try { ... push ... } catch { log } }] *)
Fixpoint fanOut (body : string -> T (option (list obj)))
         (repoFullNames : list string) (all : list obj) : T (list obj) :=
  match repoFullNames with
  | [] => ret all
  | fullName :: rest =>
      let* fetched := tryCatch (body fullName) (fun _ => ret None) in
      fanOut body rest (all ++ default [] fetched)
  end.

Definition searchRecentCommitsByUser (username : string) : T (list obj) :=
  let* repoFullNames := getContributionRepos username in
  fanOut (commitsOfRepo username) repoFullNames [].

Definition searchActivePRsByUser (username : string) : T (list obj) :=
  let* repoFullNames := getContributionRepos username in
  fanOut (prsOfRepo username) repoFullNames [].

End Connectors.

(** *** [jira-client.js] *)

Section JiraClient.
Context (cfg : Config) (env : Env).

(** The pair the [Authorization] header encodes (Basic, Base64 of
    [email:token]). *)
Definition getJiraAuthHeader : T (string * string) :=
  match JIRA_USER_EMAIL cfg, JIRA_API_TOKEN cfg with
  | Some email, Some token =>
      if negb (truthyStr email) || negb (truthyStr token)
      then throw (mkError "JIRA_USER_EMAIL or JIRA_API_TOKEN is not set in .env")
      else ret (email, token)
  | _, _ => throw (mkError "JIRA_USER_EMAIL or JIRA_API_TOKEN is not set in .env")
  end.

(** The clean record built from one issue of the response. *)
Definition simplifyIssue (jiraHost : string) (issue : RawIssue) : obj :=
  [ ("key", JStr (raw_key issue));
    ("summary", JStr (raw_summary issue));
    ("status", JStr (raw_status issue));
    ("issueType", JStr (raw_issuetype issue));
    ("priority", JStr (match raw_priority issue with
                       | Some name => if truthyStr name then name else "Not set"
                       | None => "Not set"
                       end));
    ("lastUpdated", JStr (raw_updated issue));
    ("link", JStr (jiraHost ++ "/browse/" ++ raw_key issue)) ].

Definition searchActiveIssuesByUser (userQuery : string) : T (list obj) :=
  let* auth := getJiraAuthHeader in
  match JIRA_HOST cfg with
  | Some jiraHost =>
      if negb (truthyStr jiraHost) then throw (mkError "JIRA_HOST is not set in .env")
      else
        let jql := "assignee = " ++ dq ++ userQuery ++ dq ++ " AND statusCategory != "
                   ++ dq ++ "Done" ++ dq ++ " ORDER BY updated DESC" in
        let url := jiraHost ++ "/rest/api/3/search/jql" in
        tryCatch
          (let* response := call (EvJiraSearch url (fst auth) (snd auth) jql)
                                 (fun h => jiraSearch env h url (fst auth) (snd auth) jql) in
           if negb (resp_ok response) then
             let errorData := resp_text response in
             throw (mkError ("JIRA API request failed with status "
                             ++ showZ (resp_status response) ++ ": " ++ errorData))
           else
             let* issues := (fun h => (resp_issues response, h)) in
             ret (map (simplifyIssue jiraHost) issues))
          (fun err => throw err)
  | None => throw (mkError "JIRA_HOST is not set in .env")
  end.

End JiraClient.

(** ** The data cache, the classifier and the orchestrator
       ([response-generator.js]) *)

Record CacheEntry := mkEntry { data : list obj; timestamp : Z }.

(** The process state the orchestrator works on: the module-level
    [dataCache] and the history of calls to the outside. *)
Record World := mkWorld {
  dataCache : gmap string CacheEntry;
  trace : History
}.

Definition CACHE_TTL : Z := 5 * 60 * 1000.

(** The three data kinds, and the key each fetch function builds. *)
Inductive DataKind := KJira | KCommits | KPRs.

Definition cacheKey (kind : DataKind) (id : string) : string :=
  match kind with
  | KJira => "jira_" ++ id
  | KCommits => "commits_" ++ id
  | KPRs => "prs_" ++ id
  end.

Definition bullet : string :=
  String (Ascii.ascii_of_nat 226) (String (Ascii.ascii_of_nat 128)
    (String (Ascii.ascii_of_nat 162) EmptyString)).

Definition unlines (ls : list string) : string := String.concat nl ls.

Definition intentPrompt (question : string) : string :=
  unlines
    [ "";
      "    Analyze the following question and determine what type of information the user wants.";
      "    Respond with ONLY ONE of these words: JIRA, COMMITS, PRS, or FULL_SUMMARY.";
      "";
      "    Rules:";
      "    - If they ask about JIRA tickets, issues, or tasks -> JIRA";
      "    - If they ask about commits, what they committed, or code changes -> COMMITS";
      "    - If they ask about pull requests, PRs, or reviews -> PRS";
      "    - If they ask " ++ dq ++ "what is [name] working on" ++ dq ++ " or want a general summary -> FULL_SUMMARY";
      "    - If unclear, default to FULL_SUMMARY";
      "";
      "    Examples:";
      "    " ++ dq ++ "What is he working on?" ++ dq ++ " -> FULL_SUMMARY";
      "    " ++ dq ++ "Show me his JIRA tickets" ++ dq ++ " -> JIRA";
      "    " ++ dq ++ "What has she committed this week?" ++ dq ++ " -> COMMITS";
      "    " ++ dq ++ "Show me Sarah's recent pull requests" ++ dq ++ " -> PRS";
      "    " ++ dq ++ "Give me the full report" ++ dq ++ " -> FULL_SUMMARY";
      "    " ++ dq ++ "What JIRA issues is John assigned to?" ++ dq ++ " -> JIRA";
      "";
      "    Question: " ++ dq ++ question ++ dq;
      "";
      "    Response (one word only):";
      "  " ].

Definition summaryPrompt (question : string) (user : Identity) (dataContext : string) : string :=
  unlines
    [ "";
      "      You are a helpful AI team assistant. A manager asked a question about a team member.";
      "      Based on the following data, provide a CONCISE, CONVERSATIONAL answer in PLAIN TEXT.";
      "";
      "      Question: " ++ dq ++ question ++ dq;
      "      User: " ++ jiraId user ++ " (JIRA) / " ++ githubId user ++ " (GitHub)";
      "";
      "      " ++ dataContext;
      "";
      "      --- CRITICAL INSTRUCTIONS ---";
      "      - **RESPOND IN PLAIN TEXT ONLY. NO HTML, NO MARKDOWN.**";
      "      - **ONLY answer what was specifically asked. Do NOT include extra information.**";
      "      - If they asked about JIRA, ONLY talk about JIRA. Don't mention GitHub at all.";
      "      - If they asked about commits, ONLY talk about commits. Don't mention JIRA or PRs.";
      "      - If they asked about PRs, ONLY talk about PRs. Don't mention JIRA or commits.";
      "      - If they asked " ++ dq ++ "what is [name] working on" ++ dq ++ ", include everything available.";
      "      - Be conversational and natural, like talking to a human.";
      "      - Keep it brief - 2-3 sentences per item maximum.";
      "      - Use natural language for time (e.g., " ++ dq ++ "1 day ago" ++ dq ++ " not timestamps).";
      "      - Include specific details like ticket IDs, commit messages, PR titles.";
      "      - Format lists with simple bullets (" ++ bullet ++ ") or line breaks.";
      "      - Do NOT create sections or headers unless there's a lot of data.";
      "      - Start directly with the answer, no preamble.";
      "";
      "      Examples of good responses:";
      "      Q: " ++ dq ++ "What JIRA tickets is X working on?" ++ dq;
      "      A: " ++ dq ++ "X has 2 active JIRA tickets: TS-102 (Fix login bug, High priority, In Progress) updated 2 hours ago, and TS-104 (Payment gateway, High priority, In Progress) updated 1 day ago." ++ dq;
      "";
      "      Q: " ++ dq ++ "What commits has X made?" ++ dq;
      "      A: " ++ dq ++ "X made 2 commits in the last week: 'Delete .env file' in santosh_calander repo 1 day ago, and 'yehhh' in the same repo also 1 day ago." ++ dq;
      "";
      "      Q: " ++ dq ++ "What is X working on?" ++ dq;
      "      A: " ++ dq ++ "X is currently working on 1 JIRA ticket: TS-1 (Test Issue - Checking Jira setup, Medium priority, Parking lot status) updated 7 hours ago. No recent GitHub commits or pull requests found." ++ dq;
      "    " ].

(** The four answers of [handleAIQuery] that are not the model's text. *)
Definition unknownUserMessage : string :=
  "I'm sorry, I couldn't find a known user (from JIRA or GitHub) in your query. Please include a name I recognize.".

Definition noActivityMessage (user : Identity) : string :=
  "I found " ++ jiraId user ++ " (JIRA) / " ++ githubId user
  ++ " (GitHub), but they have no recent activity based on your query.".

Definition notFoundMessage : string :=
  "Sorry, I couldn't find one or more repositories. The user might not have access to some repos.".

Definition authMessage : string :=
  "Authentication error: Please check your API credentials in the .env file.".

Definition rateLimitMessage : string :=
  "API rate limit exceeded. Please try again in a few minutes.".

Definition genericMessage (error : JsError) : string :=
  "An error occurred while fetching data: " ++ message error.

(** The [catch] block of [handleAIQuery]. *)
Definition errorAnswer (error : JsError) : string :=
  if includes "404" (message error) then notFoundMessage
  else if includes "401" (message error) || includes "403" (message error) then authMessage
  else if includes "rate limit" (message error) then rateLimitMessage
  else genericMessage error.

Definition intentLabels : list string := ["JIRA"; "COMMITS"; "PRS"; "FULL_SUMMARY"].

(** [labels.includes(intent)] *)
Definition isLabel (intent : string) : bool :=
  existsb (String.eqb intent) intentLabels.

(** The phrase for a time difference in milliseconds; [None] is [NaN]
    (an invalid date), for which every comparison fails. *)
Definition relativePhrase (diff : option Z) : string :=
  match diff with
  | None => "just now"
  | Some diffMs =>
      let diffDays := diffMs / (1000 * 60 * 60 * 24) in
      let diffHours := diffMs / (1000 * 60 * 60) in
      let diffMinutes := diffMs / (1000 * 60) in
      if diffDays >? 0 then showZ diffDays ++ " day" ++ (if diffDays >? 1 then "s" else "") ++ " ago"
      else if diffHours >? 0 then showZ diffHours ++ " hour" ++ (if diffHours >? 1 then "s" else "") ++ " ago"
      else if diffMinutes >? 0 then showZ diffMinutes ++ " minute" ++ (if diffMinutes >? 1 then "s" else "") ++ " ago"
      else "just now"
  end.

(** The reason [Promise.all] rejects with: that of the first promise, in
    the order of the rejections in time, that did reject. *)
Fixpoint firstRejected {A : Type} (order : list nat) (settled : list (Result A))
  : option JsError :=
  match order with
  | [] => None
  | i :: rest =>
      match settled !! i with
      | Some (Throw e) => Some e
      | _ => firstRejected rest settled
      end
  end.

Section Orchestrator.
Context (cfg : Config) (env : Env).

Definition M (A : Type) : Type := SE World A.

(** A connector call made from the orchestrator: the cache is out of its
    reach. *)
Definition liftT {A} (m : T A) : M A :=
  fun w => let '(r, h) := m (trace w) in (r, mkWorld (dataCache w) h).

Definition getCachedData (cacheKey : string) : M (option (list obj)) :=
  let* cached := gets (fun w => dataCache w !! cacheKey) in
  match cached with
  | None => ret None
  | Some cached =>
      let* current := liftT (now env) in
      let isExpired := (current - timestamp cached) >? CACHE_TTL in
      if isExpired then
        let* _ := modify (fun w => mkWorld (delete cacheKey (dataCache w)) (trace w)) in
        ret None
      else ret (Some (data cached))
  end.

Definition setCachedData (cacheKey : string) (payload : list obj) : M unit :=
  let* current := liftT (now env) in
  modify (fun w => mkWorld (<[cacheKey := mkEntry payload current]> (dataCache w)) (trace w)).

Definition getRelativeTime (dateString : jsval) : M string :=
  let date := Date_parse env dateString in
  let* current := liftT (now env) in
  ret (relativePhrase (match date with Some d => Some (current - d) | None => None end)).

(** The shape shared by [fetchJiraData], [fetchCommitsData] and
    [fetchPRsData]. *)
Definition fetchCached (cacheKey : string) (upstream : T (list obj)) : M (list obj) :=
  let* cachedData := getCachedData cacheKey in
  match cachedData with
  | Some payload => ret payload
  | None =>
      let* payload := liftT upstream in
      let* _ := setCachedData cacheKey payload in
      ret payload
  end.

Definition fetchJiraData (jiraId : string) : M (list obj) :=
  fetchCached ("jira_" ++ jiraId) (searchActiveIssuesByUser cfg env jiraId).

Definition fetchCommitsData (githubId : string) : M (list obj) :=
  fetchCached ("commits_" ++ githubId) (searchRecentCommitsByUser cfg env githubId).

Definition fetchPRsData (githubId : string) : M (list obj) :=
  fetchCached ("prs_" ++ githubId) (searchActivePRsByUser cfg env githubId).

(** [genAI.models.generateContent(...)] *)
Definition generate (prompt : string) : M (option string) :=
  liftT (call (EvGenerate prompt) (fun h => generateContent env h prompt)).

Definition classifyIntent (question : string) : M string :=
  tryCatch
    (let* intentResult := generate (intentPrompt question) in
     match intentResult with
     | None => throw (mkError "Cannot read properties of undefined (reading 'trim')")
     | Some text =>
         let intent := String_toUpperCase env (String_trim env text) in
         if isLabel intent then ret intent else ret "FULL_SUMMARY"
     end)
    (fun _ => ret "FULL_SUMMARY").

(** Step 3 of [handleAIQuery]: issues, pull requests and commits for the
    intent.  For FULL_SUMMARY the three fetches are started in the order
    of the array given to [Promise.all] and none is cancelled; their
    network waits overlap in the runtime and are laid out here one after
    the other.  [Promise.all] rejects with the reason of the promise that
    rejects first in time, which the runtime decides ([rejectionOrder]);
    the world handed over with a rejection is the one in which the fetches
    still under way have settled too. *)
Definition fetchByIntent (intent : string) (user : Identity)
  : M (list obj * list obj * list obj) :=
  if String.eqb intent "JIRA" then
    let* jiraIssues := fetchJiraData (jiraId user) in ret (jiraIssues, [], [])
  else if String.eqb intent "COMMITS" then
    let* githubCommits := fetchCommitsData (githubId user) in ret ([], [], githubCommits)
  else if String.eqb intent "PRS" then
    let* githubPRs := fetchPRsData (githubId user) in ret ([], githubPRs, [])
  else
    let* r1 := settle (fetchJiraData (jiraId user)) in
    let* r2 := settle (fetchPRsData (githubId user)) in
    let* r3 := settle (fetchCommitsData (githubId user)) in
    let* h := gets trace in
    let rejected := firstRejected (rejectionOrder env h) [r1; r2; r3] in
    match r1, r2, r3 with
    | Ok jiraIssues, Ok githubPRs, Ok githubCommits => ret (jiraIssues, githubPRs, githubCommits)
    | Throw e, _, _ => throw (default e rejected)
    | _, Throw e, _ => throw (default e rejected)
    | _, _, Throw e => throw (default e rejected)
    end.

(** Step 5: [{ ...issue, relativeTime: getRelativeTime(issue.lastUpdated) }] *)
Definition decorateIssue (issue : obj) : M obj :=
  let* phrase := getRelativeTime (getField "lastUpdated" issue) in
  ret (setField "relativeTime" (JStr phrase) issue).

Definition decorateCommit (commit : obj) : M obj :=
  let date := optChain (optChain (getField "commit" commit) "author") "date" in
  let* phrase := (if truthy date then getRelativeTime date else ret "unknown") in
  ret (setField "relativeTime" (JStr phrase) commit).

(** Step 7: the data part of the prompt. *)
Definition dataContext (jiraIssues githubPRs githubCommits : list obj) : string :=
  let hasJira := negb (length jiraIssues =? 0)%nat in
  let hasPRs := negb (length githubPRs =? 0)%nat in
  let hasCommits := negb (length githubCommits =? 0)%nat in
  nl ++ "      "
  ++ (if hasJira then "--- JIRA DATA (Active Issues) ---" ++ nl
                      ++ JSON_stringify env jiraIssues ++ nl else "")
  ++ nl ++ "      "
  ++ (if hasPRs then "--- GITHUB DATA (Active Pull Requests) ---" ++ nl
                     ++ JSON_stringify env githubPRs ++ nl else "")
  ++ nl ++ "      "
  ++ (if hasCommits then "--- GITHUB DATA (Recent Commits) ---" ++ nl
                         ++ JSON_stringify env githubCommits ++ nl else "")
  ++ nl ++ "    ".

(** Step 5: the relative times are added to the issues and to the commits;
    a collection that is empty is left as it is. *)
Definition assemble (fetched : list obj * list obj * list obj)
  : M (list obj * list obj * list obj) :=
  let '(jiraIssues, githubPRs, githubCommits) := fetched in
  let* jiraIssues :=
    (if negb (length jiraIssues =? 0)%nat then mapM decorateIssue jiraIssues
     else ret jiraIssues) in
  let* githubCommits :=
    (if negb (length githubCommits =? 0)%nat then mapM decorateCommit githubCommits
     else ret githubCommits) in
  ret (jiraIssues, githubPRs, githubCommits).

(** Steps 4 to 8, from the fetched collections to the answer. *)
Definition summarize (question : string) (user : Identity)
           (fetched : list obj * list obj * list obj) : M (option string) :=
  let '(jiraIssues, githubPRs, githubCommits) := fetched in
  if (length jiraIssues =? 0)%nat && (length githubPRs =? 0)%nat
     && (length githubCommits =? 0)%nat
  then ret (Some (noActivityMessage user))
  else
    let* assembled := assemble fetched in
    let '(jiraIssues, githubPRs, githubCommits) := assembled in
    let prompt :=
      summaryPrompt question user (dataContext jiraIssues githubPRs githubCommits) in
    let* response := generate prompt in
    ret response.

(** The [try] block of [handleAIQuery]. *)
Definition tryBlock (question : string) (user : Identity) : M (option string) :=
  let* intent := classifyIntent question in
  let* fetched := fetchByIntent intent user in
  summarize question user fetched.

(** The answer is the text handed back; [None] is [undefined], the [text]
    of a response without any. *)
Definition handleAIQuery (question : string) : M (option string) :=
  match findUserInQuery env question with
  | None => ret (Some unknownUserMessage)
  | Some user =>
      tryCatch (tryBlock question user)
               (fun error => ret (Some (errorAnswer error)))
  end.

End Orchestrator.

(** ** Sequences of cache operations *)

Inductive CacheOp : Type :=
| OpGet (kind : DataKind) (id : string)
| OpPut (kind : DataKind) (id : string) (payload : list obj).

Definition runOp (env : Env) (op : CacheOp) : M unit :=
  match op with
  | OpGet kind id => let* _ := getCachedData env (cacheKey kind id) in ret tt
  | OpPut kind id payload => setCachedData env (cacheKey kind id) payload
  end.

Fixpoint runOps (env : Env) (ops : list CacheOp) : M unit :=
  match ops with
  | [] => ret tt
  | op :: rest => let* _ := runOp env op in runOps env rest
  end.

Definition writes (kind : DataKind) (id : string) (op : CacheOp) : Prop :=
  match op with
  | OpPut kind' id' _ => kind' = kind /\ id' = id
  | OpGet _ _ => False
  end.

(** ** Observations on runs *)

(** On the texts of ASCII characters the environment's case conversions and
    [trim] are the ones of the language. *)
Definition asciiFaithful (env : Env) : Prop :=
  forall s, isAscii s = true ->
            String_toLowerCase env s = lowerAscii s
            /\ String_toUpperCase env s = upperAscii s
            /\ String_trim env s = trimAscii s.

(** Every run of [m] appends to the history, and appends only events that
    satisfy [P]. *)
Definition emitsOnly {S A : Type} (tr : S -> History) (P : Event -> Prop) (m : SE S A) : Prop :=
  forall s, exists new, tr (snd (m s)) = (new ++ tr s)%list /\ Forall P new.

(** A run of [m] returns, leaves the cache as it is and reads nothing but
    the clock. *)
Definition clockOnly {A : Type} (m : SE World A) : Prop :=
  forall w, exists a n,
    m w = (Ok a, mkWorld (dataCache w) (repeat EvNow n ++ trace w)%list).

(** Every run of [m] that starts with a cache satisfying [I] ends with
    one. *)
Definition preserves {A : Type} (I : gmap string CacheEntry -> Prop) (m : SE World A) : Prop :=
  forall w, I (dataCache w) -> I (dataCache (snd (m w))).

(** Every value a run of [m] returns satisfies [good]. *)
Definition yields {S A : Type} (good : A -> Prop) (m : SE S A) : Prop :=
  forall s a s', m s = (Ok a, s') -> good a.

(** The time elapsed, at history [h], since the date [dateString] denotes;
    [None] when it denotes none. *)
Definition elapsed (env : Env) (h : History) (dateString : jsval) : option Z :=
  match Date_parse env dateString with
  | Some d => Some (Date_now env h - d)
  | None => None
  end.

(** [issue'] is [issue] with the relative time of its last update, taken
    from the clock reading at history [h]. *)
Definition issueDecoratedAt (env : Env) (h : History) (issue issue' : obj) : Prop :=
  issue' = setField "relativeTime"
             (JStr (relativePhrase (elapsed env h (getField "lastUpdated" issue)))) issue.

(** [commit'] is [commit] with the relative time of its author date, taken
    from the clock reading at history [h], or with "unknown" when it has no
    author date. *)
Definition commitDecoratedAt (env : Env) (h : History) (commit commit' : obj) : Prop :=
  let date := optChain (optChain (getField "commit" commit) "author") "date" in
  commit' = setField "relativeTime"
              (JStr (if truthy date then relativePhrase (elapsed env h date) else "unknown"))
              commit.

(** No record of a payload has a [relativeTime] property. *)
Definition undecorated (payload : list obj) : Prop :=
  Forall (fun record => hasField "relativeTime" record = false) payload.

(** Every payload in the cache is free of [relativeTime] properties. *)
Definition cacheUndecorated (cache : gmap string CacheEntry) : Prop :=
  forall key entry, cache !! key = Some entry -> undecorated (data entry).

(** The code host's records carry no [relativeTime] property of their own. *)
Definition hostUndecorated (env : Env) : Prop :=
  (forall h owner repo author since commits,
      requestCommits env h owner repo author since = Ok commits -> undecorated commits)
  /\ (forall h owner repo pulls,
         requestPulls env h owner repo = Ok pulls -> undecorated pulls).

(** Every clock reading taken at a history from [first] to [last] lies in
    the window of [CACHE_TTL] milliseconds that starts at [t0]. *)
Definition readingsWithin (env : Env) (t0 : Z) (first last : History) : Prop :=
  forall h, first `suffix_of` h -> h `suffix_of` last ->
            t0 <= Date_now env h <= t0 + CACHE_TTL.

(** No entry of the cache was stored before [t0]. *)
Definition storedSince (t0 : Z) (cache : gmap string CacheEntry) : Prop :=
  forall key entry, cache !! key = Some entry -> t0 <= timestamp entry.

(** Step 4's test: nothing was fetched. *)
Definition nothingFetched (fetched : list obj * list obj * list obj) : bool :=
  let '(jiraIssues, githubPRs, githubCommits) := fetched in
  (length jiraIssues =? 0)%nat && (length githubPRs =? 0)%nat
  && (length githubCommits =? 0)%nat.

(** The cache holds [payload] under [key]. *)
Definition holds (cache : gmap string CacheEntry) (key : string) (payload : list obj) : Prop :=
  exists entry, cache !! key = Some entry /\ data entry = payload.

(** The cache holds what was fetched for [intent]. *)
Definition holdsFetched (cache : gmap string CacheEntry) (intent : string) (user : Identity)
           (fetched : list obj * list obj * list obj) : Prop :=
  let '(jiraIssues, githubPRs, githubCommits) := fetched in
  if String.eqb intent "JIRA" then
    holds cache ("jira_" ++ jiraId user) jiraIssues /\ githubPRs = [] /\ githubCommits = []
  else if String.eqb intent "COMMITS" then
    jiraIssues = [] /\ githubPRs = [] /\ holds cache ("commits_" ++ githubId user) githubCommits
  else if String.eqb intent "PRS" then
    jiraIssues = [] /\ holds cache ("prs_" ++ githubId user) githubPRs /\ githubCommits = []
  else
    holds cache ("jira_" ++ jiraId user) jiraIssues
    /\ holds cache ("prs_" ++ githubId user) githubPRs
    /\ holds cache ("commits_" ++ githubId user) githubCommits.

(** The calls each connector makes. *)
Definition isJiraPathCall (ev : Event) : bool :=
  match ev with EvJiraSearch _ _ _ _ => true | _ => false end.

Definition isCommitsPathCall (ev : Event) : bool :=
  match ev with
  | EvNow | EvInstallation _ | EvEvents _ | EvCommits _ _ _ _ => true
  | _ => false
  end.

Definition isPRsPathCall (ev : Event) : bool :=
  match ev with
  | EvInstallation _ | EvEvents _ | EvPulls _ _ => true
  | _ => false
  end.

(** What one iteration of a fan-out loop came to. *)
Inductive RepoOutcome : Type :=
| Skipped
| Fetched (records : list obj)
| Failed (error : JsError).

Definition outcomeOf (r : Result (option (list obj))) : RepoOutcome :=
  match r with
  | Ok None => Skipped
  | Ok (Some records) => Fetched records
  | Throw e => Failed e
  end.

(** The outcomes of the iterations over [repoFullNames], each started in
    the history the one before left. *)
Fixpoint repoOutcomes (body : string -> T (option (list obj)))
         (repoFullNames : list string) (h : History) : list RepoOutcome :=
  match repoFullNames with
  | [] => []
  | fullName :: rest =>
      let '(r, h') := body fullName h in
      outcomeOf r :: repoOutcomes body rest h'
  end.

Definition recordsOf (o : RepoOutcome) : list obj :=
  match o with Fetched records => records | _ => [] end.

(** The environment [env] with other answers from the issue tracker and
    from the pull request endpoint. *)
Definition withTrackerAndPulls (env : Env)
           (tracker : History -> string -> string -> string -> string -> Result JiraResponse)
           (pulls : History -> string -> string -> Result (list obj)) : Env :=
  mkEnv (Date_now env) (generateContent env) tracker (getInstallationOctokit env)
        (paginateEvents env) (requestCommits env) pulls
        (Date_parse env) (sevenDaysBefore env) (JSON_stringify env)
        (String_toLowerCase env) (String_toUpperCase env) (String_trim env)
        (rejectionOrder env).

(** ** Sample configurations and environments *)

Module Samples.

Definition cfg : Config :=
  mkConfig (Some "https://team.atlassian.net") (Some "bot@example.com")
           (Some "secret") (Some "ghp_token") None.

(** A clock that starts at a fixed instant and gains a second with every
    call recorded. *)
Definition clock (h : History) : Z := 1700000000000 + 1000 * Z.of_nat (length h).

Definition parseDate (v : jsval) : option Z :=
  match v with
  | JNum n => Some n
  | JStr s => if String.eqb s "2023-11-14T20:13:20.000Z" then Some 1699992800000 else None
  | _ => None
  end.

Definition stringify (records : list obj) : string :=
  "[" ++ showZ (Z.of_nat (length records)) ++ " records]".

(** A model that answers the classification prompt with [intentText] and
    every other prompt with a fixed sentence.  The sample environments
    handle texts of ASCII characters, and see the promises of [Promise.all]
    reject in the order of the array. *)
Definition model (intentText : string) (h : History) (prompt : string)
  : Result (option string) :=
  if includes "Respond with ONLY ONE of these words" prompt then Ok (Some intentText)
  else Ok (Some "Here is the summary.").

(** Nobody has any activity. *)
Definition idleEnv (intentText : string) : Env :=
  mkEnv clock (model intentText)
        (fun _ _ _ _ _ => Ok (mkJiraResponse true 200 "" (Ok [])))
        (fun _ _ => Ok tt)
        (fun _ _ => Ok [])
        (fun _ _ _ _ _ => Ok [])
        (fun _ _ _ => Ok [])
        parseDate (fun _ => "2023-11-07T22:13:20.000Z") stringify
        lowerAscii upperAscii trimAscii (fun _ => []).

Definition issueTS102 : RawIssue :=
  mkRawIssue "TS-102" "Fix login bug" "In Progress" "Bug" (Some "High")
             "2023-11-14T20:13:20.000Z".

Definition datedCommit : obj :=
  [ ("sha", JStr "9fceb02");
    ("commit", JObj [ ("author", JObj [ ("name", JStr "Mike Ross");
                                        ("date", JStr "2023-11-14T20:13:20.000Z") ]);
                      ("message", JStr "Fix login redirect") ]) ].

Definition undatedCommit : obj :=
  [ ("sha", JStr "41c3e7a"); ("commit", JObj [ ("message", JStr "Update styles") ]) ].

Definition ownPull : obj :=
  [ ("title", JStr "Login flow"); ("state", JStr "open");
    ("user", JObj [ ("login", JStr "mikeross88") ]) ].

Definition foreignPull : obj :=
  [ ("title", JStr "Docs"); ("state", JStr "open");
    ("user", JObj [ ("login", JStr "sarah-connor") ]) ].

(** One open issue, and three repositories in the activity feed, the
    second of which has since been deleted. *)
Definition busyEnv (intentText : string) : Env :=
  mkEnv clock (model intentText)
        (fun _ _ _ _ _ => Ok (mkJiraResponse true 200 "" (Ok [issueTS102])))
        (fun _ _ => Ok tt)
        (fun _ _ => Ok [Some "acme/api"; None; Some "acme/gone"; Some "acme/api"; Some "acme/web"])
        (fun _ _ repo _ _ =>
           if String.eqb repo "api" then Ok [datedCommit]
           else if String.eqb repo "web" then Ok [undatedCommit]
           else Throw (mkError "Not Found"))
        (fun _ _ repo =>
           if String.eqb repo "api" then Ok [ownPull; foreignPull]
           else if String.eqb repo "web" then Ok []
           else Throw (mkError "Not Found"))
        parseDate (fun _ => "2023-11-07T22:13:20.000Z") stringify
        lowerAscii upperAscii trimAscii (fun _ => []).

(** The activity feed answers with the code host's rate-limit error. *)
Definition limitedEnv : Env :=
  mkEnv clock (model "COMMITS")
        (fun _ _ _ _ _ => Ok (mkJiraResponse true 200 "" (Ok [])))
        (fun _ _ => Ok tt)
        (fun _ _ => Throw (mkError "API rate limit exceeded for installation ID 54041122."))
        (fun _ _ _ _ _ => Ok [])
        (fun _ _ _ => Ok [])
        parseDate (fun _ => "2023-11-07T22:13:20.000Z") stringify
        lowerAscii upperAscii trimAscii (fun _ => []).

Definition start : World := mkWorld ∅ [].

End Samples.

(** ** Further observations on runs *)

(** A pull request of the answer: one the host listed as open in the
    repository, authored by [username], with the repository's name added. *)
Definition pullFrom (env : Env) (username fullName : string) (pr : obj) : Prop :=
  exists h0 owner repo rest listed pr0,
    splitSlash fullName = owner :: repo :: rest
    /\ owner <> "" /\ repo <> ""
    /\ requestPulls env h0 owner repo = Ok listed
    /\ pr0 ∈ listed
    /\ optChain (getField "user" pr0) "login" = JStr username
    /\ pr = setField "repo" (JStr fullName) pr0.

(** A commit of the answer: one the host returned for the repository, for
    the author [username] and since seven days before a clock reading, with
    the repository's name added. *)
Definition commitFrom (env : Env) (username fullName : string) (commit : obj) : Prop :=
  exists h0 h1 owner repo rest returned commit0,
    splitSlash fullName = owner :: repo :: rest
    /\ owner <> "" /\ repo <> ""
    /\ requestCommits env h0 owner repo username (sevenDaysBefore env (Date_now env h1))
       = Ok returned
    /\ commit0 ∈ returned
    /\ commit = setField "repo" (JStr fullName) commit0.

(** Every run of [m] appends to the history, and appends at most [n]
    events that [c] counts. *)
Definition emitsAtMost {S A : Type} (tr : S -> History) (c : Event -> bool) (n : nat)
           (m : SE S A) : Prop :=
  forall s, exists new,
    tr (snd (m s)) = (new ++ tr s)%list /\ (length (List.filter c new) <= n)%nat.

Definition isFeedCall (ev : Event) : bool :=
  match ev with EvEvents _ => true | _ => false end.

Definition isCommitsRequest (ev : Event) : bool :=
  match ev with EvCommits _ _ _ _ => true | _ => false end.

Definition isPullsRequest (ev : Event) : bool :=
  match ev with EvPulls _ _ => true | _ => false end.

(** The repository a request for commits or for pull requests is about,
    and the repository a full name of the activity feed stands for: the
    first two parts of the name, when neither is empty. *)
Definition commitsTarget (ev : Event) : option (string * string) :=
  match ev with EvCommits owner repo _ _ => Some (owner, repo) | _ => None end.

Definition pullsTarget (ev : Event) : option (string * string) :=
  match ev with EvPulls owner repo => Some (owner, repo) | _ => None end.

Definition repoTarget (fullName : string) : option (string * string) :=
  match splitSlash fullName with
  | owner :: repo :: _ =>
      if negb (truthyStr owner) || negb (truthyStr repo) then None else Some (owner, repo)
  | _ => None
  end.

(** Every run of [m] appends to the history, and the requests it appends,
    told by [target] and taken in the order in which they were made, are
    for some of the repositories [wanted], in the order of [wanted], each
    position of which is asked for once at most. *)
Definition asksAmong {S A : Type} (tr : S -> History)
           (target : Event -> option (string * string)) (wanted : list (string * string))
           (m : SE S A) : Prop :=
  forall s, exists new,
    tr (snd (m s)) = (new ++ tr s)%list
    /\ omap target (reverse new) `sublist_of` wanted.

(** ** More of the issue tracker's client ([jira-client.js]) *)

Section JiraClientAll.
Context (cfg : Config) (env : Env).

(** What [searchActiveIssuesByUser] and [searchAllIssuesByUser] have in
    common: everything but the JQL text. *)
Definition searchIssuesWith (jql : string) : T (list obj) :=
  let* auth := getJiraAuthHeader cfg in
  match JIRA_HOST cfg with
  | Some jiraHost =>
      if negb (truthyStr jiraHost) then throw (mkError "JIRA_HOST is not set in .env")
      else
        let url := jiraHost ++ "/rest/api/3/search/jql" in
        tryCatch
          (let* response := call (EvJiraSearch url (fst auth) (snd auth) jql)
                                 (fun h => jiraSearch env h url (fst auth) (snd auth) jql) in
           if negb (resp_ok response) then
             let errorData := resp_text response in
             throw (mkError ("JIRA API request failed with status "
                             ++ showZ (resp_status response) ++ ": " ++ errorData))
           else
             let* issues := (fun h => (resp_issues response, h)) in
             ret (map (simplifyIssue jiraHost) issues))
          (fun err => throw err)
  | None => throw (mkError "JIRA_HOST is not set in .env")
  end.

Definition searchAllIssuesByUser (userQuery : string) : T (list obj) :=
  let* auth := getJiraAuthHeader cfg in
  match JIRA_HOST cfg with
  | Some jiraHost =>
      if negb (truthyStr jiraHost) then throw (mkError "JIRA_HOST is not set in .env")
      else
        let jql := "assignee = " ++ dq ++ userQuery ++ dq ++ " ORDER BY updated DESC" in
        let url := jiraHost ++ "/rest/api/3/search/jql" in
        tryCatch
          (let* response := call (EvJiraSearch url (fst auth) (snd auth) jql)
                                 (fun h => jiraSearch env h url (fst auth) (snd auth) jql) in
           if negb (resp_ok response) then
             let errorData := resp_text response in
             throw (mkError ("JIRA API request failed with status "
                             ++ showZ (resp_status response) ++ ": " ++ errorData))
           else
             let* issues := (fun h => (resp_issues response, h)) in
             ret (map (simplifyIssue jiraHost) issues))
          (fun err => throw err)
  | None => throw (mkError "JIRA_HOST is not set in .env")
  end.

End JiraClientAll.

(** The JQL texts of the two searches. *)
Definition activeJql (userQuery : string) : string :=
  "assignee = " ++ dq ++ userQuery ++ dq ++ " AND statusCategory != "
  ++ dq ++ "Done" ++ dq ++ " ORDER BY updated DESC".

Definition allJql (userQuery : string) : string :=
  "assignee = " ++ dq ++ userQuery ++ dq ++ " ORDER BY updated DESC".

(** The properties of a simplified issue, in order. *)
Definition issueFields : list string :=
  ["key"; "summary"; "status"; "issueType"; "priority"; "lastUpdated"; "link"].

(** The text of the error thrown for a response that is not [ok]. *)
Definition rejectionMessage (status : Z) (errorData : string) : string :=
  "JIRA API request failed with status " ++ showZ status ++ ": " ++ errorData.

Module MoreSamples.

(** The issue tracker refuses the credentials. *)
Definition rejectingEnv : Env :=
  withTrackerAndPulls (Samples.idleEnv "JIRA")
    (fun _ _ _ _ _ => Ok (mkJiraResponse false 401 "Unauthorized" (Ok [])))
    (fun _ _ _ => Ok []).

End MoreSamples.

(** ** What a query may touch, by intent *)

(** The upstream calls the fetch step of [handleAIQuery] may make for an
    intent. *)
Definition intentCall (intent : string) (ev : Event) : bool :=
  if String.eqb intent "JIRA" then isJiraPathCall ev
  else if String.eqb intent "COMMITS" then isCommitsPathCall ev
  else if String.eqb intent "PRS" then isPRsPathCall ev
  else isUpstreamCall ev.

(** The cache keys the fetch step uses for an intent and an identity. *)
Definition intentKeys (intent : string) (user : Identity) : list string :=
  if String.eqb intent "JIRA" then ["jira_" ++ jiraId user]
  else if String.eqb intent "COMMITS" then ["commits_" ++ githubId user]
  else if String.eqb intent "PRS" then ["prs_" ++ githubId user]
  else ["jira_" ++ jiraId user; "prs_" ++ githubId user; "commits_" ++ githubId user].

(** Every character of [s] is one of the six ASCII white space
    characters. *)
Definition blank (s : string) : bool := forallb isSpace (list_ascii_of_string s).

(** [trim] agrees with the language on the texts of ASCII characters. *)
Definition trimsAscii (trim : string -> string) : Prop :=
  forall s, isAscii s = true -> trim s = trimAscii s.

(** ** The HTTP routes ([server.js])

    A request is seen through the query parameters and the JSON body the
    handlers read.  The requests described are those in which every query
    parameter is given at most once, so that its value is a string.  The
    body is the object the JSON parser hands over ([Some]; an array, which
    has no [question] property, is seen as the empty object), or [None] for
    a request without a parsed JSON body, whose [req.body] Express 5 leaves
    [undefined] where Express 4 gives the empty object. *)

(** The object a handler sends back, one constructor per shape. *)
Inductive Payload : Type :=
| PError (error : string)              (* { error } *)
| PCommits (commits : list obj)        (* { commits } *)
| PPrs (prs : list obj)                (* { prs } *)
| PRepos (repos : list string)         (* { repos } *)
| PIssues (issues : list obj)          (* { issues } *)
| PAnswer (answer : option string).    (* { answer } *)

Record Response := mkResponse { statusCode : Z; payload : Payload }.

Record Request := mkRequest { query : gmap string string; body : option obj }.

Section Server.
Context (cfg : Config) (env : Env).

(** [res.status(n).json(body)] and [res.json(body)] *)
Definition status_json {S : Type} (n : Z) (sent : Payload) : SE S Response :=
  ret (mkResponse n sent).

Definition json {S : Type} (sent : Payload) : SE S Response :=
  ret (mkResponse 200 sent).

(** [app.get("/commits", ...)] *)
Definition route_commits (req : Request) : T Response :=
  tryCatch
    (let user := query req !! "user" in
     let owner := query req !! "owner" in
     let repo := query req !! "repo" in
     if negb (truthyOpt user) || negb (truthyOpt owner) || negb (truthyOpt repo) then
       status_json 400 (PError "Missing required query params: user, owner, repo")
     else
       let* commits := getRecentCommits cfg env (default "" user) (default "" owner)
                                        (default "" repo) in
       json (PCommits commits))
    (fun err => status_json 500 (PError (message err))).

(** [app.get("/prs", ...)] *)
Definition route_prs (req : Request) : T Response :=
  tryCatch
    (let user := query req !! "user" in
     let owner := query req !! "owner" in
     let repo := query req !! "repo" in
     if negb (truthyOpt user) || negb (truthyOpt owner) || negb (truthyOpt repo) then
       status_json 400 (PError "Missing required query params: user, owner, repo")
     else
       let* prs := getActivePullRequests cfg env (default "" user) (default "" owner)
                                         (default "" repo) in
       json (PPrs prs))
    (fun err => status_json 500 (PError (message err))).

(** [app.get("/repos", ...)] *)
Definition route_repos (req : Request) : T Response :=
  tryCatch
    (let user := query req !! "user" in
     if negb (truthyOpt user) then
       status_json 400 (PError "Missing required query param: user")
     else
       let* repos := getContributionRepos cfg env (default "" user) in
       json (PRepos repos))
    (fun err => status_json 500 (PError (message err))).

(** [app.get("/search/commits", ...)] *)
Definition route_search_commits (req : Request) : T Response :=
  tryCatch
    (let user := query req !! "user" in
     if negb (truthyOpt user) then
       status_json 400 (PError "Missing required query param: user")
     else
       let* commits := searchRecentCommitsByUser cfg env (default "" user) in
       json (PCommits commits))
    (fun err => status_json 500 (PError (message err))).

(** [app.get("/search/prs", ...)] *)
Definition route_search_prs (req : Request) : T Response :=
  tryCatch
    (let user := query req !! "user" in
     if negb (truthyOpt user) then
       status_json 400 (PError "Missing required query param: user")
     else
       let* prs := searchActivePRsByUser cfg env (default "" user) in
       json (PPrs prs))
    (fun err => status_json 500 (PError (message err))).

(** [app.get("/search/jira", ...)] *)
Definition route_search_jira (req : Request) : T Response :=
  tryCatch
    (let user := query req !! "user" in
     if negb (truthyOpt user) then
       status_json 400 (PError "Missing required query param: user")
     else
       let* issues := searchActiveIssuesByUser cfg env (default "" user) in
       json (PIssues issues))
    (fun err => status_json 500 (PError (message err))).

(** [app.get("/search/jira/all", ...)] *)
Definition route_search_jira_all (req : Request) : T Response :=
  tryCatch
    (let user := query req !! "user" in
     if negb (truthyOpt user) then
       status_json 400 (PError "Missing required query param: user")
     else
       let* issues := searchAllIssuesByUser cfg env (default "" user) in
       json (PIssues issues))
    (fun err => status_json 500 (PError (message err))).

(** [handleAIQuery] called with any JSON value: its first statement,
    [question.toLowerCase()] in [findUserInQuery], is outside its [try]
    block and throws a [TypeError] for a value that is not a string. *)
Definition handleAIQueryOn (question : jsval) : M (option string) :=
  match question with
  | JStr text => handleAIQuery cfg env text
  | _ => throw (mkError "question.toLowerCase is not a function")
  end.

(** [const { question } = req.body], inside the [try] block of the
    handler. *)
Definition destructureQuestion (req : Request) : M jsval :=
  match body req with
  | Some fields => ret (getField "question" fields)
  | None =>
      throw (mkError
               "Cannot destructure property 'question' of 'req.body' as it is undefined.")
  end.

(** [app.post("/ask", ...)] *)
Definition route_ask (req : Request) : M Response :=
  tryCatch
    (let* question := destructureQuestion req in
     if negb (truthy question) then
       status_json 400 (PError "Missing required body param: question")
     else
       let* answer := handleAIQueryOn question in
       json (PAnswer answer))
    (fun err => status_json 500 (PError (message err))).

End Server.

(** The routes the application registers. *)
Inductive Endpoint : Type :=
| GetCommits | GetPrs | GetRepos
| GetSearchCommits | GetSearchPrs | GetSearchJira | GetSearchJiraAll
| PostAsk.

(** The handler Express runs for a request to an endpoint. *)
Definition serve (cfg : Config) (env : Env) (endpoint : Endpoint) (req : Request)
  : M Response :=
  match endpoint with
  | GetCommits => liftT (route_commits cfg env req)
  | GetPrs => liftT (route_prs cfg env req)
  | GetRepos => liftT (route_repos cfg env req)
  | GetSearchCommits => liftT (route_search_commits cfg env req)
  | GetSearchPrs => liftT (route_search_prs cfg env req)
  | GetSearchJira => liftT (route_search_jira cfg env req)
  | GetSearchJiraAll => liftT (route_search_jira_all cfg env req)
  | PostAsk => route_ask cfg env req
  end.

(** A request lacks a parameter its endpoint requires: a query parameter
    is absent or empty, the parsed body has no [question] or a falsy one. *)
Definition lacksParam (endpoint : Endpoint) (req : Request) : bool :=
  match endpoint with
  | GetCommits | GetPrs =>
      negb (truthyOpt (query req !! "user") && truthyOpt (query req !! "owner")
            && truthyOpt (query req !! "repo"))
  | PostAsk =>
      match body req with
      | Some fields => negb (truthy (getField "question" fields))
      | None => false
      end
  | _ => negb (truthyOpt (query req !! "user"))
  end.

Definition isErrorPayload (sent : Payload) : bool :=
  match sent with PError _ => true | _ => false end.

(** ** The chat page ([public/script.js])

    The page is seen through what the script reads and writes: the value
    and the [disabled] flags of the form, the [hidden] class of the loading
    indicator and the bubbles of the chat container, to which the questions
    posted so far are added.  The scroll position and the focus are left
    out. *)

(** A message of the chat: the class added to the bubble and its
    [innerHTML]. *)
Record Bubble := mkBubble { bubbleClass : string; innerHTML : string }.

Record Page := mkPage {
  inputValue : string;
  inputDisabled : bool;
  buttonDisabled : bool;
  loadingHidden : bool;
  chat : list Bubble;
  posted : list string
}.

(** The JSON body of a reply of [/ask], as far as the script reads it: the
    [error] and the [answer] properties, when present. *)
Record ReplyBody := mkReplyBody { reply_error : option string; reply_answer : option string }.

(** The response [fetch] resolves to: [ok], [status] and [json()]. *)
Record HttpReply := mkHttpReply {
  reply_ok : bool;
  reply_status : Z;
  reply_json : Result ReplyBody
}.

Section ChatPage.
(** [String.prototype.trim] of the browser, and [fetch('/ask', ...)]: the
    response, or the rejection, for a question posted from a page. *)
Context (trim : string -> string) (fetchAsk : Page -> string -> Result HttpReply).

Definition setFormDisabled (disabled : bool) : SE Page unit :=
  modify (fun p => mkPage (inputValue p) disabled disabled (loadingHidden p) (chat p)
                          (posted p)).

(** [message] is [None] for [undefined], which [innerHTML] shows as the
    text "undefined". *)
Definition addMessageToChat (message : option string) (sender : string) : SE Page unit :=
  let messageBubble :=
    mkBubble (if String.eqb sender "user" then "user-bubble" else "bot-bubble")
             (default "undefined" message) in
  modify (fun p => mkPage (inputValue p) (inputDisabled p) (buttonDisabled p)
                          (loadingHidden p) (chat p ++ [messageBubble]) (posted p)).

(** [try { m } finally { after }], for an [after] that returns. *)
Definition finally {S A : Type} (m : SE S A) (after : SE S unit) : SE S A :=
  fun s => let '(r, s1) := m s in
           match after s1 with
           | (Ok _, s2) => (r, s2)
           | (Throw e, s2) => (Throw e, s2)
           end.

(** The listener of the form's [submit] event. *)
Definition onSubmit : SE Page unit :=
  let* value := gets inputValue in
  let question := trim value in
  if negb (truthyStr question) then ret tt
  else
    let* _ := setFormDisabled true in
    let* _ := addMessageToChat (Some question) "user" in
    let* _ := modify (fun p => mkPage "" (inputDisabled p) (buttonDisabled p)
                                      (loadingHidden p) (chat p) (posted p)) in
    let* _ := modify (fun p => mkPage (inputValue p) (inputDisabled p) (buttonDisabled p)
                                      false (chat p) (posted p)) in
    finally
      (tryCatch
         (let* response :=
            (fun p => (fetchAsk p question,
                       mkPage (inputValue p) (inputDisabled p) (buttonDisabled p)
                              (loadingHidden p) (chat p) (posted p ++ [question]))) in
          if negb (reply_ok response) then
            let* errorData := (fun p => (reply_json response, p)) in
            throw (mkError (if truthyOpt (reply_error errorData)
                            then default "" (reply_error errorData)
                            else "HTTP error! Status: " ++ showZ (reply_status response)))
          else
            let* data := (fun p => (reply_json response, p)) in
            addMessageToChat (reply_answer data) "bot")
         (fun error =>
            addMessageToChat (Some ("Sorry, an error occurred: " ++ message error)) "bot"))
      (let* _ := modify (fun p => mkPage (inputValue p) (inputDisabled p) (buttonDisabled p)
                                         true (chat p) (posted p)) in
       setFormDisabled false).

End ChatPage.

(** The text of the bot's bubble for an outcome of the request. *)
Definition botText (outcome : Result HttpReply) : string :=
  match outcome with
  | Throw e => "Sorry, an error occurred: " ++ message e
  | Ok response =>
      match reply_json response with
      | Throw e => "Sorry, an error occurred: " ++ message e
      | Ok replied =>
          if reply_ok response then default "undefined" (reply_answer replied)
          else "Sorry, an error occurred: "
               ++ (if truthyOpt (reply_error replied) then default "" (reply_error replied)
                   else "HTTP error! Status: " ++ showZ (reply_status response))
      end
  end.

(** The page from which a question is posted: the form disabled, the
    indicator shown, the input cleared and the question in the chat. *)
Definition waiting (p : Page) (question : string) : Page :=
  mkPage "" true true false (chat p ++ [mkBubble "user-bubble" question]) (posted p).

(** ** The keys of the cache *)

(** The keys under which the fetch functions can store the data of the
    identities of [userMapping]. *)
Definition registeredKeys : list string :=
  userMapping ≫= (fun entry => [ "jira_" ++ jiraId (snd entry);
                                 "prs_" ++ githubId (snd entry);
                                 "commits_" ++ githubId (snd entry) ]).

(** The cache holds entries under registered keys only. *)
Definition keysRegistered (cache : gmap string CacheEntry) : Prop :=
  forall key, key ∉ registeredKeys -> cache !! key = None.

Definition isInstallationCall (ev : Event) : bool :=
  match ev with EvInstallation _ => true | _ => false end.

(** ** Cached fetches *)

(** The history at which a cached fetch of [key] asks its connector: the
    current one when the key is absent, the one after the clock reading
    when the entry has expired, none when the entry is fresh. *)
Definition consulted (env : Env) (key : string) (w : World) : option History :=
  match dataCache w !! key with
  | None => Some (trace w)
  | Some entry =>
      if Date_now env (trace w) - timestamp entry >? CACHE_TTL then Some (EvNow :: trace w)
      else None
  end.

(** The connector behind a kind of data, the fetch function of
    [response-generator.js] that wraps it, and the identifier of a user it
    is called with. *)
Definition connector (cfg : Config) (env : Env) (kind : DataKind) (id : string)
  : T (list obj) :=
  match kind with
  | KJira => searchActiveIssuesByUser cfg env id
  | KCommits => searchRecentCommitsByUser cfg env id
  | KPRs => searchActivePRsByUser cfg env id
  end.

Definition fetchOf (cfg : Config) (env : Env) (kind : DataKind) (id : string)
  : M (list obj) :=
  match kind with
  | KJira => fetchJiraData cfg env id
  | KCommits => fetchCommitsData cfg env id
  | KPRs => fetchPRsData cfg env id
  end.

Definition idOf (kind : DataKind) (user : Identity) : string :=
  match kind with KJira => jiraId user | KCommits | KPRs => githubId user end.

(** The fetch of [kind] for [id], started in the world [w], asks its
    connector, and the connector throws [e]. *)
Definition upstreamFails (cfg : Config) (env : Env) (kind : DataKind) (id : string)
           (w : World) (e : JsError) : Prop :=
  exists h h',
    consulted env (cacheKey kind id) w = Some h
    /\ connector cfg env kind id h = (Throw e, h').

(** The kind of data a single-kind intent asks for. *)
Definition kindOfIntent (intent : string) : option DataKind :=
  if String.eqb intent "JIRA" then Some KJira
  else if String.eqb intent "COMMITS" then Some KCommits
  else if String.eqb intent "PRS" then Some KPRs
  else None.

(** * Properties *)

(** ** Strings *)

Section StringFacts.

Lemma append_nil_l (s : string) : "" ++ s = s.
Proof. reflexivity. Qed.

Lemma append_nil_r (s : string) : s ++ "" = s.
Proof. induction s as [|c s IH]; [done|]. change (String c (s ++ "") = String c s). by rewrite IH. Qed.

Lemma append_cons (c : ascii) (s t : string) : String c s ++ t = String c (s ++ t).
Proof. reflexivity. Qed.

Lemma startsWith_app (needle rest : string) : startsWith needle (needle ++ rest) = true.
Proof.
  induction needle as [|c needle IH]; [done|].
  rewrite append_cons. simpl. by rewrite Ascii.eqb_refl.
Qed.

Lemma startsWith_inv (needle hay : string) :
  startsWith needle hay = true -> exists rest, hay = needle ++ rest.
Proof.
  revert hay; induction needle as [|c needle IH]; intros hay Hs.
  - by exists hay.
  - destruct hay as [|d hay]; simpl in Hs; [done|].
    destruct (Ascii.eqb c d) eqn:Hcd; [|done].
    apply Ascii.eqb_eq in Hcd as ->.
    destruct (IH _ Hs) as [rest ->]. by exists rest.
Qed.

Lemma includes_unfold (needle hay : string) :
  includes needle hay =
  if startsWith needle hay then true
  else match hay with EmptyString => false | String _ h => includes needle h end.
Proof. by destruct hay. Qed.

Lemma includes_app (needle pre post : string) :
  includes needle (pre ++ needle ++ post) = true.
Proof.
  induction pre as [|c pre IH].
  - rewrite includes_unfold, append_nil_l. by rewrite startsWith_app.
  - rewrite includes_unfold, append_cons, IH. by destruct (startsWith _ _).
Qed.

Lemma includes_inv (needle hay : string) :
  includes needle hay = true -> exists pre post, hay = pre ++ needle ++ post.
Proof.
  induction hay as [|c hay IH]; rewrite includes_unfold.
  - destruct (startsWith needle "") eqn:Hs; [|done]. intros _.
    apply startsWith_inv in Hs as [rest ->]. by exists "", rest.
  - destruct (startsWith needle (String c hay)) eqn:Hs.
    + intros _. apply startsWith_inv in Hs as [rest ->]. by exists "", rest.
    + intros [pre [post ->]]%IH. by exists (String c pre), post.
Qed.

Lemma mapChars_app (f : ascii -> ascii) (a b : string) :
  mapChars f (a ++ b) = mapChars f a ++ mapChars f b.
Proof.
  induction a as [|c a IH]; [done|].
  rewrite append_cons. simpl. by rewrite IH.
Qed.

Lemma append_assoc (a b c : string) : (a ++ b) ++ c = a ++ b ++ c.
Proof. induction a as [|x a IH]; [done|]. by rewrite !append_cons, IH. Qed.

Lemma isAscii_app (a b : string) : isAscii (a ++ b) = isAscii a && isAscii b.
Proof.
  induction a as [|x a IH]; [done|]. rewrite append_cons. simpl.
  by rewrite IH, andb_assoc.
Qed.

(** A text that contains some spelling of [key], whatever the case of its
    letters, contains [key] once lowered. *)
Lemma includes_any_case (key pre spelled post : string) :
  lowerAscii spelled = key ->
  includes key (lowerAscii (pre ++ spelled ++ post)) = true.
Proof.
  intros <-. unfold lowerAscii. rewrite !mapChars_app. apply includes_app.
Qed.

End StringFacts.

(** ** Identity resolution *)

Section Resolver.

Lemma firstIncluded_skip (q : string) (before rest : list (string * Identity)) :
  (forall key user, (key, user) ∈ before -> includes key q = false) ->
  firstIncluded q (before ++ rest) = firstIncluded q rest.
Proof.
  induction before as [|[k u] before IH]; intros Hnone; simpl; [done|].
  rewrite (Hnone k u) by left. apply IH. intros key user Hin.
  apply (Hnone key user). by right.
Qed.

Lemma firstIncluded_none (q : string) (table : list (string * Identity)) :
  (forall key user, (key, user) ∈ table -> includes key q = false) ->
  firstIncluded q table = None.
Proof.
  intros Hnone. rewrite <- (app_nil_r table). by rewrite firstIncluded_skip.
Qed.

Lemma firstIncluded_some (q : string) (table : list (string * Identity)) (user : Identity) :
  firstIncluded q table = Some user ->
  exists i key, table !! i = Some (key, user) /\ includes key q = true
    /\ forall j key' user', (j < i)%nat -> table !! j = Some (key', user') ->
                            includes key' q = false.
Proof.
  induction table as [|[k u] table IH]; simpl; [done|].
  destruct (includes k q) eqn:Hk.
  - intros [= ->]. exists 0%nat, k. repeat split; [done|]. intros; lia.
  - intros (i & key & Hi & Hkey & Hbefore)%IH. exists (S i), key.
    repeat split; [done..|]. intros [|j] key' user' Hj Hlook; simpl in Hlook.
    + by injection Hlook as -> ->.
    + apply (Hbefore j key' user'); [lia|done].
Qed.

Lemma firstIncluded_at (q : string) (table : list (string * Identity)) i key user :
  table !! i = Some (key, user) ->
  includes key q = true ->
  (forall j key' user', (j < i)%nat -> table !! j = Some (key', user') ->
                        includes key' q = false) ->
  firstIncluded q table = Some user.
Proof.
  intros Hi Hkey Hbefore.
  rewrite <- (take_drop_middle table i (key, user) Hi).
  rewrite firstIncluded_skip; [simpl; by rewrite Hkey|].
  intros key' user' [j Hj]%list_elem_of_lookup.
  pose proof (lookup_lt_Some _ _ _ Hj) as Hlen. rewrite length_take in Hlen.
  rewrite lookup_take_lt in Hj by lia. apply (Hbefore j key' user'); [lia|done].
Qed.

Lemma userMapping_ids_nonempty key user :
  (key, user) ∈ userMapping -> jiraId user <> "" /\ githubId user <> "".
Proof.
  unfold userMapping. rewrite !elem_of_cons, elem_of_nil.
  intros H; repeat (destruct H as [H|H]); try done; by injection H as -> ->.
Qed.

End Resolver.
(** The text whose lowered form decides the resolution: two questions in
    which the same aliases occur resolve alike. *)
Lemma firstIncluded_same_aliases (q1 q2 : string) (table : list (string * Identity)) :
  (forall key user, (key, user) ∈ table -> includes key q1 = includes key q2) ->
  firstIncluded q1 table = firstIncluded q2 table.
Proof.
  induction table as [|[k u] table IH]; intros Hsame; simpl; [done|].
  rewrite (Hsame k u) by left. destruct (includes k q2); [done|].
  apply IH. intros key user Hin. apply (Hsame key user). by right.
Qed.

(** The sample environments convert ASCII texts as the language does. *)
Lemma idleEnv_asciiFaithful (intentText : string) :
  asciiFaithful (Samples.idleEnv intentText).
Proof. by intros s _. Qed.

Lemma busyEnv_asciiFaithful (intentText : string) :
  asciiFaithful (Samples.busyEnv intentText).
Proof. by intros s _. Qed.

(** C4 (amended): a text whose lower-case form contains a known alias
    resolves to that alias's identity provided no alias defined earlier in
    the table occurs in it as well; this is so, in particular, of a text of
    ASCII characters that contains some spelling of the alias, in any letter
    case; a text in whose lower-case form no known alias occurs resolves to
    nothing; and every identity resolved has a non-empty tracker id and a
    non-empty code-host id. *)
Theorem resolve_known_alias (env : Env) :
  (forall text i key user,
      userMapping !! i = Some (key, user) ->
      includes key (String_toLowerCase env text) = true ->
      (forall j key' user', (j < i)%nat -> userMapping !! j = Some (key', user') ->
                            includes key' (String_toLowerCase env text) = false) ->
      findUserInQuery env text = Some user)
  /\ (asciiFaithful env ->
      forall i key user pre spelled post,
        userMapping !! i = Some (key, user) ->
        isAscii (pre ++ spelled ++ post) = true ->
        lowerAscii spelled = key ->
        (forall j key' user', (j < i)%nat -> userMapping !! j = Some (key', user') ->
                              includes key' (lowerAscii (pre ++ spelled ++ post)) = false) ->
        findUserInQuery env (pre ++ spelled ++ post) = Some user)
  /\ (forall text,
         (forall key user, (key, user) ∈ userMapping ->
                           includes key (String_toLowerCase env text) = false) ->
         findUserInQuery env text = None)
  /\ (forall text user,
         findUserInQuery env text = Some user -> jiraId user <> "" /\ githubId user <> "").
Proof.
  split; [|split; [|split]].
  - intros text i key user Hi Hkey Hbefore. unfold findUserInQuery.
    by apply (firstIncluded_at _ _ i key).
  - intros Hfaithful i key user pre spelled post Hi Hascii Hlow Hbefore.
    unfold findUserInQuery. destruct (Hfaithful _ Hascii) as (-> & _ & _).
    apply (firstIncluded_at _ _ i key); [done| |done].
    by apply includes_any_case.
  - intros text Hnone. by apply firstIncluded_none.
  - intros text user (i & key & Hi & _)%firstIncluded_some.
    apply (userMapping_ids_nonempty key). apply list_elem_of_lookup. by exists i.
Qed.

Lemma resolve_known_alias_witness :
  findUserInQuery (Samples.idleEnv "JIRA") ("What is " ++ "MiKe" ++ " doing?")
  = Some (mkIdentity "Mike Ross" "mikeross88")
  /\ findUserInQuery (Samples.idleEnv "JIRA") "What is Harvey doing?" = None.
Proof.
  split.
  - apply (proj1 (proj2 (resolve_known_alias (Samples.idleEnv "JIRA")))
             (idleEnv_asciiFaithful "JIRA") 3%nat "mike"); [reflexivity..|].
    intros [|[|[|j]]] key' user' Hj Hlook; [| | |lia];
      injection Hlook as <- <-; vm_compute; reflexivity.
  - apply (proj1 (proj2 (proj2 (resolve_known_alias (Samples.idleEnv "JIRA"))))).
    unfold userMapping. intros key user. rewrite !elem_of_cons, elem_of_nil.
    intros H; repeat (destruct H as [H|H]); [..|destruct H];
      injection H as -> ->; vm_compute; reflexivity.
Defined.

(** C4, as stated, fails: "lisa" is a known alias of Lisa Smith and occurs
    in the text, which resolves to Mike Ross, whose alias is defined
    earlier. *)
Lemma resolve_later_alias_shadowed :
  ("lisa", mkIdentity "Lisa Smith" "lsmith") ∈ userMapping
  /\ isAscii "Has Lisa reviewed what Mike pushed?" = true
  /\ includes "lisa" (lowerAscii "Has Lisa reviewed what Mike pushed?") = true
  /\ findUserInQuery (Samples.idleEnv "JIRA") "Has Lisa reviewed what Mike pushed?"
     = Some (mkIdentity "Mike Ross" "mikeross88")
  /\ findUserInQuery (Samples.idleEnv "JIRA") "Has Lisa reviewed what Mike pushed?"
     <> Some (mkIdentity "Lisa Smith" "lsmith").
Proof.
  split; [|split; [|split; [|split]]]; [|reflexivity|reflexivity|reflexivity|discriminate].
  unfold userMapping. rewrite !elem_of_cons. tauto.
Qed.

(** C10: the resolution is a function of the question alone; among the
    aliases that occur in the lower-case form of the question the one
    defined first in the table gives the identity, and two questions in
    which the same aliases occur, wherever they stand, resolve alike; so a
    question of ASCII characters that holds spellings of two aliases, in
    any letter case, resolves to the identity of the alias defined first,
    in whichever order the two stand in the question. *)
Theorem findUserInQuery_first_registered (env : Env) :
  (forall question i key user,
      userMapping !! i = Some (key, user) ->
      includes key (String_toLowerCase env question) = true ->
      (forall j key' user', (j < i)%nat -> userMapping !! j = Some (key', user') ->
                            includes key' (String_toLowerCase env question) = false) ->
      findUserInQuery env question = Some user)
  /\ (forall question user,
         findUserInQuery env question = Some user ->
         exists i key, userMapping !! i = Some (key, user)
           /\ includes key (String_toLowerCase env question) = true
           /\ forall j key' user', (j < i)%nat -> userMapping !! j = Some (key', user') ->
                                   includes key' (String_toLowerCase env question) = false)
  /\ (forall question1 question2,
         (forall key user, (key, user) ∈ userMapping ->
            includes key (String_toLowerCase env question1)
            = includes key (String_toLowerCase env question2)) ->
         findUserInQuery env question1 = findUserInQuery env question2)
  /\ (asciiFaithful env ->
      forall i1 i2 key1 user1 key2 user2 spelled1 spelled2 a b c,
        userMapping !! i1 = Some (key1, user1) ->
        userMapping !! i2 = Some (key2, user2) ->
        (i1 < i2)%nat ->
        lowerAscii spelled1 = key1 -> lowerAscii spelled2 = key2 ->
        isAscii (a ++ spelled1 ++ b ++ spelled2 ++ c) = true ->
        (forall j key' user', (j < i1)%nat -> userMapping !! j = Some (key', user') ->
           includes key' (lowerAscii (a ++ spelled1 ++ b ++ spelled2 ++ c)) = false
           /\ includes key' (lowerAscii (a ++ spelled2 ++ b ++ spelled1 ++ c)) = false) ->
        findUserInQuery env (a ++ spelled1 ++ b ++ spelled2 ++ c) = Some user1
        /\ findUserInQuery env (a ++ spelled2 ++ b ++ spelled1 ++ c) = Some user1).
Proof.
  split; [|split; [|split]].
  - intros question i key user Hi Hkey Hbefore.
    by apply (firstIncluded_at _ _ i key).
  - intros question user Hfound. by apply firstIncluded_some.
  - intros question1 question2 Hsame. by apply firstIncluded_same_aliases.
  - intros Hfaithful i1 i2 key1 user1 key2 user2 spelled1 spelled2 a b c
           Hi1 Hi2 Hlt Hlow1 Hlow2 Hascii Hbefore.
    assert (isAscii (a ++ spelled2 ++ b ++ spelled1 ++ c) = true) as Hascii'.
    { rewrite !isAscii_app in *. repeat (apply andb_true_iff in Hascii as [? Hascii]).
      repeat (apply andb_true_iff; split); done. }
    unfold findUserInQuery.
    destruct (Hfaithful _ Hascii) as (-> & _ & _).
    destruct (Hfaithful _ Hascii') as (-> & _ & _). split.
    + apply (firstIncluded_at _ _ i1 key1); [done|by apply includes_any_case|].
      intros j key' user' Hj Hlook. by apply (Hbefore j key' user').
    + apply (firstIncluded_at _ _ i1 key1); [done| |].
      * rewrite <- (append_assoc spelled2 b), <- (append_assoc a).
        by apply includes_any_case.
      * intros j key' user' Hj Hlook. by apply (Hbefore j key' user').
Qed.

Lemma findUserInQuery_first_registered_witness :
  findUserInQuery (Samples.idleEnv "JIRA") ("Has " ++ "Mike" ++ " reviewed what " ++ "Lisa"
                                            ++ " pushed?")
  = Some (mkIdentity "Mike Ross" "mikeross88")
  /\ findUserInQuery (Samples.idleEnv "JIRA") ("Has " ++ "Lisa" ++ " reviewed what " ++ "Mike"
                                               ++ " pushed?")
     = Some (mkIdentity "Mike Ross" "mikeross88").
Proof.
  apply (proj2 (proj2 (proj2 (findUserInQuery_first_registered (Samples.idleEnv "JIRA"))))
           (idleEnv_asciiFaithful "JIRA") 3%nat 5%nat
           "mike" (mkIdentity "Mike Ross" "mikeross88")
           "lisa" (mkIdentity "Lisa Smith" "lsmith")
           "Mike" "Lisa" "Has " " reviewed what " " pushed?");
    [reflexivity|reflexivity|lia|reflexivity|reflexivity|reflexivity|].
  intros [|[|[|j]]] key' user' Hj Hlook; [| | |lia];
    injection Hlook as <- <-; split; vm_compute; reflexivity.
Defined.

(** ** The data cache *)

Section Cache.
Context (env : Env).

Lemma cacheKey_inj kind1 id1 kind2 id2 :
  cacheKey kind1 id1 = cacheKey kind2 id2 -> kind1 = kind2 /\ id1 = id2.
Proof.
  destruct kind1, kind2; intros H; vm_compute in H; try discriminate;
    by injection H as ->.
Qed.

Lemma setCachedData_run (key : string) (payload : list obj) (w : World) :
  setCachedData env key payload w
  = (Ok tt, mkWorld (<[key := mkEntry payload (Date_now env (trace w))]> (dataCache w))
                    (EvNow :: trace w)).
Proof. reflexivity. Qed.

Lemma getCachedData_absent (key : string) (w : World) :
  dataCache w !! key = None -> getCachedData env key w = (Ok None, w).
Proof.
  intros Hnone. unfold getCachedData, bind, gets. by rewrite Hnone.
Qed.

Lemma getCachedData_expired (key : string) (w : World) (entry : CacheEntry) :
  dataCache w !! key = Some entry ->
  Date_now env (trace w) - timestamp entry > CACHE_TTL ->
  getCachedData env key w
  = (Ok None, mkWorld (delete key (dataCache w)) (EvNow :: trace w)).
Proof.
  intros Hentry Hold. unfold getCachedData, bind, gets. rewrite Hentry. simpl.
  destruct (Z.gtb_spec (Date_now env (trace w) - timestamp entry) CACHE_TTL); [done|lia].
Qed.

Lemma getCachedData_fresh (key : string) (w : World) (entry : CacheEntry) :
  dataCache w !! key = Some entry ->
  Date_now env (trace w) - timestamp entry <= CACHE_TTL ->
  getCachedData env key w
  = (Ok (Some (data entry)), mkWorld (dataCache w) (EvNow :: trace w)).
Proof.
  intros Hentry Hyoung. unfold getCachedData, bind, gets. rewrite Hentry. simpl.
  destruct (Z.gtb_spec (Date_now env (trace w) - timestamp entry) CACHE_TTL); [lia|done].
Qed.

(** A read never fails, and leaves other keys as they were. *)
Lemma getCachedData_other (key key' : string) (w : World) :
  key <> key' ->
  exists r w', getCachedData env key' w = (Ok r, w')
               /\ dataCache w' !! key = dataCache w !! key.
Proof.
  intros Hne. destruct (dataCache w !! key') as [entry|] eqn:Hentry.
  - destruct (Z_gt_le_dec (Date_now env (trace w) - timestamp entry) CACHE_TTL).
    + rewrite (getCachedData_expired _ _ entry) by done.
      eexists _, _; split; [done|]. simpl. by rewrite lookup_delete_ne.
    + rewrite (getCachedData_fresh _ _ entry) by done. by eexists _, _.
  - rewrite getCachedData_absent by done. by eexists _, _.
Qed.

Lemma getCachedData_keeps_absent (key key' : string) (w : World) :
  dataCache w !! key = None ->
  exists r w', getCachedData env key' w = (Ok r, w') /\ dataCache w' !! key = None.
Proof.
  intros Hnone. destruct (decide (key = key')) as [<-|Hne].
  - rewrite getCachedData_absent by done. by eexists _, _.
  - destruct (getCachedData_other key key' w Hne) as (r & w' & Hrun & Hsame).
    exists r, w'. by rewrite Hsame.
Qed.

Lemma runOps_cons (op : CacheOp) (rest : list CacheOp) (w : World) :
  runOps env (op :: rest) w
  = match runOp env op w with
    | (Ok _, w') => runOps env rest w'
    | (Throw e, w') => (Throw e, w')
    end.
Proof. reflexivity. Qed.

Lemma runOp_get (kind : DataKind) (id : string) (w : World) :
  runOp env (OpGet kind id) w
  = match getCachedData env (cacheKey kind id) w with
    | (Ok _, w') => (Ok tt, w')
    | (Throw e, w') => (Throw e, w')
    end.
Proof. reflexivity. Qed.

Lemma runOps_never_written (kind : DataKind) (id : string) (ops : list CacheOp) (w : World) :
  dataCache w !! cacheKey kind id = None ->
  Forall (fun op => ~ writes kind id op) ops ->
  exists w', runOps env ops w = (Ok tt, w') /\ dataCache w' !! cacheKey kind id = None.
Proof.
  intros Hnone Hops. revert w Hnone.
  induction Hops as [|op ops Hop _ IH]; intros w Hnone; [by exists w|].
  rewrite runOps_cons. destruct op as [kind' id'|kind' id' payload].
  - destruct (getCachedData_keeps_absent _ (cacheKey kind' id') w Hnone)
      as (r & w' & Hrun & Hnone').
    rewrite runOp_get, Hrun. by apply IH.
  - change (runOp env (OpPut kind' id' payload) w)
      with (setCachedData env (cacheKey kind' id') payload w).
    rewrite setCachedData_run. apply IH. simpl. rewrite lookup_insert_ne; [done|].
    intros Heq. apply cacheKey_inj in Heq. by apply Hop.
Qed.

End Cache.

(** C3: for every data kind and identifier, a read of a key that was never
    written misses and changes nothing; a write stores the payload stamped
    with the clock reading of the write; a read more than [CACHE_TTL] (five
    minutes) after that stamp misses and deletes the entry; a read no later
    than that returns the payload; in particular a read right after a write,
    within the window, returns exactly what was written. *)
Theorem cache_get_put (env : Env) (kind : DataKind) (id : string) :
  CACHE_TTL = 300000
  /\ (forall ops h0,
         Forall (fun op => ~ writes kind id op) ops ->
         exists w, runOps env ops (mkWorld ∅ h0) = (Ok tt, w)
                   /\ getCachedData env (cacheKey kind id) w = (Ok None, w))
  /\ (forall w payload,
         setCachedData env (cacheKey kind id) payload w
         = (Ok tt, mkWorld (<[cacheKey kind id := mkEntry payload (Date_now env (trace w))]>
                              (dataCache w))
                           (EvNow :: trace w)))
  /\ (forall w entry,
         dataCache w !! cacheKey kind id = Some entry ->
         Date_now env (trace w) - timestamp entry > CACHE_TTL ->
         getCachedData env (cacheKey kind id) w
         = (Ok None, mkWorld (delete (cacheKey kind id) (dataCache w)) (EvNow :: trace w)))
  /\ (forall w entry,
         dataCache w !! cacheKey kind id = Some entry ->
         Date_now env (trace w) - timestamp entry <= CACHE_TTL ->
         getCachedData env (cacheKey kind id) w
         = (Ok (Some (data entry)), mkWorld (dataCache w) (EvNow :: trace w)))
  /\ (forall w payload w1,
         setCachedData env (cacheKey kind id) payload w = (Ok tt, w1) ->
         Date_now env (trace w1) - Date_now env (trace w) <= CACHE_TTL ->
         getCachedData env (cacheKey kind id) w1
         = (Ok (Some payload), mkWorld (dataCache w1) (EvNow :: trace w1))).
Proof.
  split; [reflexivity|]. split; [|split; [|split; [|split]]].
  - intros ops h0 Hops.
    destruct (runOps_never_written env kind id ops (mkWorld ∅ h0)) as (w & Hrun & Hnone);
      [apply lookup_empty|done|].
    exists w. split; [done|]. by apply getCachedData_absent.
  - intros w payload. apply setCachedData_run.
  - intros w entry. apply getCachedData_expired.
  - intros w entry. apply getCachedData_fresh.
  - intros w payload w1. rewrite setCachedData_run. intros [= <-] Hyoung.
    simpl in *. rewrite (getCachedData_fresh _ _ _ (mkEntry payload (Date_now env (trace w))));
      [done|apply lookup_insert_eq|done].
Qed.

Lemma cache_get_put_witness :
  getCachedData (Samples.idleEnv "JIRA") (cacheKey KCommits "mikeross88")
                (mkWorld ∅ [EvNow; EvNow])
  = (Ok None, mkWorld ∅ [EvNow; EvNow])
  /\ getCachedData (Samples.idleEnv "JIRA") (cacheKey KJira "Mike Ross")
       (mkWorld {[ cacheKey KJira "Mike Ross" := mkEntry [] 1699999000000 ]} [])
     = (Ok None, mkWorld (delete (cacheKey KJira "Mike Ross")
                            {[ cacheKey KJira "Mike Ross" := mkEntry [] 1699999000000 ]})
                         [EvNow])
  /\ getCachedData (Samples.idleEnv "JIRA") (cacheKey KJira "Mike Ross")
       (mkWorld {[ cacheKey KJira "Mike Ross" := mkEntry [Samples.ownPull] 1699999700000 ]} [])
     = (Ok (Some [Samples.ownPull]),
        mkWorld {[ cacheKey KJira "Mike Ross" := mkEntry [Samples.ownPull] 1699999700000 ]}
                [EvNow]).
Proof.
  pose proof (cache_get_put (Samples.idleEnv "JIRA") KCommits "mikeross88")
    as (_ & Hnever & _).
  pose proof (cache_get_put (Samples.idleEnv "JIRA") KJira "Mike Ross")
    as (_ & _ & _ & Hexpired & Hfresh & _).
  split; [|split].
  - destruct (Hnever [OpGet KJira "Mike Ross"; OpGet KCommits "mikeross88"] [EvNow; EvNow])
      as (w & Hrun & Hget).
    + repeat constructor; simpl; tauto.
    + vm_compute in Hrun. injection Hrun as <-. exact Hget.
  - refine (Hexpired (mkWorld {[ cacheKey KJira "Mike Ross" := mkEntry [] 1699999000000 ]} [])
                     (mkEntry [] 1699999000000) _ _); [apply lookup_singleton_eq|].
    vm_compute. reflexivity.
  - refine (Hfresh (mkWorld {[ cacheKey KJira "Mike Ross"
                               := mkEntry [Samples.ownPull] 1699999700000 ]} [])
                   (mkEntry [Samples.ownPull] 1699999700000) _ _); [apply lookup_singleton_eq|].
    vm_compute. discriminate.
Defined.

(** ** Running monadic code *)

Section Runs.
Context {S : Type}.

Lemma bind_ok {A B} (m : SE S A) (k : A -> SE S B) s a s' :
  m s = (Ok a, s') -> bind m k s = k a s'.
Proof. intros Hm. unfold bind. by rewrite Hm. Qed.

Lemma tryCatch_ok {A} (m : SE S A) (handler : JsError -> SE S A) s a s' :
  m s = (Ok a, s') -> tryCatch m handler s = (Ok a, s').
Proof. intros Hm. unfold tryCatch. by rewrite Hm. Qed.

Lemma tryCatch_throw {A} (m : SE S A) (handler : JsError -> SE S A) s e s' :
  m s = (Throw e, s') -> tryCatch m handler s = handler e s'.
Proof. intros Hm. unfold tryCatch. by rewrite Hm. Qed.

Context (tr : S -> History) (P : Event -> Prop).

Lemma emits_ret {A} (a : A) : emitsOnly tr P (ret a).
Proof. intros s. by exists []. Qed.

Lemma emits_throw {A} (e : JsError) : emitsOnly tr P (@throw S A e).
Proof. intros s. by exists []. Qed.

Lemma emits_gets {A} (f : S -> A) : emitsOnly tr P (gets f).
Proof. intros s. by exists []. Qed.

Lemma emits_modify (f : S -> S) : (forall s, tr (f s) = tr s) -> emitsOnly tr P (modify f).
Proof. intros Hf s. exists []. by rewrite <- (Hf s). Qed.

Lemma emits_bind {A B} (m : SE S A) (k : A -> SE S B) :
  emitsOnly tr P m -> (forall a, emitsOnly tr P (k a)) -> emitsOnly tr P (bind m k).
Proof.
  intros Hm Hk s. destruct (Hm s) as (new1 & Htr1 & HP1). unfold bind.
  destruct (m s) as [[a|e] s1]; simpl in Htr1.
  - destruct (Hk a s1) as (new2 & Htr2 & HP2). exists (new2 ++ new1)%list.
    rewrite Htr2, Htr1, app_assoc. split; [done|]. by apply Forall_app.
  - by exists new1.
Qed.

Lemma emits_tryCatch {A} (m : SE S A) (handler : JsError -> SE S A) :
  emitsOnly tr P m -> (forall e, emitsOnly tr P (handler e)) ->
  emitsOnly tr P (tryCatch m handler).
Proof.
  intros Hm Hh s. destruct (Hm s) as (new1 & Htr1 & HP1). unfold tryCatch.
  destruct (m s) as [[a|e] s1]; simpl in Htr1.
  - by exists new1.
  - destruct (Hh e s1) as (new2 & Htr2 & HP2). exists (new2 ++ new1)%list.
    rewrite Htr2, Htr1, app_assoc. split; [done|]. by apply Forall_app.
Qed.

Lemma emits_settle {A} (m : SE S A) : emitsOnly tr P m -> emitsOnly tr P (settle m).
Proof.
  intros Hm s. destruct (Hm s) as (new & Htr & HP). unfold settle.
  destruct (m s) as [r s1]. by exists new.
Qed.

End Runs.

Lemma emits_weaken {S A} (tr : S -> History) (P Q : Event -> Prop) (m : SE S A) :
  (forall ev, P ev -> Q ev) -> emitsOnly tr P m -> emitsOnly tr Q m.
Proof.
  intros HPQ Hm s. destruct (Hm s) as (new & Htr & HP). exists new.
  split; [done|]. by apply (Forall_impl _ _ _ HP).
Qed.

Lemma emits_call {A} (P : Event -> Prop) (ev : Event) (answer : History -> Result A) :
  P ev -> emitsOnly (fun h : History => h) P (call ev answer).
Proof. intros Hev h. exists [ev]. split; [done|]. by constructor. Qed.

Lemma emits_liftT {A} (P : Event -> Prop) (m : T A) :
  emitsOnly (fun h : History => h) P m -> emitsOnly trace P (liftT m).
Proof.
  intros Hm w. destruct (Hm (trace w)) as (new & Htr & HP). exists new.
  unfold liftT. destruct (m (trace w)) as [r h]. by split.
Qed.

(** One step of a proof that a computation emits only permitted events. *)
Ltac emits_step :=
  first
    [ apply emits_ret
    | apply emits_throw
    | apply emits_gets
    | apply emits_call; done
    | apply emits_bind; [|intros ?]
    | apply emits_tryCatch; [|intros ?]
    | apply emits_settle
    | apply emits_liftT
    | match goal with
      | |- emitsOnly _ _ (match ?x with _ => _ end) => destruct x
      end ].

(** ** The connectors' calls *)

Section ConnectorCalls.
Context (cfg : Config) (env : Env).

Abbreviation onHistory := (fun h : History => h).

Lemma getOctokit_emits (P : Event -> Prop) :
  (forall id, P (EvInstallation id)) -> emitsOnly onHistory P (getOctokit cfg env).
Proof. intros HP. unfold getOctokit. repeat emits_step. Qed.

Lemma getRecentCommits_emits username owner repo :
  emitsOnly onHistory (fun ev => isCommitsPathCall ev = true)
            (getRecentCommits cfg env username owner repo).
Proof.
  unfold getRecentCommits. emits_step; [by apply getOctokit_emits|].
  unfold now. repeat emits_step.
Qed.

Lemma getActivePullRequests_emits username owner repo :
  emitsOnly onHistory (fun ev => isPRsPathCall ev = true)
            (getActivePullRequests cfg env username owner repo).
Proof.
  unfold getActivePullRequests. emits_step; [by apply getOctokit_emits|].
  repeat emits_step.
Qed.

Lemma getContributionRepos_emits (P : Event -> Prop) username :
  (forall id, P (EvInstallation id)) -> P (EvEvents username) ->
  emitsOnly onHistory P (getContributionRepos cfg env username).
Proof.
  intros HP1 HP2. unfold getContributionRepos.
  emits_step; [by apply getOctokit_emits|]. repeat emits_step.
Qed.

Lemma fanOut_emits (P : Event -> Prop) body repoFullNames all :
  (forall fullName, emitsOnly onHistory P (body fullName)) ->
  emitsOnly onHistory P (fanOut body repoFullNames all).
Proof.
  intros Hbody. revert all.
  induction repoFullNames as [|fullName rest IH]; intros all; simpl; [apply emits_ret|].
  emits_step; [|apply IH]. emits_step; [apply Hbody|apply emits_ret].
Qed.

Lemma searchRecentCommitsByUser_emits username :
  emitsOnly onHistory (fun ev => isCommitsPathCall ev = true)
            (searchRecentCommitsByUser cfg env username).
Proof.
  unfold searchRecentCommitsByUser.
  emits_step; [by apply getContributionRepos_emits|].
  apply fanOut_emits. intros fullName. unfold commitsOfRepo.
  repeat first [apply getRecentCommits_emits | emits_step].
Qed.

Lemma searchActivePRsByUser_emits username :
  emitsOnly onHistory (fun ev => isPRsPathCall ev = true)
            (searchActivePRsByUser cfg env username).
Proof.
  unfold searchActivePRsByUser.
  emits_step; [by apply getContributionRepos_emits|].
  apply fanOut_emits. intros fullName. unfold prsOfRepo.
  repeat first [apply getActivePullRequests_emits | emits_step].
Qed.

Lemma searchActiveIssuesByUser_emits userQuery :
  emitsOnly onHistory (fun ev => isJiraPathCall ev = true)
            (searchActiveIssuesByUser cfg env userQuery).
Proof.
  unfold searchActiveIssuesByUser, getJiraAuthHeader.
  repeat emits_step. intros h. by exists [].
Qed.

End ConnectorCalls.

(** ** Intent classification *)

Lemma isLabel_elem (intent : string) : isLabel intent = true -> intent ∈ intentLabels.
Proof.
  unfold isLabel, intentLabels. simpl. rewrite !orb_true_iff, !String.eqb_eq.
  intros [->|[->|[->|[->|?]]]]; [set_solver..|done].
Qed.

Lemma isAscii_trimStart (s : string) : isAscii s = true -> isAscii (trimStart s) = true.
Proof.
  induction s as [|c t IH]; [done|]. simpl. intros [Hc Ht]%andb_true_iff.
  destruct (isSpace c); [by apply IH|]. simpl. by rewrite Hc, Ht.
Qed.

Lemma isAscii_trimEnd (s : string) : isAscii s = true -> isAscii (trimEnd s) = true.
Proof.
  induction s as [|c t IH]; [done|]. simpl. intros [Hc Ht]%andb_true_iff.
  specialize (IH Ht). destruct (trimEnd t) as [|c' t'].
  - destruct (isSpace c); [done|]. simpl. by rewrite Hc.
  - change (isAscii (String c (String c' t'))) with (isAsciiChar c && isAscii (String c' t')).
    by rewrite Hc, IH.
Qed.

Lemma isAscii_trimAscii (s : string) : isAscii s = true -> isAscii (trimAscii s) = true.
Proof. intros Hs. by apply isAscii_trimEnd, isAscii_trimStart. Qed.

Lemma classifyIntent_run (env : Env) (question : string) (w : World) :
  classifyIntent env question w
  = (Ok (match generateContent env (trace w) (intentPrompt question) with
         | Ok (Some text) =>
             if isLabel (String_toUpperCase env (String_trim env text))
             then String_toUpperCase env (String_trim env text)
             else "FULL_SUMMARY"
         | _ => "FULL_SUMMARY"
         end),
     mkWorld (dataCache w) (EvGenerate (intentPrompt question) :: trace w)).
Proof.
  unfold classifyIntent, tryCatch, bind, generate, liftT, call.
  destruct (generateContent env (trace w) (intentPrompt question)) as [[text|]|e]; simpl;
    [|done..].
  by destruct (isLabel (String_toUpperCase env (String_trim env text))).
Qed.

(** C7: the classifier always returns, and returns one of the four labels;
    when the model fails, when its answer has no text, and when the text,
    trimmed and put in upper case by the runtime, is none of the labels,
    the label is FULL_SUMMARY; nothing is thrown to the caller.  For a text
    of ASCII characters the trimming and the upper case are those of the
    six ASCII white-space characters and of the letters a to z. *)
Theorem classifyIntent_closed (env : Env) (question : string) (w : World) :
  exists intent,
    classifyIntent env question w
    = (Ok intent, mkWorld (dataCache w) (EvGenerate (intentPrompt question) :: trace w))
    /\ intent ∈ intentLabels
    /\ match generateContent env (trace w) (intentPrompt question) with
       | Ok (Some text) =>
           let answered := String_toUpperCase env (String_trim env text) in
           intent = (if isLabel answered then answered else "FULL_SUMMARY")
           /\ (asciiFaithful env -> isAscii text = true ->
               intent = if isLabel (upperAscii (trimAscii text)) then upperAscii (trimAscii text)
                        else "FULL_SUMMARY")
       | Ok None => intent = "FULL_SUMMARY"
       | Throw _ => intent = "FULL_SUMMARY"
       end.
Proof.
  eexists. split; [apply classifyIntent_run|].
  destruct (generateContent env (trace w) (intentPrompt question)) as [[text|]|e];
    [|split; [set_solver|done]..].
  cbn zeta. split; [|split; [done|]].
  - destruct (isLabel (String_toUpperCase env (String_trim env text))) eqn:Hlabel.
    + by apply isLabel_elem.
    + set_solver.
  - intros Hascii Htext. destruct (Hascii text Htext) as (_ & _ & Htrim). rewrite Htrim.
    destruct (Hascii (trimAscii text) (isAscii_trimAscii text Htext)) as (_ & Hupper & _).
    by rewrite Hupper.
Qed.

(** ** Failures reaching the orchestrator *)

Lemma handleAIQuery_returns (cfg : Config) (env : Env) (question : string) (w : World) :
  exists answer w', handleAIQuery cfg env question w = (Ok answer, w').
Proof.
  unfold handleAIQuery. destruct (findUserInQuery env question) as [user|]; [|by eexists _, _].
  unfold tryCatch. destruct (tryBlock cfg env question user w) as [[answer|error] w'];
    by eexists _, _.
Qed.

(** ** Fan-out over the contribution repositories *)

Section FanOut.
Context (cfg : Config) (env : Env).

Lemma repoOutcomes_length body repoFullNames h :
  length (repoOutcomes body repoFullNames h) = length repoFullNames.
Proof.
  revert h. induction repoFullNames as [|fullName rest IH]; intros h; simpl; [done|].
  destruct (body fullName h) as [r h']. simpl. by rewrite IH.
Qed.

(** The loop never throws: it returns what it had, followed by the records
    of the iterations that fetched some, in order. *)
Lemma fanOut_outcomes body repoFullNames all h :
  fst (fanOut body repoFullNames all h)
  = Ok (all ++ concat (map recordsOf (repoOutcomes body repoFullNames h)))%list.
Proof.
  revert all h. induction repoFullNames as [|fullName rest IH]; intros all h; simpl.
  - by rewrite app_nil_r.
  - unfold bind at 1, tryCatch, ret. destruct (body fullName h) as [[[records|]|e] h']; simpl;
      rewrite IH; simpl; by rewrite <- ?app_assoc, ?app_nil_r.
Qed.

Lemma concat_records_one_failed (before after : list (list obj)) (error : JsError) :
  concat (map recordsOf (map Fetched before ++ Failed error :: map Fetched after)%list)
  = (concat before ++ concat after)%list.
Proof.
  rewrite map_app, concat_app. simpl. rewrite <- !list_fmap_compose. simpl.
  by rewrite !list_fmap_id.
Qed.

(** With a token configured, an iteration over a well-formed name comes to
    what the commits endpoint answers: its records, each tagged with the
    repository, or its failure. *)
Lemma commitsOfRepo_outcome username owner repo h :
  truthyOpt (GITHUB_TOKEN cfg) = true ->
  truthyStr owner = true -> truthyStr repo = true ->
  splitSlash (owner ++ "/" ++ repo) = [owner; repo] ->
  outcomeOf (fst (commitsOfRepo cfg env username (owner ++ "/" ++ repo) h))
  = match requestCommits env (EvNow :: h) owner repo username
                         (sevenDaysBefore env (Date_now env h)) with
    | Ok commits => Fetched (map (setField "repo" (JStr (owner ++ "/" ++ repo))) commits)
    | Throw e => Failed e
    end.
Proof.
  intros Htoken Howner Hrepo Hsplit. unfold commitsOfRepo. rewrite Hsplit, Howner, Hrepo.
  simpl. unfold getRecentCommits, getOctokit. rewrite Htoken.
  unfold bind, ret, now, call. simpl.
  by destruct (requestCommits _ _ _ _ _ _).
Qed.

End FanOut.

(** C5: once the contribution repositories are discovered, if exactly one
    iteration of the fan-out fails and every other one fetches its records,
    the search returns, without throwing, the records of the others in order
    and nothing of the failing repository; this holds for the commits and
    for the pull requests. *)
Theorem fan_out_omits_failed_repo (cfg : Config) (env : Env) (username : string)
        (h h1 : History) (repoFullNames : list string) :
  getContributionRepos cfg env username h = (Ok repoFullNames, h1) ->
  (forall before error after,
      repoOutcomes (commitsOfRepo cfg env username) repoFullNames h1
      = (map Fetched before ++ Failed error :: map Fetched after)%list ->
      length repoFullNames = Datatypes.S (length before + length after)
      /\ fst (searchRecentCommitsByUser cfg env username h)
         = Ok (concat before ++ concat after)%list)
  /\ (forall before error after,
         repoOutcomes (prsOfRepo cfg env username) repoFullNames h1
         = (map Fetched before ++ Failed error :: map Fetched after)%list ->
         length repoFullNames = Datatypes.S (length before + length after)
         /\ fst (searchActivePRsByUser cfg env username h)
            = Ok (concat before ++ concat after)%list).
Proof.
  intros Hrepos. split; intros before error after Hout.
  - split.
    + rewrite <- (repoOutcomes_length (commitsOfRepo cfg env username) _ h1), Hout.
      rewrite length_app. simpl. rewrite !length_map. lia.
    + unfold searchRecentCommitsByUser. rewrite (bind_ok _ _ _ _ _ Hrepos).
      rewrite fanOut_outcomes, Hout, concat_records_one_failed. done.
  - split.
    + rewrite <- (repoOutcomes_length (prsOfRepo cfg env username) _ h1), Hout.
      rewrite length_app. simpl. rewrite !length_map. lia.
    + unfold searchActivePRsByUser. rewrite (bind_ok _ _ _ _ _ Hrepos).
      rewrite fanOut_outcomes, Hout, concat_records_one_failed. done.
Qed.

Lemma fan_out_omits_failed_repo_witness :
  fst (searchRecentCommitsByUser Samples.cfg (Samples.busyEnv "COMMITS") "mikeross88" [])
  = Ok [ setField "repo" (JStr "acme/api") Samples.datedCommit;
         setField "repo" (JStr "acme/web") Samples.undatedCommit ]
  /\ fst (searchActivePRsByUser Samples.cfg (Samples.busyEnv "PRS") "mikeross88" [])
     = Ok [ setField "repo" (JStr "acme/api") Samples.ownPull ].
Proof.
  split.
  - refine (proj2 (proj1 (fan_out_omits_failed_repo Samples.cfg (Samples.busyEnv "COMMITS")
                            "mikeross88" [] [EvEvents "mikeross88"]
                            ["acme/api"; "acme/gone"; "acme/web"] _)
                         [ [setField "repo" (JStr "acme/api") Samples.datedCommit] ]
                         (mkError "Not Found")
                         [ [setField "repo" (JStr "acme/web") Samples.undatedCommit] ] _));
      vm_compute; reflexivity.
  - refine (proj2 (proj2 (fan_out_omits_failed_repo Samples.cfg (Samples.busyEnv "PRS")
                            "mikeross88" [] [EvEvents "mikeross88"]
                            ["acme/api"; "acme/gone"; "acme/web"] _)
                         [ [setField "repo" (JStr "acme/api") Samples.ownPull] ]
                         (mkError "Not Found") [ [] ] _));
      vm_compute; reflexivity.
Defined.

(** ** Cached fetches *)

Section CachedFetch.
Context (env : Env).

Lemma fetchCached_run (key : string) (upstream : T (list obj)) (w : World) :
  fetchCached env key upstream w
  = let miss (cache : gmap string CacheEntry) (h : History) :=
      match upstream h with
      | (Ok payload, h') =>
          (Ok payload,
           mkWorld (<[key := mkEntry payload (Date_now env h')]> cache) (EvNow :: h'))
      | (Throw e, h') => (Throw e, mkWorld cache h')
      end in
    match dataCache w !! key with
    | Some entry =>
        if Date_now env (trace w) - timestamp entry >? CACHE_TTL
        then miss (delete key (dataCache w)) (EvNow :: trace w)
        else (Ok (data entry), mkWorld (dataCache w) (EvNow :: trace w))
    | None => miss (dataCache w) (trace w)
    end.
Proof.
  unfold fetchCached, getCachedData, setCachedData, bind, gets, modify, ret, liftT, now, call.
  destruct (dataCache w !! key) as [entry|]; simpl.
  - destruct (Date_now env (trace w) - timestamp entry >? CACHE_TTL); simpl; [|done].
    by destruct (upstream (EvNow :: trace w)) as [[payload|e] h'].
  - by destruct (upstream (trace w)) as [[payload|e] h'].
Qed.

Lemma fetchCached_emits (P : Event -> Prop) (key : string) (upstream : T (list obj)) :
  P EvNow -> emitsOnly (fun h : History => h) P upstream ->
  emitsOnly trace P (fetchCached env key upstream).
Proof.
  intros Hnow Hup. unfold fetchCached, getCachedData, setCachedData, now.
  repeat first [ emits_step | apply emits_modify; done | done ].
Qed.

Lemma fetchCached_preserves (I : gmap string CacheEntry -> Prop) (good : list obj -> Prop)
      (key : string) (upstream : T (list obj)) :
  (forall cache, I cache -> I (delete key cache)) ->
  (forall cache payload t, I cache -> good payload -> I (<[key := mkEntry payload t]> cache)) ->
  (forall h payload h', upstream h = (Ok payload, h') -> good payload) ->
  preserves I (fetchCached env key upstream).
Proof.
  intros Hdel Hins Hgood w HI. rewrite fetchCached_run. simpl.
  destruct (dataCache w !! key) as [entry|].
  - destruct (Date_now env (trace w) - timestamp entry >? CACHE_TTL); [|done].
    destruct (upstream (EvNow :: trace w)) as [[payload|e] h'] eqn:Hup; simpl; eauto.
  - destruct (upstream (trace w)) as [[payload|e] h'] eqn:Hup; simpl; eauto.
Qed.

End CachedFetch.

(** ** Runs that read only the clock *)

Section ClockOnly.
Context (env : Env).

Lemma clockOnly_ret {A} (a : A) : clockOnly (ret a).
Proof. intros w. exists a, 0%nat. by destruct w. Qed.

Lemma clockOnly_bind {A B} (m : SE World A) (k : A -> SE World B) :
  clockOnly m -> (forall a, clockOnly (k a)) -> clockOnly (bind m k).
Proof.
  intros Hm Hk w. destruct (Hm w) as (a & n1 & Hrun1).
  destruct (Hk a (mkWorld (dataCache w) (repeat EvNow n1 ++ trace w)%list))
    as (b & n2 & Hrun2).
  exists b, (n2 + n1)%nat. rewrite (bind_ok _ _ _ _ _ Hrun1), Hrun2. simpl.
  by rewrite repeat_app, app_assoc.
Qed.

Lemma clockOnly_now : clockOnly (liftT (now env)).
Proof. intros w. by exists (Date_now env (trace w)), 1%nat. Qed.

Lemma clockOnly_mapM {A B} (f : A -> SE World B) (xs : list A) :
  (forall x, clockOnly (f x)) -> clockOnly (mapM f xs).
Proof.
  intros Hf. induction xs as [|x xs IH]; simpl; [apply clockOnly_ret|].
  apply clockOnly_bind; [done|]. intros y. apply clockOnly_bind; [done|].
  intros ys. apply clockOnly_ret.
Qed.

Lemma getRelativeTime_clockOnly (dateString : jsval) : clockOnly (getRelativeTime env dateString).
Proof.
  unfold getRelativeTime. apply clockOnly_bind; [apply clockOnly_now|].
  intros current. apply clockOnly_ret.
Qed.

Lemma decorateIssue_clockOnly (issue : obj) : clockOnly (decorateIssue env issue).
Proof.
  unfold decorateIssue. apply clockOnly_bind; [apply getRelativeTime_clockOnly|].
  intros phrase. apply clockOnly_ret.
Qed.

Lemma decorateCommit_clockOnly (commit : obj) : clockOnly (decorateCommit env commit).
Proof.
  unfold decorateCommit. apply clockOnly_bind.
  - destruct (truthy _); [apply getRelativeTime_clockOnly|apply clockOnly_ret].
  - intros phrase. apply clockOnly_ret.
Qed.

Lemma assemble_clockOnly (fetched : list obj * list obj * list obj) :
  clockOnly (assemble env fetched).
Proof.
  destruct fetched as [[jiraIssues githubPRs] githubCommits]. unfold assemble.
  apply clockOnly_bind.
  - destruct (negb _); [|apply clockOnly_ret].
    apply clockOnly_mapM, decorateIssue_clockOnly.
  - intros jiraIssues'. apply clockOnly_bind; [|intros ?; apply clockOnly_ret].
    destruct (negb _); [|apply clockOnly_ret].
    apply clockOnly_mapM, decorateCommit_clockOnly.
Qed.

End ClockOnly.

(** ** The orchestrator's steps *)

Section Steps.
Context (cfg : Config) (env : Env).

Lemma commitsPath_not_summarizer ev : isCommitsPathCall ev = true -> isSummarizerCall ev = false.
Proof. by destruct ev. Qed.

Lemma prsPath_not_summarizer ev : isPRsPathCall ev = true -> isSummarizerCall ev = false.
Proof. by destruct ev. Qed.

Lemma jiraPath_not_summarizer ev : isJiraPathCall ev = true -> isSummarizerCall ev = false.
Proof. by destruct ev. Qed.

Lemma fetchJiraData_emits (P : Event -> Prop) id :
  P EvNow -> (forall ev, isJiraPathCall ev = true -> P ev) ->
  emitsOnly trace P (fetchJiraData cfg env id).
Proof.
  intros Hnow HP. apply fetchCached_emits; [done|].
  apply (emits_weaken _ _ _ _ HP), searchActiveIssuesByUser_emits.
Qed.

Lemma fetchCommitsData_emits (P : Event -> Prop) id :
  (forall ev, isCommitsPathCall ev = true -> P ev) ->
  emitsOnly trace P (fetchCommitsData cfg env id).
Proof.
  intros HP. apply fetchCached_emits; [by apply HP|].
  apply (emits_weaken _ _ _ _ HP), searchRecentCommitsByUser_emits.
Qed.

Lemma fetchPRsData_emits (P : Event -> Prop) id :
  P EvNow -> (forall ev, isPRsPathCall ev = true -> P ev) ->
  emitsOnly trace P (fetchPRsData cfg env id).
Proof.
  intros Hnow HP. apply fetchCached_emits; [done|].
  apply (emits_weaken _ _ _ _ HP), searchActivePRsByUser_emits.
Qed.

(** No fetch talks to the model. *)
Lemma fetchByIntent_emits intent user :
  emitsOnly trace (fun ev => isSummarizerCall ev = false) (fetchByIntent cfg env intent user).
Proof.
  pose proof commitsPath_not_summarizer. pose proof prsPath_not_summarizer.
  pose proof jiraPath_not_summarizer.
  unfold fetchByIntent.
  repeat first [ apply fetchJiraData_emits; done
               | apply fetchCommitsData_emits; done
               | apply fetchPRsData_emits; done
               | emits_step ].
Qed.

Lemma generate_run (prompt : string) (w : World) :
  generate env prompt w
  = (generateContent env (trace w) prompt,
     mkWorld (dataCache w) (EvGenerate prompt :: trace w)).
Proof. reflexivity. Qed.

Lemma bind_ret_r {S A} (m : SE S A) (s : S) : bind m ret s = m s.
Proof. unfold bind, ret. by destruct (m s) as [[a|e] s']. Qed.

(** With something fetched, the answer is the model's, asked once the
    records are assembled. *)
Lemma summarize_nonempty question user jiraIssues githubPRs githubCommits (w : World) :
  (length jiraIssues =? 0)%nat && (length githubPRs =? 0)%nat
  && (length githubCommits =? 0)%nat = false ->
  exists issues' prs' commits' n,
    let w' := mkWorld (dataCache w) (repeat EvNow n ++ trace w)%list in
    let prompt := summaryPrompt question user (dataContext env issues' prs' commits') in
    assemble env (jiraIssues, githubPRs, githubCommits) w = (Ok (issues', prs', commits'), w')
    /\ summarize env question user (jiraIssues, githubPRs, githubCommits) w
       = (generateContent env (trace w') prompt,
          mkWorld (dataCache w) (EvGenerate prompt :: trace w')).
Proof.
  intros Hsome.
  destruct (assemble_clockOnly env (jiraIssues, githubPRs, githubCommits) w)
    as ([[issues' prs'] commits'] & n & Hrun).
  exists issues', prs', commits', n. split; [done|].
  unfold summarize. rewrite Hsome. rewrite (bind_ok _ _ _ _ _ Hrun).
  by rewrite bind_ret_r, generate_run.
Qed.

Lemma tryBlock_run question user intent fetched (w w1 w2 : World) :
  classifyIntent env question w = (Ok intent, w1) ->
  fetchByIntent cfg env intent user w1 = (Ok fetched, w2) ->
  tryBlock cfg env question user w = summarize env question user fetched w2.
Proof.
  intros Hclass Hfetch. unfold tryBlock.
  by rewrite (bind_ok _ _ _ _ _ Hclass), (bind_ok _ _ _ _ _ Hfetch).
Qed.

End Steps.

(** C1 (amended): when the three fetched collections are empty,
    [handleAIQuery] returns the no-activity message; the model is called
    once, to classify the question, and never after that: not during the
    fetch and not for a summary. *)
Theorem no_activity_answer (cfg : Config) (env : Env) (question : string) (user : Identity)
        (intent : string) (w w1 w2 : World) :
  findUserInQuery env question = Some user ->
  classifyIntent env question w = (Ok intent, w1) ->
  fetchByIntent cfg env intent user w1 = (Ok ([], [], []), w2) ->
  handleAIQuery cfg env question w = (Ok (Some (noActivityMessage user)), w2)
  /\ exists new,
      trace w2 = (new ++ EvGenerate (intentPrompt question) :: trace w)%list
      /\ Forall (fun ev => isSummarizerCall ev = false) new.
Proof.
  intros Huser Hclass Hfetch. split.
  - unfold handleAIQuery. rewrite Huser. apply tryCatch_ok.
    by rewrite (tryBlock_run _ _ _ _ _ _ _ _ _ Hclass Hfetch).
  - destruct (fetchByIntent_emits cfg env intent user w1) as (new & Htrace & Hnew).
    rewrite Hfetch in Htrace. simpl in Htrace. exists new. split; [|done].
    rewrite classifyIntent_run in Hclass. injection Hclass as _ <-. done.
Qed.

Lemma no_activity_answer_witness :
  fst (handleAIQuery Samples.cfg (Samples.idleEnv "full_summary")
                     "What is Mike working on?" Samples.start)
  = Ok (Some "I found Mike Ross (JIRA) / mikeross88 (GitHub), but they have no recent activity based on your query.").
Proof.
  pose (w1 := snd (classifyIntent (Samples.idleEnv "full_summary")
                                  "What is Mike working on?" Samples.start)).
  pose (w2 := snd (fetchByIntent Samples.cfg (Samples.idleEnv "full_summary") "FULL_SUMMARY"
                                 (mkIdentity "Mike Ross" "mikeross88") w1)).
  assert (classifyIntent (Samples.idleEnv "full_summary") "What is Mike working on?"
                         Samples.start = (Ok "FULL_SUMMARY", w1)) as Hclass
      by (vm_compute; reflexivity).
  assert (fetchByIntent Samples.cfg (Samples.idleEnv "full_summary") "FULL_SUMMARY"
                        (mkIdentity "Mike Ross" "mikeross88") w1 = (Ok ([], [], []), w2))
    as Hfetch by (vm_compute; reflexivity).
  by rewrite (proj1 (no_activity_answer Samples.cfg (Samples.idleEnv "full_summary")
                       "What is Mike working on?" (mkIdentity "Mike Ross" "mikeross88")
                       "FULL_SUMMARY" Samples.start w1 w2 eq_refl Hclass Hfetch)).
Defined.

(** C1, as stated, fails: for a member without any issue, commit or pull
    request the no-activity message is returned, and the model has been
    called during the query, with the classification prompt. *)
Lemma no_activity_still_calls_model :
  fst (fetchByIntent Samples.cfg (Samples.idleEnv "full_summary") "FULL_SUMMARY"
                     (mkIdentity "Mike Ross" "mikeross88")
                     (snd (classifyIntent (Samples.idleEnv "full_summary")
                                          "What is Mike working on?" Samples.start)))
  = Ok ([], [], [])
  /\ fst (handleAIQuery Samples.cfg (Samples.idleEnv "full_summary")
                        "What is Mike working on?" Samples.start)
     = Ok (Some (noActivityMessage (mkIdentity "Mike Ross" "mikeross88")))
  /\ List.filter isSummarizerCall
       (trace (snd (handleAIQuery Samples.cfg (Samples.idleEnv "full_summary")
                                  "What is Mike working on?" Samples.start)))
     = [EvGenerate (intentPrompt "What is Mike working on?")].
Proof. repeat split; vm_compute; reflexivity. Qed.

(** ** Scoping of the context *)

Section Scoping.
Context (cfg : Config) (env : Env).

Lemma mapM_length {S A B} (f : A -> SE S B) (xs : list A) (s s' : S) (ys : list B) :
  mapM f xs s = (Ok ys, s') -> length ys = length xs.
Proof.
  revert s s' ys. induction xs as [|x xs IH]; intros s s' ys; simpl.
  - by intros [= <- _].
  - unfold bind at 1. destruct (f x s) as [[y|e] s1]; [|done].
    unfold bind at 1. destruct (mapM f xs s1) as [[ys'|e] s2] eqn:Hrest; [|done].
    intros [= <- _]. simpl. by rewrite (IH _ _ _ Hrest).
Qed.

Lemma dataContext_commits_only (commits : list obj) :
  commits <> [] ->
  dataContext env [] [] commits
  = nl ++ "      " ++ nl ++ "      " ++ nl ++ "      "
    ++ ("--- GITHUB DATA (Recent Commits) ---" ++ nl ++ JSON_stringify env commits ++ nl)
    ++ nl ++ "    ".
Proof. intros Hsome. destruct commits; [done|reflexivity]. Qed.

Lemma summarize_commits_only question user githubCommits (w : World) :
  githubCommits <> [] ->
  exists decorated n,
    let w' := mkWorld (dataCache w) (repeat EvNow n ++ trace w)%list in
    let prompt := summaryPrompt question user (dataContext env [] [] decorated) in
    mapM (decorateCommit env) githubCommits w = (Ok decorated, w')
    /\ decorated <> []
    /\ summarize env question user ([], [], githubCommits) w
       = (generateContent env (trace w') prompt,
          mkWorld (dataCache w) (EvGenerate prompt :: trace w')).
Proof.
  intros Hsome.
  destruct (clockOnly_mapM (decorateCommit env) githubCommits
              (decorateCommit_clockOnly env) w) as (decorated & n & Hrun).
  exists decorated, n. split; [done|]. split.
  - apply mapM_length in Hrun. destruct decorated, githubCommits; done.
  - destruct githubCommits as [|commit rest]; [done|].
    unfold summarize, assemble.
    change ((length [] =? 0)%nat && (length [] =? 0)%nat
            && (length (commit :: rest) =? 0)%nat) with false.
    change (negb (length [] =? 0)%nat) with false.
    change (negb (length (commit :: rest) =? 0)%nat) with true.
    cbv iota. unfold bind at 1. unfold bind at 1. unfold ret at 1.
    unfold bind at 1. rewrite Hrun. unfold ret at 1.
    by rewrite bind_ret_r, generate_run.
Qed.

End Scoping.

(** C8: when the question is classified COMMITS, the fetch calls the
    commits path of the code host only, the collections of issues and of
    pull requests are empty, the context handed to the model has empty
    sections for both and the commits section alone, and the answer is the
    same whatever the issue tracker and the pull request endpoint would
    have answered. *)
Theorem commits_intent_scopes_context (cfg : Config) (env : Env) (question : string)
        (user : Identity) (w w1 : World) :
  findUserInQuery env question = Some user ->
  classifyIntent env question w = (Ok "COMMITS", w1) ->
  (exists new,
      trace (snd (fetchByIntent cfg env "COMMITS" user w1)) = (new ++ trace w1)%list
      /\ Forall (fun ev => isCommitsPathCall ev = true) new)
  /\ (forall fetched w2,
         fetchByIntent cfg env "COMMITS" user w1 = (Ok fetched, w2) ->
         exists githubCommits,
           fetched = ([], [], githubCommits)
           /\ (githubCommits <> [] ->
               exists decorated n,
                 let w3 := mkWorld (dataCache w2) (repeat EvNow n ++ trace w2)%list in
                 let prompt := summaryPrompt question user (dataContext env [] [] decorated) in
                 mapM (decorateCommit env) githubCommits w2 = (Ok decorated, w3)
                 /\ tryBlock cfg env question user w
                    = (generateContent env (trace w3) prompt,
                       mkWorld (dataCache w2) (EvGenerate prompt :: trace w3))
                 /\ dataContext env [] [] decorated
                    = nl ++ "      " ++ nl ++ "      " ++ nl ++ "      "
                      ++ ("--- GITHUB DATA (Recent Commits) ---" ++ nl
                          ++ JSON_stringify env decorated ++ nl)
                      ++ nl ++ "    "))
  /\ (forall tracker pulls,
         handleAIQuery cfg (withTrackerAndPulls env tracker pulls) question w
         = handleAIQuery cfg env question w).
Proof.
  intros Huser Hclass.
  assert (fetchByIntent cfg env "COMMITS" user
          = (let* githubCommits := fetchCommitsData cfg env (githubId user) in
             ret ([], [], githubCommits))) as Hcommits by reflexivity.
  split; [|split].
  - rewrite Hcommits. apply emits_bind; [|intros ?; apply emits_ret].
    by apply fetchCommitsData_emits.
  - intros fetched w2 Hfetch. pose proof Hfetch as Hfetch'.
    rewrite Hcommits in Hfetch'. unfold bind, ret in Hfetch'.
    destruct (fetchCommitsData cfg env (githubId user) w1) as [[githubCommits|e] w2'];
      [|done].
    injection Hfetch' as <- <-. exists githubCommits. split; [done|]. intros Hsome.
    destruct (summarize_commits_only env question user githubCommits w2' Hsome)
      as (decorated & n & Hrun & Hsome' & Hsum).
    exists decorated, n. split; [done|]. split.
    + by rewrite (tryBlock_run _ _ _ _ _ _ _ _ _ Hclass Hfetch).
    + by apply dataContext_commits_only.
  - intros tracker pulls. unfold handleAIQuery.
    change (findUserInQuery (withTrackerAndPulls env tracker pulls) question)
      with (findUserInQuery env question).
    rewrite Huser. unfold tryCatch, tryBlock.
    change (classifyIntent (withTrackerAndPulls env tracker pulls) question)
      with (classifyIntent env question).
    rewrite !(bind_ok _ _ _ _ _ Hclass).
    change (fetchByIntent cfg (withTrackerAndPulls env tracker pulls) "COMMITS" user)
      with (fetchByIntent cfg env "COMMITS" user).
    unfold bind. destruct (fetchByIntent cfg env "COMMITS" user w1) as [[fetched|e] w2];
      [|done].
    change (summarize (withTrackerAndPulls env tracker pulls) question user fetched)
      with (summarize env question user fetched).
    done.
Qed.

Lemma commits_intent_scopes_context_witness :
  handleAIQuery Samples.cfg
                (withTrackerAndPulls (Samples.busyEnv "commits")
                                     (fun _ _ _ _ _ => Throw (mkError "unreachable"))
                                     (fun _ _ _ => Ok [Samples.foreignPull]))
                "What has Sarah committed this week?" Samples.start
  = handleAIQuery Samples.cfg (Samples.busyEnv "commits")
                  "What has Sarah committed this week?" Samples.start.
Proof.
  refine (proj2 (proj2 (commits_intent_scopes_context Samples.cfg (Samples.busyEnv "commits")
                          "What has Sarah committed this week?"
                          (mkIdentity "Sarah Connor" "sarah-connor") Samples.start
                          (snd (classifyIntent (Samples.busyEnv "commits")
                                               "What has Sarah committed this week?"
                                               Samples.start)) _ _)) _ _);
    vm_compute; reflexivity.
Defined.

(** ** Relative times *)

Section Fields.

Lemma hasField_setField_same (k : string) (v : jsval) (o : obj) :
  hasField k (setField k v o) = true.
Proof.
  unfold hasField. induction o as [|[k' v'] o IH]; simpl.
  - by rewrite String.eqb_refl.
  - destruct (String.eqb k k') eqn:Hk; simpl; by rewrite Hk.
Qed.

Lemma hasField_setField_other (k k' : string) (v : jsval) (o : obj) :
  String.eqb k k' = false -> hasField k (setField k' v o) = hasField k o.
Proof.
  intros Hne. unfold hasField. induction o as [|[k'' v''] o IH]; simpl.
  - by rewrite Hne.
  - destruct (String.eqb k' k'') eqn:Hk'; simpl.
    + apply String.eqb_eq in Hk' as <-. by rewrite Hne.
    + destruct (String.eqb k k''); [done|]. apply IH.
Qed.

Lemma undecorated_tag (fullName : string) (records : list obj) :
  undecorated records -> undecorated (map (setField "repo" (JStr fullName)) records).
Proof.
  unfold undecorated. intros Hrecords. rewrite Forall_fmap.
  apply (Forall_impl _ _ _ Hrecords). intros record Hrecord.
  simpl. by rewrite hasField_setField_other.
Qed.

End Fields.

Section Yields.
Context {S : Type}.

Lemma yields_ret {A} (good : A -> Prop) (a : A) : good a -> yields good (@ret S A a).
Proof. by intros Hgood s a' s' [= <- _]. Qed.

Lemma yields_throw {A} (good : A -> Prop) (e : JsError) : yields good (@throw S A e).
Proof. by intros s a s'. Qed.

Lemma yields_bind {A B} (good : A -> Prop) (better : B -> Prop)
      (m : SE S A) (k : A -> SE S B) :
  yields good m -> (forall a, good a -> yields better (k a)) -> yields better (bind m k).
Proof.
  intros Hm Hk s b s'. unfold bind. destruct (m s) as [[a|e] s1] eqn:Hrun; [|done].
  apply (Hk a); by eapply Hm.
Qed.

Lemma yields_tryCatch {A} (good : A -> Prop) (m : SE S A) (handler : JsError -> SE S A) :
  yields good m -> (forall e, yields good (handler e)) -> yields good (tryCatch m handler).
Proof.
  intros Hm Hh s a s'. unfold tryCatch. destruct (m s) as [[a'|e] s1] eqn:Hrun.
  - intros [= <- _]. by eapply Hm.
  - apply Hh.
Qed.

Lemma yields_any {A} (m : SE S A) : yields (fun _ => True) m.
Proof. by intros s a s'. Qed.

End Yields.

Lemma yields_call {A} (good : A -> Prop) (ev : Event) (answer : History -> Result A) :
  (forall h a, answer h = Ok a -> good a) -> yields good (call ev answer).
Proof. intros Hanswer h a h' [= Ha _]. by eapply Hanswer. Qed.

(** ** What the connectors hand over *)

Section Payloads.
Context (cfg : Config) (env : Env) (Hhost : hostUndecorated env).

Lemma searchActiveIssuesByUser_undecorated userQuery :
  yields undecorated (searchActiveIssuesByUser cfg env userQuery).
Proof.
  unfold searchActiveIssuesByUser.
  apply (yields_bind _ _ _ _ (yields_any _)). intros auth _.
  destruct (JIRA_HOST cfg) as [jiraHost|]; [|apply yields_throw].
  destruct (negb (truthyStr jiraHost)); [apply yields_throw|].
  apply yields_tryCatch; [|intros e; apply yields_throw].
  apply (yields_bind _ _ _ _ (yields_any _)). intros response _.
  destruct (negb (resp_ok response)); [apply yields_throw|].
  apply (yields_bind _ _ _ _ (yields_any _)). intros issues _.
  apply yields_ret. unfold undecorated. rewrite Forall_fmap.
  apply Forall_forall. intros issue _. reflexivity.
Qed.

Lemma getRecentCommits_undecorated username owner repo :
  yields undecorated (getRecentCommits cfg env username owner repo).
Proof.
  unfold getRecentCommits.
  apply (yields_bind _ _ _ _ (yields_any _)). intros _ _.
  apply (yields_bind _ _ _ _ (yields_any _)). intros today _.
  apply yields_call. intros h commits. apply (proj1 Hhost).
Qed.

Lemma getActivePullRequests_undecorated username owner repo :
  yields undecorated (getActivePullRequests cfg env username owner repo).
Proof.
  unfold getActivePullRequests.
  apply (yields_bind _ _ _ _ (yields_any _)). intros _ _.
  apply (yields_bind undecorated).
  - apply yields_call. intros h pulls. apply (proj2 Hhost).
  - intros prs Hprs. apply yields_ret. unfold undecorated in *.
    rewrite Forall_forall in *. intros pr [Hin _]%list_elem_of_In%filter_In.
    apply Hprs. by apply list_elem_of_In.
Qed.

Lemma fanOut_undecorated body repoFullNames all :
  (forall fullName, yields (fun fetched => undecorated (default [] fetched)) (body fullName)) ->
  undecorated all ->
  yields undecorated (fanOut body repoFullNames all).
Proof.
  intros Hbody. revert all.
  induction repoFullNames as [|fullName rest IH]; intros all Hall; simpl.
  - by apply yields_ret.
  - apply (yields_bind (fun fetched => undecorated (default [] fetched))).
    + apply yields_tryCatch; [apply Hbody|]. intros e. apply yields_ret. constructor.
    + intros fetched Hfetched. apply IH. by apply Forall_app.
Qed.

Lemma searchRecentCommitsByUser_undecorated username :
  yields undecorated (searchRecentCommitsByUser cfg env username).
Proof.
  unfold searchRecentCommitsByUser.
  apply (yields_bind _ _ _ _ (yields_any _)). intros repoFullNames _.
  apply fanOut_undecorated; [|constructor]. intros fullName. unfold commitsOfRepo.
  destruct (splitSlash fullName) as [|owner [|repo rest]];
    [apply yields_ret; constructor..|].
  destruct (negb (truthyStr owner) || negb (truthyStr repo));
    [apply yields_ret; constructor|].
  apply (yields_bind undecorated); [apply getRecentCommits_undecorated|].
  intros commits Hcommits. apply yields_ret. simpl. by apply undecorated_tag.
Qed.

Lemma searchActivePRsByUser_undecorated username :
  yields undecorated (searchActivePRsByUser cfg env username).
Proof.
  unfold searchActivePRsByUser.
  apply (yields_bind _ _ _ _ (yields_any _)). intros repoFullNames _.
  apply fanOut_undecorated; [|constructor]. intros fullName. unfold prsOfRepo.
  destruct (splitSlash fullName) as [|owner [|repo rest]];
    [apply yields_ret; constructor..|].
  destruct (negb (truthyStr owner) || negb (truthyStr repo));
    [apply yields_ret; constructor|].
  apply (yields_bind undecorated); [apply getActivePullRequests_undecorated|].
  intros prs Hprs. apply yields_ret. simpl. by apply undecorated_tag.
Qed.

End Payloads.

(** ** Decoration at assembly time *)

Section Decoration.
Context (env : Env).

Lemma decorateIssue_run (issue : obj) (w : World) :
  decorateIssue env issue w
  = (Ok (setField "relativeTime"
           (JStr (relativePhrase (elapsed env (trace w) (getField "lastUpdated" issue))))
           issue),
     mkWorld (dataCache w) (EvNow :: trace w)).
Proof.
  unfold decorateIssue, getRelativeTime, elapsed, bind, ret, liftT, now, call. simpl.
  by destruct (Date_parse env (getField "lastUpdated" issue)).
Qed.

Lemma decorateCommit_run (commit : obj) (w : World) :
  decorateCommit env commit w
  = let date := optChain (optChain (getField "commit" commit) "author") "date" in
    if truthy date
    then (Ok (setField "relativeTime" (JStr (relativePhrase (elapsed env (trace w) date)))
                       commit),
          mkWorld (dataCache w) (EvNow :: trace w))
    else (Ok (setField "relativeTime" (JStr "unknown") commit), w).
Proof.
  unfold decorateCommit, getRelativeTime, elapsed, bind, ret, liftT, now, call. simpl.
  destruct (truthy _); [|done].
  by destruct (Date_parse env _).
Qed.

(** A map over records, each step of which reads at most the clock, relates
    every record to its image at some history of the map. *)
Lemma mapM_related {A B} (f : A -> SE World B) (R : History -> A -> B -> Prop)
      (xs : list A) (w w' : World) (ys : list B) :
  (forall x w0, exists y k,
      f x w0 = (Ok y, mkWorld (dataCache w0) (repeat EvNow k ++ trace w0)%list)
      /\ R (trace w0) x y) ->
  mapM f xs w = (Ok ys, w') ->
  Forall2 (fun x y => exists n, R (repeat EvNow n ++ trace w)%list x y) xs ys.
Proof.
  intros Hf. revert w w' ys. induction xs as [|x xs IH]; intros w w' ys; simpl.
  - intros [= <- _]. constructor.
  - destruct (Hf x w) as (y & k & Hrun & HR). rewrite (bind_ok _ _ _ _ _ Hrun).
    unfold bind, ret.
    destruct (mapM f xs (mkWorld (dataCache w) (repeat EvNow k ++ trace w)%list))
      as [[ys'|e] w1] eqn:Hrest; [|done].
    intros [= <- _]. constructor; [by exists 0%nat|].
    apply IH in Hrest. simpl in Hrest. apply (Forall2_impl _ _ _ _ Hrest).
    intros x' y' [n Hn]. exists (n + k)%nat. by rewrite repeat_app, <- app_assoc.
Qed.

Lemma assemble_decorates (fetched : list obj * list obj * list obj) (w w' : World)
      (issues' prs' commits' : list obj) :
  assemble env fetched w = (Ok (issues', prs', commits'), w') ->
  Forall2 (fun issue issue' =>
             exists n, issueDecoratedAt env (repeat EvNow n ++ trace w)%list issue issue')
          (fst (fst fetched)) issues'
  /\ Forall2 (fun commit commit' =>
                exists n, commitDecoratedAt env (repeat EvNow n ++ trace w)%list commit commit')
             (snd fetched) commits'.
Proof.
  destruct fetched as [[jiraIssues githubPRs] githubCommits]. unfold assemble. simpl.
  set (decoratedIssues := if negb (length jiraIssues =? 0)%nat
                          then mapM (decorateIssue env) jiraIssues else ret jiraIssues).
  set (decoratedCommits := if negb (length githubCommits =? 0)%nat
                           then mapM (decorateCommit env) githubCommits
                           else ret githubCommits).
  assert (decoratedIssues = mapM (decorateIssue env) jiraIssues) as ->
      by (subst decoratedIssues; by destruct jiraIssues).
  assert (decoratedCommits = mapM (decorateCommit env) githubCommits) as ->
      by (subst decoratedCommits; by destruct githubCommits).
  destruct (clockOnly_mapM (decorateIssue env) jiraIssues (decorateIssue_clockOnly env) w)
    as (issues & n1 & Hissues).
  rewrite (bind_ok _ _ _ _ _ Hissues). unfold bind, ret.
  destruct (mapM (decorateCommit env) githubCommits _) as [[commits|e] w2] eqn:Hcommits;
    [|done].
  intros [= <- <- <- <-]. split.
  - apply (mapM_related _ (issueDecoratedAt env) _ _ _ _) in Hissues; [done|].
    intros issue w0. eexists _, 1%nat. rewrite decorateIssue_run.
    split; reflexivity.
  - apply (mapM_related _ (commitDecoratedAt env) _ _ _ _) in Hcommits.
    + simpl in Hcommits. apply (Forall2_impl _ _ _ _ Hcommits).
      intros commit commit' [n Hn]. exists (n + n1)%nat.
      by rewrite repeat_app, <- app_assoc.
    + intros commit w0. rewrite decorateCommit_run. unfold commitDecoratedAt. simpl.
      destruct (truthy _); [eexists _, 1%nat|eexists _, 0%nat];
        (split; [|reflexivity]); by destruct w0.
Qed.

End Decoration.

(** ** What reaches the cache *)

Section CacheContents.
Context (I : gmap string CacheEntry -> Prop).

Lemma preserves_ret {A} (a : A) : preserves I (ret a).
Proof. by intros w. Qed.

Lemma preserves_bind {A B} (m : SE World A) (k : A -> SE World B) :
  preserves I m -> (forall a, preserves I (k a)) -> preserves I (bind m k).
Proof.
  intros Hm Hk w HI. specialize (Hm w HI). unfold bind.
  destruct (m w) as [[a|e] w1]; [|done]. by apply Hk.
Qed.

Lemma preserves_tryCatch {A} (m : SE World A) (handler : JsError -> SE World A) :
  preserves I m -> (forall e, preserves I (handler e)) -> preserves I (tryCatch m handler).
Proof.
  intros Hm Hh w HI. specialize (Hm w HI). unfold tryCatch.
  destruct (m w) as [[a|e] w1]; [done|]. by apply Hh.
Qed.

Lemma preserves_settle {A} (m : SE World A) : preserves I m -> preserves I (settle m).
Proof.
  intros Hm w HI. specialize (Hm w HI). unfold settle. by destruct (m w) as [r w1].
Qed.

Lemma preserves_liftT {A} (m : T A) : preserves I (liftT m).
Proof. intros w HI. unfold liftT. by destruct (m (trace w)) as [r h]. Qed.

Lemma preserves_clockOnly {A} (m : SE World A) : clockOnly m -> preserves I m.
Proof. intros Hm w HI. destruct (Hm w) as (a & n & ->). done. Qed.

End CacheContents.

Section UndecoratedCache.
Context (cfg : Config) (env : Env) (Hhost : hostUndecorated env).

Lemma fetchCached_undecorated key upstream :
  yields undecorated upstream ->
  preserves cacheUndecorated (fetchCached env key upstream).
Proof.
  intros Hup. apply (fetchCached_preserves env cacheUndecorated undecorated).
  - intros cache Hcache key' entry [_ Hentry]%lookup_delete_Some. by eapply Hcache.
  - intros cache payload t Hcache Hpayload key' entry.
    rewrite lookup_insert. case_decide; [by intros [= <-]|by apply Hcache].
  - intros h payload h'. apply Hup.
Qed.

Lemma fetchByIntent_undecorated intent user :
  preserves cacheUndecorated (fetchByIntent cfg env intent user).
Proof.
  pose proof (fetchCached_undecorated ("jira_" ++ jiraId user) _
                (searchActiveIssuesByUser_undecorated cfg env (jiraId user))) as Hjira.
  pose proof (fetchCached_undecorated ("commits_" ++ githubId user) _
                (searchRecentCommitsByUser_undecorated cfg env Hhost (githubId user)))
    as Hcommits.
  pose proof (fetchCached_undecorated ("prs_" ++ githubId user) _
                (searchActivePRsByUser_undecorated cfg env Hhost (githubId user))) as Hprs.
  unfold fetchByIntent.
  destruct (String.eqb intent "JIRA");
    [apply preserves_bind; [done|intros ?; apply preserves_ret]|].
  destruct (String.eqb intent "COMMITS");
    [apply preserves_bind; [done|intros ?; apply preserves_ret]|].
  destruct (String.eqb intent "PRS");
    [apply preserves_bind; [done|intros ?; apply preserves_ret]|].
  apply preserves_bind; [by apply preserves_settle|]. intros r1.
  apply preserves_bind; [by apply preserves_settle|]. intros r2.
  apply preserves_bind; [by apply preserves_settle|]. intros r3.
  destruct r1, r2, r3; by intros w.
Qed.

Lemma summarize_keeps_cache (I : gmap string CacheEntry -> Prop) question user fetched :
  preserves I (summarize env question user fetched).
Proof.
  destruct fetched as [[jiraIssues githubPRs] githubCommits]. unfold summarize.
  destruct (_ && _); [apply preserves_ret|].
  apply preserves_bind; [apply preserves_clockOnly, assemble_clockOnly|].
  intros [[issues' prs'] commits'].
  apply preserves_bind; [apply preserves_liftT|]. intros response. apply preserves_ret.
Qed.

Lemma handleAIQuery_undecorated question :
  preserves cacheUndecorated (handleAIQuery cfg env question).
Proof.
  unfold handleAIQuery. destruct (findUserInQuery env question) as [user|];
    [|apply preserves_ret].
  apply preserves_tryCatch; [|intros e; apply preserves_ret].
  unfold tryBlock. apply preserves_bind.
  - intros w HI. by rewrite classifyIntent_run.
  - intros intent. apply preserves_bind; [apply fetchByIntent_undecorated|].
    intros fetched. apply summarize_keeps_cache.
Qed.

End UndecoratedCache.

(** The pull requests pass through the assembly as they were fetched. *)
Lemma assemble_keeps_prs (env : Env) (fetched : list obj * list obj * list obj) (w w' : World)
      (issues' prs' commits' : list obj) :
  assemble env fetched w = (Ok (issues', prs', commits'), w') ->
  prs' = snd (fst fetched).
Proof.
  destruct fetched as [[jiraIssues githubPRs] githubCommits]. unfold assemble. simpl.
  set (decoratedIssues := if negb (length jiraIssues =? 0)%nat
                          then mapM (decorateIssue env) jiraIssues else ret jiraIssues).
  set (decoratedCommits := if negb (length githubCommits =? 0)%nat
                           then mapM (decorateCommit env) githubCommits
                           else ret githubCommits).
  unfold bind, ret.
  destruct (decoratedIssues w) as [[issues|e] w1]; [|done].
  destruct (decoratedCommits w1) as [[commits|e] w2]; [|done].
  by intros [= <- <- <- <-].
Qed.


Lemma busyEnv_hostUndecorated (intentText : string) :
  hostUndecorated (Samples.busyEnv intentText).
Proof.
  split.
  - intros h owner repo author since commits. simpl.
    destruct (String.eqb repo "api"); [|destruct (String.eqb repo "web")];
      intros [= <-]; by repeat constructor.
  - intros h owner repo pulls. simpl.
    destruct (String.eqb repo "api"); [|destruct (String.eqb repo "web")];
      intros [= <-]; by repeat constructor.
Qed.



(** ** Histories only grow *)

Section Growth.
Context {S : Type} (tr : S -> History) (P : Event -> Prop).

Lemma emits_suffix {A} (m : SE S A) (s : S) :
  emitsOnly tr P m -> tr s `suffix_of` tr (snd (m s)).
Proof. intros Hm. destruct (Hm s) as (new & -> & _). by apply suffix_app_r. Qed.

Lemma bind_suffix {A B} (m : SE S A) (k : A -> SE S B) (s : S) :
  (forall a, emitsOnly tr P (k a)) -> tr (snd (m s)) `suffix_of` tr (snd (bind m k s)).
Proof.
  intros Hk. unfold bind. destruct (m s) as [[a|e] s1]; [|done].
  by apply emits_suffix.
Qed.

Lemma tryCatch_suffix {A} (m : SE S A) (handler : JsError -> SE S A) (s : S) :
  (forall e, emitsOnly tr P (handler e)) ->
  tr (snd (m s)) `suffix_of` tr (snd (tryCatch m handler s)).
Proof.
  intros Hh. unfold tryCatch. destruct (m s) as [[a|e] s1]; [done|].
  by apply emits_suffix.
Qed.

End Growth.

Section AnyEvent.
Context (cfg : Config) (env : Env).

Lemma clockOnly_emits {A} (P : Event -> Prop) (m : SE World A) :
  P EvNow -> clockOnly m -> emitsOnly trace P m.
Proof.
  intros Hnow Hm w. destruct (Hm w) as (a & n & ->). exists (repeat EvNow n).
  split; [done|]. induction n; by constructor.
Qed.

Lemma summarize_emits question user fetched :
  emitsOnly trace (fun _ => True) (summarize env question user fetched).
Proof.
  destruct fetched as [[jiraIssues githubPRs] githubCommits]. unfold summarize.
  destruct (_ && _); [apply emits_ret|].
  apply emits_bind; [by apply clockOnly_emits, assemble_clockOnly|].
  intros [[issues' prs'] commits']. unfold generate. repeat emits_step.
Qed.

Lemma fetchByIntent_extends intent user :
  emitsOnly trace (fun _ => True) (fetchByIntent cfg env intent user).
Proof.
  apply (emits_weaken _ (fun ev => isSummarizerCall ev = false)); [done|].
  apply fetchByIntent_emits.
Qed.

Lemma handleAIQuery_emits question :
  emitsOnly trace (fun _ => True) (handleAIQuery cfg env question).
Proof.
  unfold handleAIQuery. destruct (findUserInQuery env question) as [user|]; [|apply emits_ret].
  apply emits_tryCatch; [|intros e; apply emits_ret]. unfold tryBlock.
  apply emits_bind.
  - intros w. rewrite classifyIntent_run. exists [EvGenerate (intentPrompt question)].
    split; [done|]. by constructor.
  - intros intent. apply emits_bind; [apply fetchByIntent_extends|].
    intros fetched. apply summarize_emits.
Qed.

End AnyEvent.

(** ** Fetches within one window *)

Section Window.
Context (cfg : Config) (env : Env) (t0 : Z).

Lemma readingsWithin_narrow (first first' last last' : History) :
  first `suffix_of` first' -> last' `suffix_of` last ->
  readingsWithin env t0 first last -> readingsWithin env t0 first' last'.
Proof. intros Hfirst Hlast Hread h Hh1 Hh2. apply Hread; by etrans. Qed.

(** What the cache holds and has not outlived is served from it, at the
    cost of one clock reading. *)
Lemma fetchCached_served (key : string) (upstream : T (list obj)) (w : World)
      (payload : list obj) :
  storedSince t0 (dataCache w) ->
  holds (dataCache w) key payload ->
  Date_now env (trace w) <= t0 + CACHE_TTL ->
  fetchCached env key upstream w = (Ok payload, mkWorld (dataCache w) (EvNow :: trace w)).
Proof.
  intros Hsince (entry & Hentry & <-) Hnow. rewrite fetchCached_run. simpl. rewrite Hentry.
  pose proof (Hsince _ _ Hentry).
  destruct (Z.gtb_spec (Date_now env (trace w) - timestamp entry) CACHE_TTL); [lia|done].
Qed.

(** A fetch whose clock readings lie in the window keeps what the cache
    holds, adds only entries stamped inside the window and, when it
    succeeds, leaves its payload in the cache. *)
Lemma fetchCached_window (key : string) (upstream : T (list obj)) (w w' : World)
      (r : Result (list obj)) :
  emitsOnly (fun h : History => h) (fun _ => True) upstream ->
  storedSince t0 (dataCache w) ->
  fetchCached env key upstream w = (r, w') ->
  readingsWithin env t0 (trace w) (trace w') ->
  storedSince t0 (dataCache w')
  /\ (forall key' payload, holds (dataCache w) key' payload -> holds (dataCache w') key' payload)
  /\ (forall payload, r = Ok payload -> holds (dataCache w') key payload).
Proof.
  intros Hup Hsince. rewrite fetchCached_run. simpl.
  destruct (dataCache w !! key) as [entry|] eqn:Hentry.
  - pose proof (Hsince _ _ Hentry) as Hstamp.
    destruct (Z.gtb_spec (Date_now env (trace w) - timestamp entry) CACHE_TTL) as [Hold|_].
    + (* an expired entry would take a reading outside the window *)
      pose proof (emits_suffix _ _ upstream (EvNow :: trace w) Hup) as Hgrow.
      destruct (upstream (EvNow :: trace w)) as [[payload|e] h'];
        intros [= <- <-] Hread; simpl in *; exfalso;
        assert (t0 <= Date_now env (trace w) <= t0 + CACHE_TTL) as Hnow;
        try lia; apply Hread; [done| |done|].
      * apply suffix_cons_r. etrans; [|exact Hgrow]. by apply suffix_cons_r.
      * etrans; [|exact Hgrow]. by apply suffix_cons_r.
    + intros [= <- <-] _. simpl. repeat split; [done..|].
      intros payload [= <-]. by exists entry.
  - pose proof (emits_suffix _ _ upstream (trace w) Hup) as Hgrow.
    destruct (upstream (trace w)) as [[payload|e] h']; intros [= <- <-] Hread; simpl in *.
    + repeat split.
      * intros key' entry'. rewrite lookup_insert. case_decide.
        -- intros [= <-]. simpl. apply Hread; [done|]. by apply suffix_cons_r.
        -- apply Hsince.
      * intros key' payload' (entry' & Hentry' & Hdata). exists entry'.
        split; [|done]. rewrite lookup_insert_ne; [done|]. congruence.
      * intros payload' [= <-]. eexists. by rewrite lookup_insert_eq.
    + repeat split; [done..|]. intros payload [=].
Qed.

End Window.

Section WindowFetch.
Context (cfg : Config) (env : Env) (t0 : Z).

Lemma issues_search_extends id :
  emitsOnly (fun h : History => h) (fun _ => True) (searchActiveIssuesByUser cfg env id).
Proof.
  apply (emits_weaken _ (fun ev => isJiraPathCall ev = true)); [done|].
  apply searchActiveIssuesByUser_emits.
Qed.

Lemma commits_search_extends id :
  emitsOnly (fun h : History => h) (fun _ => True) (searchRecentCommitsByUser cfg env id).
Proof.
  apply (emits_weaken _ (fun ev => isCommitsPathCall ev = true)); [done|].
  apply searchRecentCommitsByUser_emits.
Qed.

Lemma prs_search_extends id :
  emitsOnly (fun h : History => h) (fun _ => True) (searchActivePRsByUser cfg env id).
Proof.
  apply (emits_weaken _ (fun ev => isPRsPathCall ev = true)); [done|].
  apply searchActivePRsByUser_emits.
Qed.

Lemma fetchCached_extends key upstream :
  emitsOnly (fun h : History => h) (fun _ => True) upstream ->
  emitsOnly trace (fun _ => True) (fetchCached env key upstream).
Proof. intros Hup. by apply fetchCached_emits. Qed.

Lemma fetchJiraData_extends id :
  emitsOnly trace (fun _ => True) (fetchJiraData cfg env id).
Proof. by apply fetchJiraData_emits. Qed.

Lemma fetchCommitsData_extends id :
  emitsOnly trace (fun _ => True) (fetchCommitsData cfg env id).
Proof. by apply fetchCommitsData_emits. Qed.

Lemma fetchPRsData_extends id :
  emitsOnly trace (fun _ => True) (fetchPRsData cfg env id).
Proof. by apply fetchPRsData_emits. Qed.

(** A fetch from a cache that holds the payload, followed by [k]: if the
    readings of the whole run lie in the window, the payload is served and
    [k] goes on one clock reading later. *)
Lemma bound_served {B} key upstream (k : list obj -> SE World B) (w : World) payload :
  emitsOnly (fun h : History => h) (fun _ => True) upstream ->
  (forall a, emitsOnly trace (fun _ => True) (k a)) ->
  storedSince t0 (dataCache w) ->
  holds (dataCache w) key payload ->
  readingsWithin env t0 (trace w) (trace (snd (bind (fetchCached env key upstream) k w))) ->
  bind (fetchCached env key upstream) k w
  = k payload (mkWorld (dataCache w) (EvNow :: trace w)).
Proof.
  intros Hup Hk Hsince Hholds Hread. apply bind_ok, (fetchCached_served env t0); [done..|].
  apply Hread; [done|]. apply (emits_suffix trace (fun _ => True)).
  apply emits_bind; [by apply fetchCached_extends|done].
Qed.

Lemma settled_served {B} key upstream (k : Result (list obj) -> SE World B) (w : World)
      payload :
  emitsOnly (fun h : History => h) (fun _ => True) upstream ->
  (forall r, emitsOnly trace (fun _ => True) (k r)) ->
  storedSince t0 (dataCache w) ->
  holds (dataCache w) key payload ->
  readingsWithin env t0 (trace w)
                 (trace (snd (bind (settle (fetchCached env key upstream)) k w))) ->
  bind (settle (fetchCached env key upstream)) k w
  = k (Ok payload) (mkWorld (dataCache w) (EvNow :: trace w)).
Proof.
  intros Hup Hk Hsince Hholds Hread.
  assert (fetchCached env key upstream w
          = (Ok payload, mkWorld (dataCache w) (EvNow :: trace w))) as Hrun.
  { apply (fetchCached_served env t0); [done..|]. apply Hread; [done|].
    apply (emits_suffix trace (fun _ => True)).
    apply emits_bind; [by apply emits_settle, fetchCached_extends|done]. }
  unfold bind, settle. by rewrite Hrun.
Qed.

Lemma fetchByIntent_window intent user fetched (w w' : World) :
  storedSince t0 (dataCache w) ->
  fetchByIntent cfg env intent user w = (Ok fetched, w') ->
  readingsWithin env t0 (trace w) (trace w') ->
  storedSince t0 (dataCache w') /\ holdsFetched (dataCache w') intent user fetched.
Proof.
  pose proof (issues_search_extends (jiraId user)) as Hjira.
  pose proof (commits_search_extends (githubId user)) as Hcommits.
  pose proof (prs_search_extends (githubId user)) as Hprs.
  intros Hsince. unfold fetchByIntent, holdsFetched.
  destruct (String.eqb intent "JIRA");
    [|destruct (String.eqb intent "COMMITS"); [|destruct (String.eqb intent "PRS")]].
  - unfold bind, ret.
    destruct (fetchJiraData cfg env (jiraId user) w) as [[payload|e] w1] eqn:Hrun; [|done].
    intros [= <- <-] Hread.
    destruct (fetchCached_window env t0 _ _ _ _ _ Hjira Hsince Hrun Hread)
      as (Hsince' & _ & Hholds). auto.
  - unfold bind, ret.
    destruct (fetchCommitsData cfg env (githubId user) w) as [[payload|e] w1] eqn:Hrun;
      [|done].
    intros [= <- <-] Hread.
    destruct (fetchCached_window env t0 _ _ _ _ _ Hcommits Hsince Hrun Hread)
      as (Hsince' & _ & Hholds). auto.
  - unfold bind, ret.
    destruct (fetchPRsData cfg env (githubId user) w) as [[payload|e] w1] eqn:Hrun; [|done].
    intros [= <- <-] Hread.
    destruct (fetchCached_window env t0 _ _ _ _ _ Hprs Hsince Hrun Hread)
      as (Hsince' & _ & Hholds). auto.
  - unfold bind, settle, ret, throw.
    pose proof (emits_suffix trace _ _ w (fetchJiraData_extends (jiraId user))) as Hgrow1.
    destruct (fetchJiraData cfg env (jiraId user) w) as [r1 w1] eqn:Hrun1.
    pose proof (emits_suffix trace _ _ w1 (fetchPRsData_extends (githubId user))) as Hgrow2.
    destruct (fetchPRsData cfg env (githubId user) w1) as [r2 w2] eqn:Hrun2.
    pose proof (emits_suffix trace _ _ w2 (fetchCommitsData_extends (githubId user)))
      as Hgrow3.
    destruct (fetchCommitsData cfg env (githubId user) w2) as [r3 w3] eqn:Hrun3.
    simpl in Hgrow1, Hgrow2, Hgrow3.
    destruct r1 as [jiraIssues|e], r2 as [githubPRs|e'], r3 as [githubCommits|e''];
      try done.
    intros [= <- <-] Hread.
    destruct (fetchCached_window env t0 _ _ _ _ _ Hjira Hsince Hrun1)
      as (Hsince1 & _ & Hholds1).
    { apply (readingsWithin_narrow env t0 (trace w) (trace w) (trace w3) (trace w1));
        [done|by etrans|done]. }
    destruct (fetchCached_window env t0 _ _ _ _ _ Hprs Hsince1 Hrun2)
      as (Hsince2 & Hkeep2 & Hholds2).
    { by apply (readingsWithin_narrow env t0 (trace w) (trace w1) (trace w3) (trace w2)). }
    destruct (fetchCached_window env t0 _ _ _ _ _ Hcommits Hsince2 Hrun3)
      as (Hsince3 & Hkeep3 & Hholds3).
    { apply (readingsWithin_narrow env t0 (trace w) (trace w2) (trace w3) (trace w3));
        [by etrans|done|done]. }
    auto 10.
Qed.

Lemma fetchByIntent_served intent user fetched (w : World) :
  storedSince t0 (dataCache w) ->
  holdsFetched (dataCache w) intent user fetched ->
  readingsWithin env t0 (trace w) (trace (snd (fetchByIntent cfg env intent user w))) ->
  exists n,
    fetchByIntent cfg env intent user w
    = (Ok fetched, mkWorld (dataCache w) (repeat EvNow n ++ trace w)%list).
Proof.
  pose proof (issues_search_extends (jiraId user)) as Hjira.
  pose proof (commits_search_extends (githubId user)) as Hcommits.
  pose proof (prs_search_extends (githubId user)) as Hprs.
  intros Hsince. destruct fetched as [[jiraIssues githubPRs] githubCommits].
  unfold fetchByIntent, holdsFetched, fetchJiraData, fetchCommitsData, fetchPRsData.
  destruct (String.eqb intent "JIRA");
    [|destruct (String.eqb intent "COMMITS"); [|destruct (String.eqb intent "PRS")]].
  - intros (Hholds & -> & ->) Hread. exists 1%nat.
    rewrite (bound_served _ _ _ _ jiraIssues Hjira);
      [done|intros ?; apply emits_ret|done..].
  - intros (-> & -> & Hholds) Hread. exists 1%nat.
    rewrite (bound_served _ _ _ _ githubCommits Hcommits);
      [done|intros ?; apply emits_ret|done..].
  - intros (-> & Hholds & ->) Hread. exists 1%nat.
    rewrite (bound_served _ _ _ _ githubPRs Hprs);
      [done|intros ?; apply emits_ret|done..].
  - intros (Hholds1 & Hholds2 & Hholds3) Hread. exists 3%nat.
    pose proof (fun Hk => settled_served _ _ _ _ jiraIssues Hjira Hk Hsince Hholds1 Hread)
      as Hstep1.
    lapply Hstep1; clear Hstep1.
    2:{ intros r1. emits_step; [by apply emits_settle, fetchCached_extends|].
        emits_step; [by apply emits_settle, fetchCached_extends|].
        destruct r1; repeat emits_step. }
    intros Hstep1. rewrite Hstep1 in Hread |- *. clear Hstep1. cbv beta in Hread |- *.
    set (w1 := mkWorld (dataCache w) (EvNow :: trace w)) in *.
    match type of Hread with
    | readingsWithin _ _ _ ?last =>
        apply (readingsWithin_narrow env t0 (trace w) (trace w1) last last) in Hread;
          [|by apply suffix_cons_r|done]
    end.
    pose proof (fun Hk => settled_served _ _ _ w1 githubPRs Hprs Hk Hsince Hholds2 Hread)
      as Hstep2.
    lapply Hstep2; clear Hstep2.
    2:{ intros r2. emits_step; [by apply emits_settle, fetchCached_extends|].
        destruct r2; repeat emits_step. }
    intros Hstep2. rewrite Hstep2 in Hread |- *. clear Hstep2. cbv beta in Hread |- *.
    set (w2 := mkWorld (dataCache w1) (EvNow :: trace w1)) in *.
    match type of Hread with
    | readingsWithin _ _ _ ?last =>
        apply (readingsWithin_narrow env t0 (trace w1) (trace w2) last last) in Hread;
          [|by apply suffix_cons_r|done]
    end.
    pose proof (fun Hk => settled_served _ _ _ w2 githubCommits Hcommits Hk Hsince Hholds3
                            Hread) as Hstep3.
    lapply Hstep3; clear Hstep3.
    2:{ intros r3. destruct r3; repeat emits_step. }
    intros Hstep3. by rewrite Hstep3.
Qed.

End WindowFetch.

Section RepeatedQuery.
Context (cfg : Config) (env : Env).

Lemma tryCatch_answer_world {S A} (m : SE S A) (f : JsError -> A) (s : S) :
  snd (tryCatch m (fun e => ret (f e)) s) = snd (m s).
Proof. unfold tryCatch, ret. by destruct (m s) as [[a|e] s']. Qed.

Lemma filter_clock_reads (n : nat) (rest : History) :
  List.filter isSummarizerCall (repeat EvNow n ++ rest)%list
  = List.filter isSummarizerCall rest.
Proof. induction n as [|n IH]; [done|]. simpl. apply IH. Qed.

Lemma clock_reads_not_upstream (n : nat) :
  Forall (fun ev => isUpstreamCall ev = false) (repeat EvNow n).
Proof. induction n as [|n IH]; by constructor. Qed.

Lemma summarize_cache question user fetched (w : World) :
  dataCache (snd (summarize env question user fetched w)) = dataCache w.
Proof.
  by apply (summarize_keeps_cache env (fun cache => cache = dataCache w)).
Qed.

(** The world a query leaves, when its classification and its fetch went
    through, is the one the summary step leaves. *)
Lemma handleAIQuery_world question user intent fetched (w wa wb : World) :
  findUserInQuery env question = Some user ->
  classifyIntent env question w = (Ok intent, wa) ->
  fetchByIntent cfg env intent user wa = (Ok fetched, wb) ->
  snd (handleAIQuery cfg env question w) = snd (summarize env question user fetched wb).
Proof.
  intros Huser Hclass Hfetch. unfold handleAIQuery. rewrite Huser.
  rewrite tryCatch_answer_world. by rewrite (tryBlock_run _ _ _ _ _ _ _ _ _ Hclass Hfetch).
Qed.

(** The history the fetch of a query leaves is part of the history the
    query leaves. *)
Lemma fetch_within_query question user intent (w wa : World) :
  findUserInQuery env question = Some user ->
  classifyIntent env question w = (Ok intent, wa) ->
  trace (snd (fetchByIntent cfg env intent user wa))
  `suffix_of` trace (snd (handleAIQuery cfg env question w)).
Proof.
  intros Huser Hclass. unfold handleAIQuery. rewrite Huser.
  etrans; [|apply (tryCatch_suffix trace (fun _ => True)); intros e; apply emits_ret].
  unfold tryBlock. rewrite (bind_ok _ _ _ _ _ Hclass).
  apply (bind_suffix trace (fun _ => True)). intros fetched. apply summarize_emits.
Qed.

End RepeatedQuery.




(** ** Upstream failures and the answer *)

Section UpstreamFailures.
Context (cfg : Config) (env : Env).

Lemma fetchOf_cached (kind : DataKind) (id : string) :
  fetchOf cfg env kind id = fetchCached env (cacheKey kind id) (connector cfg env kind id).
Proof. by destruct kind. Qed.

(** A fetch throws exactly when it asks its connector and the connector
    throws. *)
Lemma upstreamFails_iff (kind : DataKind) (id : string) (w : World) (e : JsError) :
  upstreamFails cfg env kind id w e <-> fst (fetchOf cfg env kind id w) = Throw e.
Proof.
  rewrite fetchOf_cached, fetchCached_run. unfold upstreamFails, consulted. simpl.
  destruct (dataCache w !! cacheKey kind id) as [entry|].
  - destruct (Date_now env (trace w) - timestamp entry >? CACHE_TTL).
    + split.
      * intros (h & h' & [= <-] & ->). done.
      * destruct (connector cfg env kind id (EvNow :: trace w)) as [[payload|e'] h'] eqn:Hup;
          simpl; [done|]. intros [= ->]. by eexists _, _.
    + split; [by intros (h & h' & ? & _)|done].
  - split.
    + intros (h & h' & [= <-] & ->). done.
    + destruct (connector cfg env kind id (trace w)) as [[payload|e'] h'] eqn:Hup;
        simpl; [done|]. intros [= ->]. by eexists _, _.
Qed.

(** The run of a query whose user is known, from the classification on. *)
Lemma handleAIQuery_from_classification (question intent : string) (user : Identity)
      (w : World) :
  findUserInQuery env question = Some user ->
  fst (classifyIntent env question w) = Ok intent ->
  handleAIQuery cfg env question w
  = tryCatch (bind (fetchByIntent cfg env intent user) (summarize env question user))
             (fun error => ret (Some (errorAnswer error)))
             (mkWorld (dataCache w) (EvGenerate (intentPrompt question) :: trace w)).
Proof.
  intros Huser Hintent. unfold handleAIQuery. rewrite Huser. unfold tryCatch, tryBlock.
  unfold bind at 1. rewrite classifyIntent_run in *. simpl in Hintent.
  injection Hintent as Hintent. by rewrite Hintent.
Qed.

Lemma fetch_throw_answered (question intent : string) (user : Identity) (w : World)
      (e : JsError) :
  findUserInQuery env question = Some user ->
  fst (classifyIntent env question w) = Ok intent ->
  fst (fetchByIntent cfg env intent user
         (mkWorld (dataCache w) (EvGenerate (intentPrompt question) :: trace w)))
  = Throw e ->
  fst (handleAIQuery cfg env question w) = Ok (Some (errorAnswer e)).
Proof.
  intros Huser Hintent Hfetch.
  rewrite (handleAIQuery_from_classification question intent user w Huser Hintent).
  unfold tryCatch, bind.
  destruct (fetchByIntent cfg env intent user _) as [[fetched|e'] w2]; simpl in Hfetch;
    [done|]. by injection Hfetch as ->.
Qed.

(** The fetch for an intent that asks for one kind of data is the fetch of
    that kind. *)
Lemma fetchByIntent_single (intent : string) (kind : DataKind) (user : Identity)
      (w : World) (e : JsError) :
  kindOfIntent intent = Some kind ->
  fst (fetchOf cfg env kind (idOf kind user) w) = Throw e ->
  fst (fetchByIntent cfg env intent user w) = Throw e.
Proof.
  unfold kindOfIntent, fetchByIntent.
  destruct (String.eqb intent "JIRA");
    [|destruct (String.eqb intent "COMMITS"); [|destruct (String.eqb intent "PRS")]];
    intros [= <-]; simpl; unfold bind.
  - destruct (fetchJiraData cfg env (jiraId user) w) as [[payload|e'] w']; simpl; by intros [= ->].
  - destruct (fetchCommitsData cfg env (githubId user) w) as [[payload|e'] w']; simpl; by intros [= ->].
  - destruct (fetchPRsData cfg env (githubId user) w) as [[payload|e'] w']; simpl; by intros [= ->].
Qed.

Lemma firstRejected_failed {A} (order : list nat) (settled : list (Result A)) (e : JsError) :
  firstRejected order settled = Some e -> exists i, settled !! i = Some (Throw e).
Proof.
  induction order as [|i rest IH]; simpl; [done|].
  destruct (settled !! i) as [[a|e']|] eqn:Hi; [done| |done].
  intros [= ->]. by exists i.
Qed.

(** The three fetches of a full summary, each started in the world the one
    before left. *)
Lemma fetchByIntent_full (intent : string) (user : Identity) (w : World) :
  kindOfIntent intent = None ->
  let r1 := fetchJiraData cfg env (jiraId user) w in
  let r2 := fetchPRsData cfg env (githubId user) (snd r1) in
  let r3 := fetchCommitsData cfg env (githubId user) (snd r2) in
  let rejected :=
    firstRejected (rejectionOrder env (trace (snd r3))) [fst r1; fst r2; fst r3] in
  fst (fetchByIntent cfg env intent user w)
  = match fst r1, fst r2, fst r3 with
    | Ok jiraIssues, Ok githubPRs, Ok githubCommits =>
        Ok (jiraIssues, githubPRs, githubCommits)
    | Throw e, _, _ => Throw (default e rejected)
    | _, Throw e, _ => Throw (default e rejected)
    | _, _, Throw e => Throw (default e rejected)
    end.
Proof.
  unfold kindOfIntent, fetchByIntent.
  destruct (String.eqb intent "JIRA"); [done|].
  destruct (String.eqb intent "COMMITS"); [done|].
  destruct (String.eqb intent "PRS"); [done|]. intros _. simpl.
  unfold bind, settle, gets.
  destruct (fetchJiraData cfg env (jiraId user) w) as [r1 w2]. simpl.
  destruct (fetchPRsData cfg env (githubId user) w2) as [r2 w3]. simpl.
  destruct (fetchCommitsData cfg env (githubId user) w3) as [r3 w4]. simpl.
  by destruct r1, r2, r3.
Qed.

(** The commit and pull request searches fail exactly when the discovery of
    the repositories does, with its error: a failure for one repository is
    caught in the loop. *)
Lemma search_throws_iff_discovery (body : string -> T (option (list obj)))
      (id : string) (h : History) (e : JsError) :
  fst ((let* repoFullNames := getContributionRepos cfg env id in
        fanOut body repoFullNames []) h) = Throw e
  <-> fst (getContributionRepos cfg env id h) = Throw e.
Proof.
  unfold bind. destruct (getContributionRepos cfg env id h) as [[repos|e'] h']; simpl.
  - rewrite fanOut_outcomes. split; done.
  - split; by intros [= ->].
Qed.

Lemma tracker_failure_passed_on (id host email token : string) (h : History) (e : JsError) :
  JIRA_HOST cfg = Some host -> truthyStr host = true ->
  JIRA_USER_EMAIL cfg = Some email -> truthyStr email = true ->
  JIRA_API_TOKEN cfg = Some token -> truthyStr token = true ->
  jiraSearch env h (host ++ "/rest/api/3/search/jql") email token (activeJql id) = Throw e ->
  fst (searchActiveIssuesByUser cfg env id h) = Throw e.
Proof.
  intros Hhost Hhost' Hemail Hemail' Htoken Htoken' Hsearch.
  unfold searchActiveIssuesByUser, getJiraAuthHeader. rewrite Hhost, Hemail, Htoken.
  rewrite Hemail', Htoken'. simpl. unfold bind at 1. simpl. rewrite Hhost'. simpl.
  unfold tryCatch, bind, call. simpl. unfold activeJql in Hsearch. by rewrite Hsearch.
Qed.

End UpstreamFailures.




(** * Further properties of the code *)

(** ** Relative times ([getRelativeTime]) *)

Section RelativePhrase.

Lemma relativePhrase_cases (d : Z) :
  let days := d / 86400000 in
  let hours := d / 3600000 in
  let minutes := d / 60000 in
  relativePhrase (Some d)
  = if 86400000 <=? d then showZ days ++ " day" ++ (if days =? 1 then "" else "s") ++ " ago"
    else if 3600000 <=? d
         then showZ hours ++ " hour" ++ (if hours =? 1 then "" else "s") ++ " ago"
         else if 60000 <=? d
              then showZ minutes ++ " minute" ++ (if minutes =? 1 then "" else "s") ++ " ago"
              else "just now".
Proof.
  intros days hours minutes. unfold relativePhrase.
  change (1000 * 60 * 60 * 24) with 86400000. change (1000 * 60 * 60) with 3600000.
  change (1000 * 60) with 60000. fold days hours minutes.
  destruct (Z.leb_spec 86400000 d) as [Hd|Hd].
  - assert (1 <= days) by (apply Z.div_le_lower_bound; lia).
    destruct (Z.gtb_spec days 0); [|lia].
    destruct (Z.gtb_spec days 1), (Z.eqb_spec days 1); (done || lia).
  - assert (days <= 0) by (apply Z.lt_succ_r, Z.div_lt_upper_bound; lia).
    destruct (Z.gtb_spec days 0); [lia|].
    destruct (Z.leb_spec 3600000 d) as [Hh|Hh].
    + assert (1 <= hours) by (apply Z.div_le_lower_bound; lia).
      destruct (Z.gtb_spec hours 0); [|lia].
      destruct (Z.gtb_spec hours 1), (Z.eqb_spec hours 1); (done || lia).
    + assert (hours <= 0) by (apply Z.lt_succ_r, Z.div_lt_upper_bound; lia).
      destruct (Z.gtb_spec hours 0); [lia|].
      destruct (Z.leb_spec 60000 d) as [Hm|Hm].
      * assert (1 <= minutes) by (apply Z.div_le_lower_bound; lia).
        destruct (Z.gtb_spec minutes 0); [|lia].
        destruct (Z.gtb_spec minutes 1), (Z.eqb_spec minutes 1); (done || lia).
      * assert (minutes <= 0) by (apply Z.lt_succ_r, Z.div_lt_upper_bound; lia).
        destruct (Z.gtb_spec minutes 0); [lia|done].
Qed.

End RelativePhrase.

(** X1: [getRelativeTime] never throws and reads the clock once.  An
    invalid date, a date in the future and a date less than a minute old
    give "just now"; from one minute on the phrase counts whole minutes (1
    to 59), from one hour on whole hours (1 to 23), from one day on whole
    days, with the unit in the plural except for a count of one. *)
Theorem getRelativeTime_phrase (env : Env) (dateString : jsval) (w : World) :
  exists phrase,
    getRelativeTime env dateString w
    = (Ok phrase, mkWorld (dataCache w) (EvNow :: trace w))
    /\ match Date_parse env dateString with
       | None => phrase = "just now"
       | Some date =>
           let d := Date_now env (trace w) - date in
           (d < 60000 -> phrase = "just now")
           /\ (60000 <= d < 3600000 ->
               1 <= d / 60000 <= 59
               /\ phrase = showZ (d / 60000) ++ " minute"
                           ++ (if d / 60000 =? 1 then "" else "s") ++ " ago")
           /\ (3600000 <= d < 86400000 ->
               1 <= d / 3600000 <= 23
               /\ phrase = showZ (d / 3600000) ++ " hour"
                           ++ (if d / 3600000 =? 1 then "" else "s") ++ " ago")
           /\ (86400000 <= d ->
               1 <= d / 86400000
               /\ phrase = showZ (d / 86400000) ++ " day"
                           ++ (if d / 86400000 =? 1 then "" else "s") ++ " ago")
       end.
Proof.
  eexists. split; [reflexivity|]. simpl.
  destruct (Date_parse env dateString) as [date|]; [|done].
  set (d := Date_now env (trace w) - date). rewrite relativePhrase_cases.
  repeat split.
  - intros Hd. destruct (Z.leb_spec 86400000 d); [lia|].
    destruct (Z.leb_spec 3600000 d); [lia|]. destruct (Z.leb_spec 60000 d); [lia|done].
  - apply Z.div_le_lower_bound; lia.
  - apply Z.lt_succ_r, Z.div_lt_upper_bound; lia.
  - destruct (Z.leb_spec 86400000 d); [lia|].
    destruct (Z.leb_spec 3600000 d); [lia|]. destruct (Z.leb_spec 60000 d); [done|lia].
  - apply Z.div_le_lower_bound; lia.
  - apply Z.lt_succ_r, Z.div_lt_upper_bound; lia.
  - destruct (Z.leb_spec 86400000 d); [lia|]. destruct (Z.leb_spec 3600000 d); [done|lia].
  - apply Z.div_le_lower_bound; lia.
  - destruct (Z.leb_spec 86400000 d); [done|lia].
Qed.

Lemma getRelativeTime_phrase_witness :
  fst (getRelativeTime (Samples.idleEnv "JIRA") (JStr "2023-11-14T20:13:20.000Z") Samples.start)
  = Ok "2 hours ago".
Proof.
  destruct (getRelativeTime_phrase (Samples.idleEnv "JIRA") (JStr "2023-11-14T20:13:20.000Z")
              Samples.start) as (phrase & -> & Hphrase).
  simpl in Hphrase. destruct Hphrase as (_ & _ & Hhours & _).
  destruct Hhours as [_ ->]; [split; by vm_compute|]. reflexivity.
Defined.

(** ** More on the data cache *)

Section CacheMore.
Context (env : Env).

Lemma getCachedData_cases (key : string) (w : World) :
  (dataCache w !! key = None /\ getCachedData env key w = (Ok None, w))
  \/ (exists entry,
         dataCache w !! key = Some entry
         /\ ((Date_now env (trace w) - timestamp entry > CACHE_TTL
              /\ getCachedData env key w
                 = (Ok None, mkWorld (delete key (dataCache w)) (EvNow :: trace w)))
             \/ (Date_now env (trace w) - timestamp entry <= CACHE_TTL
                 /\ getCachedData env key w
                    = (Ok (Some (data entry)), mkWorld (dataCache w) (EvNow :: trace w))))).
Proof.
  destruct (dataCache w !! key) as [entry|] eqn:Hentry.
  - right. exists entry. split; [done|].
    destruct (Z_gt_le_dec (Date_now env (trace w) - timestamp entry) CACHE_TTL).
    + left. split; [done|]. by apply (getCachedData_expired env key w entry).
    + right. split; [done|]. by apply (getCachedData_fresh env key w entry).
  - left. split; [done|]. by apply getCachedData_absent.
Qed.

End CacheMore.

(** X2: entries of different (kind, identifier) pairs never meet: writing
    or reading one pair leaves the entry of any other pair as it was. *)
Theorem cache_pairs_isolated (env : Env) (kind kind' : DataKind) (id id' : string)
        (payload : list obj) (w : World) :
  (kind, id) <> (kind', id') ->
  dataCache (snd (setCachedData env (cacheKey kind id) payload w)) !! cacheKey kind' id'
  = dataCache w !! cacheKey kind' id'
  /\ dataCache (snd (getCachedData env (cacheKey kind id) w)) !! cacheKey kind' id'
     = dataCache w !! cacheKey kind' id'.
Proof.
  intros Hpair.
  assert (cacheKey kind id <> cacheKey kind' id') as Hkey
      by (intros [-> ->]%cacheKey_inj; done).
  split.
  - rewrite setCachedData_run. simpl. by rewrite lookup_insert_ne.
  - destruct (getCachedData_other env _ _ w (not_eq_sym Hkey)) as (r & w' & -> & Hsame).
    done.
Qed.

Lemma cache_pairs_isolated_witness :
  dataCache (snd (setCachedData (Samples.idleEnv "JIRA") (cacheKey KCommits "mikeross88")
                                [Samples.datedCommit]
                                (mkWorld {[ cacheKey KPRs "mikeross88"
                                            := mkEntry [Samples.ownPull] 1700000000000 ]} [])))
  !! cacheKey KPRs "mikeross88"
  = Some (mkEntry [Samples.ownPull] 1700000000000).
Proof.
  rewrite (proj1 (cache_pairs_isolated (Samples.idleEnv "JIRA") KCommits KPRs
                    "mikeross88" "mikeross88" [Samples.datedCommit] _ ltac:(discriminate))).
  apply lookup_singleton_eq.
Defined.

(** X3: the last write wins: after two writes under one key the cache
    holds the second payload alone, stamped with the second clock reading,
    and a read within [CACHE_TTL] of that stamp returns it. *)
Theorem cache_last_write_wins (env : Env) (key : string) (first second : list obj)
        (w w1 w2 : World) :
  setCachedData env key first w = (Ok tt, w1) ->
  setCachedData env key second w1 = (Ok tt, w2) ->
  Date_now env (trace w2) - Date_now env (trace w1) <= CACHE_TTL ->
  dataCache w2 = <[key := mkEntry second (Date_now env (trace w1))]> (dataCache w)
  /\ getCachedData env key w2
     = (Ok (Some second), mkWorld (dataCache w2) (EvNow :: trace w2)).
Proof.
  rewrite !setCachedData_run. intros [= <-] [= <-] Hyoung. simpl in *. split.
  - by rewrite insert_insert_eq.
  - rewrite (getCachedData_fresh env key _ (mkEntry second (Date_now env (EvNow :: trace w))));
      [done|apply lookup_insert_eq|done].
Qed.

Lemma cache_last_write_wins_witness :
  fst (getCachedData (Samples.idleEnv "JIRA") "jira_Mike Ross"
         (snd (setCachedData (Samples.idleEnv "JIRA") "jira_Mike Ross" []
                 (snd (setCachedData (Samples.idleEnv "JIRA") "jira_Mike Ross"
                                     [Samples.ownPull] Samples.start)))))
  = Ok (Some []).
Proof.
  pose (env := Samples.idleEnv "JIRA").
  pose (w1 := snd (setCachedData env "jira_Mike Ross" [Samples.ownPull] Samples.start)).
  pose (w2 := snd (setCachedData env "jira_Mike Ross" [] w1)).
  exact (f_equal fst (proj2 (cache_last_write_wins env "jira_Mike Ross" [Samples.ownPull] []
                               Samples.start w1 w2 eq_refl eq_refl ltac:(by vm_compute)))).
Defined.

(** X4: a read never throws and never adds an entry; after a miss the key
    is absent, so that the next read misses again, without a clock reading
    and without any change. *)
Theorem cache_miss_leaves_key_absent (env : Env) (key : string) (w : World) :
  (exists r w', getCachedData env key w = (Ok r, w')
                /\ dom (dataCache w') ⊆ dom (dataCache w))
  /\ (forall w', getCachedData env key w = (Ok None, w') ->
                 dataCache w' !! key = None
                 /\ getCachedData env key w' = (Ok None, w')).
Proof.
  destruct (getCachedData_cases env key w)
    as [[Hnone ->]|(entry & Hentry & [[Hold ->]|[Hyoung ->]])].
  - split; [by eexists _, _|]. intros w' [= <-]. split; [done|].
    by apply getCachedData_absent.
  - split.
    + eexists _, _. split; [done|]. simpl. rewrite dom_delete. by apply subseteq_difference_l.
    + intros w' [= <-]. simpl. split; [apply lookup_delete_eq|].
      apply getCachedData_absent. apply lookup_delete_eq.
  - split; [by eexists _, _|]. intros w' Hmiss. discriminate Hmiss.
Qed.

Lemma cache_miss_leaves_key_absent_witness :
  dataCache (snd (getCachedData (Samples.idleEnv "JIRA") "jira_Mike Ross"
                    (mkWorld {[ "jira_Mike Ross" := mkEntry [] 1699999000000 ]} [])))
  !! "jira_Mike Ross" = None.
Proof.
  refine (proj1 (proj2 (cache_miss_leaves_key_absent (Samples.idleEnv "JIRA") "jira_Mike Ross"
                          (mkWorld {[ "jira_Mike Ross" := mkEntry [] 1699999000000 ]} []))
                       _ _)).
  vm_compute. reflexivity.
Defined.

(** X5: a cached fetch touches the entry of its own key only, and asks
    its connector exactly when the cache holds no fresh entry for the key.
    When the connector throws, the fetch throws the same error and nothing
    is stored under the key: a failure is never cached.  When the connector
    returns a payload, the fetch returns it and the cache holds it under
    the key.  With a fresh entry the connector is not asked and the stored
    payload is returned.  The fetch throws in no other case than a failure
    of the connector. *)
Theorem fetchCached_footprint (env : Env) (key : string) (upstream : T (list obj))
        (w : World) :
  (forall key', key' <> key ->
                dataCache (snd (fetchCached env key upstream w)) !! key' = dataCache w !! key')
  /\ match consulted env key w with
     | Some h =>
         (forall e h',
             upstream h = (Throw e, h') ->
             exists w', fetchCached env key upstream w = (Throw e, w')
                        /\ dataCache w' !! key = None /\ trace w' = h')
         /\ (forall payload h',
                upstream h = (Ok payload, h') ->
                exists w', fetchCached env key upstream w = (Ok payload, w')
                           /\ holds (dataCache w') key payload
                           /\ trace w' = EvNow :: h')
     | None =>
         exists entry,
           dataCache w !! key = Some entry
           /\ fetchCached env key upstream w
              = (Ok (data entry), mkWorld (dataCache w) (EvNow :: trace w))
     end
  /\ (forall e, fst (fetchCached env key upstream w) = Throw e ->
                exists h h', consulted env key w = Some h /\ upstream h = (Throw e, h')).
Proof.
  rewrite fetchCached_run. unfold consulted. simpl.
  destruct (dataCache w !! key) as [entry|] eqn:Hentry.
  - destruct (Date_now env (trace w) - timestamp entry >? CACHE_TTL).
    + split; [|split; [split|]].
      * intros key' Hne.
        destruct (upstream (EvNow :: trace w)) as [[payload|e] h']; simpl;
          by rewrite ?lookup_insert_ne, ?lookup_delete_ne.
      * intros e h' ->. eexists. split; [done|]. split; [apply lookup_delete_eq|done].
      * intros payload h' ->. eexists. split; [done|]. split; [|done].
        simpl. eexists. by rewrite lookup_insert_eq.
      * intros e. destruct (upstream (EvNow :: trace w)) as [[payload|e'] h'] eqn:Hup;
          simpl; [done|]. intros [= ->]. by eexists _, _.
    + split; [done|]. split; [by exists entry|]. by intros e.
  - split; [|split; [split|]].
    + intros key' Hne.
      destruct (upstream (trace w)) as [[payload|e] h']; simpl;
        by rewrite ?lookup_insert_ne.
    + intros e h' ->. eexists. by split.
    + intros payload h' ->. eexists. split; [done|]. split; [|done].
      simpl. eexists. by rewrite lookup_insert_eq.
    + intros e. destruct (upstream (trace w)) as [[payload|e'] h'] eqn:Hup;
        simpl; [done|]. intros [= ->]. by eexists _, _.
Qed.

(** ** The code host's client ([github-client.js]) *)

Section Records.

Lemma lookupField_setField_same (k : string) (v : jsval) (o : obj) :
  lookupField k (setField k v o) = Some v.
Proof.
  induction o as [|[k' v'] o IH]; simpl.
  - by rewrite String.eqb_refl.
  - destruct (String.eqb k k') eqn:Hk; simpl; by rewrite Hk.
Qed.

Lemma lookupField_setField_other (k k' : string) (v : jsval) (o : obj) :
  String.eqb k k' = false -> lookupField k (setField k' v o) = lookupField k o.
Proof.
  intros Hne. induction o as [|[k'' v''] o IH]; simpl.
  - by rewrite Hne.
  - destruct (String.eqb k' k'') eqn:Hk'; simpl.
    + apply String.eqb_eq in Hk' as <-. by rewrite Hne.
    + by rewrite IH.
Qed.

Lemma strictEqStr_true (v : jsval) (s : string) : strictEqStr v s = true -> v = JStr s.
Proof. destruct v; simpl; try done. by intros ->%String.eqb_eq. Qed.

Lemma filter_elem {A} (f : A -> bool) (l : list A) (x : A) :
  x ∈ List.filter f l <-> x ∈ l /\ f x = true.
Proof. rewrite !list_elem_of_In. apply filter_In. Qed.

End Records.

Section Discovery.

(** [[...new Set(xs)]] keeps one copy of every element, in the order of the
    array. *)
Lemma setFrom_spec (xs seen : list string) :
  NoDup seen ->
  exists fresh,
    setFrom xs seen = (seen ++ fresh)%list
    /\ NoDup (seen ++ fresh)%list
    /\ fresh `sublist_of` xs
    /\ forall x, x ∈ fresh <-> x ∈ xs /\ x ∉ seen.
Proof.
  revert seen. induction xs as [|x rest IH]; intros seen Hseen; simpl.
  - exists []. rewrite app_nil_r. split; [done|]. split; [done|]. split; [done|].
    intros y. split; [by intros ?%elem_of_nil|by intros [?%elem_of_nil _]].
  - destruct (decide (x ∈ seen)) as [Hin|Hout].
    + destruct (IH seen Hseen) as (fresh & -> & Hnodup & Hsub & Hmem).
      exists fresh. split; [done|]. split; [done|]. split; [by apply sublist_cons|].
      intros y. rewrite Hmem, elem_of_cons. split.
      * intros [Hy Hnew]. split; [by right|done].
      * intros [[->|Hy] Hnew]; [done|by split].
    + assert (NoDup (seen ++ [x])%list) as Hseen'.
      { apply NoDup_app. split; [done|]. split; [|apply NoDup_singleton].
        intros y Hy ->%list_elem_of_singleton. done. }
      destruct (IH _ Hseen') as (fresh & -> & Hnodup & Hsub & Hmem).
      exists (x :: fresh). rewrite <- app_assoc in *. simpl in *.
      split; [done|]. split; [done|]. split; [by apply sublist_skip|].
      intros y. rewrite !elem_of_cons, Hmem, elem_of_app, list_elem_of_singleton. split.
      * intros [->|[Hy Hnew]]; [split; [by left|done]|]. split; [by right|tauto].
      * intros [[->|Hy] Hnew]; [by left|].
        destruct (decide (y = x)) as [->|Hne]; [by left|]. right. split; [done|tauto].
Qed.

Lemma named_sublist (events : list (option string)) :
  Some <$> omap (fun name : option string =>
                   match name with
                   | Some s => if truthyStr s then Some s else None
                   | None => None
                   end) events
  `sublist_of` events.
Proof.
  induction events as [|[s|] events IH]; simpl; [done| |by apply sublist_cons].
  destruct (truthyStr s); simpl; [by apply sublist_skip|by apply sublist_cons].
Qed.

Lemma named_elem (events : list (option string)) (name : string) :
  name ∈ omap (fun name : option string =>
                 match name with
                 | Some s => if truthyStr s then Some s else None
                 | None => None
                 end) events
  <-> Some name ∈ events /\ truthyStr name = true.
Proof.
  rewrite list_elem_of_omap. split.
  - intros ([s|] & Hin & Heq); [|done]. destruct (truthyStr s) eqn:Hs; [|done].
    injection Heq as ->. done.
  - intros [Hin Hs]. exists (Some name). by rewrite Hs.
Qed.

End Discovery.

(** X6: when [getContributionRepos] returns, the client was obtained (with
    a token, without a call) and the user's activity feed was requested
    once after that, and these are its only calls; the repositories it
    returns are the non-empty repository names of the events of that
    answer, each once, in the order of the feed. *)
Theorem getContributionRepos_distinct (cfg : Config) (env : Env) (username : string)
        (h h' : History) (repos : list string) :
  getContributionRepos cfg env username h = (Ok repos, h') ->
  let h0 := if truthyOpt (GITHUB_TOKEN cfg) then h
            else EvInstallation (GITHUB_INSTALLATION_ID cfg) :: h in
  exists events,
    paginateEvents env h0 username = Ok events
    /\ h' = EvEvents username :: h0
    /\ NoDup repos
    /\ (Some <$> repos) `sublist_of` events
    /\ forall name, name ∈ repos <-> Some name ∈ events /\ name <> "".
Proof.
  unfold getContributionRepos, bind at 1, getOctokit.
  destruct (truthyOpt (GITHUB_TOKEN cfg)); unfold call, ret at 1;
    [|destruct (getInstallationOctokit env h (GITHUB_INSTALLATION_ID cfg)) as [[]|e];
      [|done]];
    unfold bind, call, ret; cbn zeta;
    match goal with
    | |- context [paginateEvents env ?h0 username] =>
        destruct (paginateEvents env h0 username) as [events|e] eqn:Hfeed; [|done]
    end;
    intros [= <- <-]; exists events; (split; [done|]); (split; [done|]);
    destruct (setFrom_spec
                (omap (fun name : option string =>
                         match name with
                         | Some s => if truthyStr s then Some s else None
                         | None => None
                         end) events) [] (NoDup_nil_2)) as (fresh & -> & Hnodup & Hsub & Hmem);
    simpl in *; (split; [done|]); split;
    try (etrans; [by apply (fmap_sublist Some)|]; apply named_sublist);
    intros name; rewrite Hmem, named_elem; split;
    [ intros [[Hin Hs] _]; split; [done|]; by intros ->
    | intros [Hin Hs]; split; [|by intros ?%elem_of_nil]; split; [done|]; by destruct name
    | intros [[Hin Hs] _]; split; [done|]; by intros ->
    | intros [Hin Hs]; split; [|by intros ?%elem_of_nil]; split; [done|]; by destruct name ].
Qed.

Lemma getContributionRepos_distinct_witness :
  exists events,
    paginateEvents (Samples.busyEnv "PRS") [] "mikeross88" = Ok events
    /\ [EvEvents "mikeross88"] = [EvEvents "mikeross88"]
    /\ NoDup ["acme/api"; "acme/gone"; "acme/web"]
    /\ (Some <$> ["acme/api"; "acme/gone"; "acme/web"]) `sublist_of` events
    /\ forall name, name ∈ ["acme/api"; "acme/gone"; "acme/web"]
                    <-> Some name ∈ events /\ name <> "".
Proof.
  apply (getContributionRepos_distinct Samples.cfg (Samples.busyEnv "PRS") "mikeross88" []).
  vm_compute. reflexivity.
Defined.

Section FanOutRecords.
Context (cfg : Config) (env : Env).

(** What the loop returns is made of what it had and of what its
    iterations handed over. *)
Lemma fanOut_yields (Q : obj -> Prop) (body : string -> T (option (list obj)))
      (repoFullNames : list string) (all : list obj) :
  (forall fullName, fullName ∈ repoFullNames ->
                    yields (fun fetched => forall records, fetched = Some records ->
                                                           Forall Q records)
                           (body fullName)) ->
  Forall Q all ->
  yields (Forall Q) (fanOut body repoFullNames all).
Proof.
  revert all. induction repoFullNames as [|fullName rest IH]; intros all Hbody Hall; simpl.
  - by apply yields_ret.
  - intros h out h'. unfold bind at 1, tryCatch, ret.
    destruct (body fullName h) as [[fetched|e] h1] eqn:Hrun.
    + apply IH.
      * intros name Hname. apply Hbody. by right.
      * apply Forall_app. split; [done|]. destruct fetched as [records|]; [|done].
        simpl. eapply (Hbody fullName); [by left|exact Hrun|done].
    + apply IH; [|by rewrite app_nil_r]. intros name Hname. apply Hbody. by right.
Qed.

Lemma truthyStr_nonempty (s : string) : truthyStr s = true -> s <> "".
Proof. by destruct s. Qed.

Lemma prsOfRepo_yields (username fullName : string) :
  yields (fun fetched => forall records, fetched = Some records ->
                                         Forall (pullFrom env username fullName) records)
         (prsOfRepo cfg env username fullName).
Proof.
  intros h fetched h'. unfold prsOfRepo.
  destruct (splitSlash fullName) as [|owner [|repo rest]] eqn:Hsplit;
    [by intros [= <- _]..|].
  destruct (truthyStr owner) eqn:Howner; [|by intros [= <- _]].
  destruct (truthyStr repo) eqn:Hrepo; [|by intros [= <- _]]. simpl.
  unfold getActivePullRequests, bind at 1 2.
  destruct (getOctokit cfg env h) as [[[]|e] h0]; [|done].
  unfold bind, call, ret. destruct (requestPulls env h0 owner repo) as [listed|e] eqn:Hpulls;
    [|done].
  intros [= <- _] records [= <-]. rewrite Forall_fmap. apply Forall_forall.
  intros pr0 [Hin Hlogin]%filter_elem. simpl.
  exists h0, owner, repo, rest, listed, pr0.
  repeat split; try done; try by apply truthyStr_nonempty.
  by apply strictEqStr_true.
Qed.

Lemma commitsOfRepo_yields (username fullName : string) :
  yields (fun fetched => forall records, fetched = Some records ->
                                         Forall (commitFrom env username fullName) records)
         (commitsOfRepo cfg env username fullName).
Proof.
  intros h fetched h'. unfold commitsOfRepo.
  destruct (splitSlash fullName) as [|owner [|repo rest]] eqn:Hsplit;
    [by intros [= <- _]..|].
  destruct (truthyStr owner) eqn:Howner; [|by intros [= <- _]].
  destruct (truthyStr repo) eqn:Hrepo; [|by intros [= <- _]]. simpl.
  unfold getRecentCommits, bind at 1 2.
  destruct (getOctokit cfg env h) as [[[]|e] h0]; [|done].
  unfold bind, now, call, ret.
  destruct (requestCommits env (EvNow :: h0) owner repo username
                           (sevenDaysBefore env (Date_now env h0))) as [returned|e] eqn:Hcommits;
    [|done].
  intros [= <- _] records [= <-]. rewrite Forall_fmap. apply Forall_forall.
  intros commit0 Hin. simpl.
  exists (EvNow :: h0), h0, owner, repo, rest, returned, commit0.
  repeat split; try done; by apply truthyStr_nonempty.
Qed.

End FanOutRecords.

(** X7: every pull request [searchActivePRsByUser] returns was listed by
    the host as open in a repository of the user's activity feed, has the
    user as its author ([pr.user?.login === username]) and carries that
    repository's full name in its [repo] property, its author left as it
    was. *)
Theorem searchActivePRsByUser_authored (cfg : Config) (env : Env) (username : string)
        (h h' : History) (prs : list obj) :
  searchActivePRsByUser cfg env username h = (Ok prs, h') ->
  exists repos h1,
    getContributionRepos cfg env username h = (Ok repos, h1)
    /\ Forall (fun pr =>
                 exists fullName,
                   fullName ∈ repos
                   /\ pullFrom env username fullName pr
                   /\ getField "repo" pr = JStr fullName
                   /\ optChain (getField "user" pr) "login" = JStr username) prs.
Proof.
  unfold searchActivePRsByUser, bind at 1.
  destruct (getContributionRepos cfg env username h) as [[repos|e] h1]; [|done].
  intros Hrun. exists repos, h1. split; [done|].
  refine (fanOut_yields _ (prsOfRepo cfg env username) repos [] _ _ h1 prs h' Hrun);
    [|done].
  intros fullName Hname h2 fetched h3 Hbody records ->.
  pose proof (prsOfRepo_yields cfg env username fullName h2 _ h3 Hbody records eq_refl)
    as Hrecords.
  apply (Forall_impl _ _ _ Hrecords). intros pr Hpr. exists fullName.
  split; [done|]. split; [done|].
  destruct Hpr as (h0 & owner & repo & rest & listed & pr0 & _ & _ & _ & _ & _ & Hlogin & ->).
  unfold getField. rewrite lookupField_setField_same.
  by rewrite lookupField_setField_other.
Qed.

Lemma searchActivePRsByUser_authored_witness :
  fst (searchActivePRsByUser Samples.cfg (Samples.busyEnv "PRS") "mikeross88" [])
  = Ok [setField "repo" (JStr "acme/api") Samples.ownPull]
  /\ Forall (fun pr => optChain (getField "user" pr) "login" = JStr "mikeross88")
            [setField "repo" (JStr "acme/api") Samples.ownPull].
Proof.
  split; [vm_compute; reflexivity|].
  destruct (searchActivePRsByUser_authored Samples.cfg (Samples.busyEnv "PRS") "mikeross88" []
              (snd (searchActivePRsByUser Samples.cfg (Samples.busyEnv "PRS") "mikeross88" []))
              [setField "repo" (JStr "acme/api") Samples.ownPull]
              ltac:(vm_compute; reflexivity)) as (repos & h1 & _ & Hall).
  apply (Forall_impl _ _ _ Hall). by intros pr (fullName & _ & _ & _ & Hlogin).
Defined.

(** X8: every commit [searchRecentCommitsByUser] returns was returned by
    the host for a repository of the user's activity feed, asked for the
    user as author and for the seven days before a reading of the clock,
    and carries that repository's full name in its [repo] property. *)
Theorem searchRecentCommitsByUser_tagged (cfg : Config) (env : Env) (username : string)
        (h h' : History) (commits : list obj) :
  searchRecentCommitsByUser cfg env username h = (Ok commits, h') ->
  exists repos h1,
    getContributionRepos cfg env username h = (Ok repos, h1)
    /\ Forall (fun commit =>
                 exists fullName,
                   fullName ∈ repos
                   /\ commitFrom env username fullName commit
                   /\ getField "repo" commit = JStr fullName) commits.
Proof.
  unfold searchRecentCommitsByUser, bind at 1.
  destruct (getContributionRepos cfg env username h) as [[repos|e] h1]; [|done].
  intros Hrun. exists repos, h1. split; [done|].
  refine (fanOut_yields _ (commitsOfRepo cfg env username) repos [] _ _ h1 commits h' Hrun);
    [|done].
  intros fullName Hname h2 fetched h3 Hbody records ->.
  pose proof (commitsOfRepo_yields cfg env username fullName h2 _ h3 Hbody records eq_refl)
    as Hrecords.
  apply (Forall_impl _ _ _ Hrecords). intros commit Hcommit. exists fullName.
  split; [done|]. split; [done|].
  destruct Hcommit as (h0 & h4 & owner & repo & rest & returned & commit0 & _ & _ & _ & _ & _ & ->).
  unfold getField. by rewrite lookupField_setField_same.
Qed.

Lemma searchRecentCommitsByUser_tagged_witness :
  fst (searchRecentCommitsByUser Samples.cfg (Samples.busyEnv "COMMITS") "mikeross88" [])
  = Ok [setField "repo" (JStr "acme/api") Samples.datedCommit;
        setField "repo" (JStr "acme/web") Samples.undatedCommit]
  /\ Forall (fun commit => exists fullName, getField "repo" commit = JStr fullName)
            [setField "repo" (JStr "acme/api") Samples.datedCommit;
             setField "repo" (JStr "acme/web") Samples.undatedCommit].
Proof.
  split; [vm_compute; reflexivity|].
  destruct (searchRecentCommitsByUser_tagged Samples.cfg (Samples.busyEnv "COMMITS")
              "mikeross88" []
              (snd (searchRecentCommitsByUser Samples.cfg (Samples.busyEnv "COMMITS")
                      "mikeross88" []))
              [setField "repo" (JStr "acme/api") Samples.datedCommit;
               setField "repo" (JStr "acme/web") Samples.undatedCommit]
              ltac:(vm_compute; reflexivity)) as (repos & h1 & _ & Hall).
  apply (Forall_impl _ _ _ Hall). intros commit (fullName & _ & _ & Hrepo). by exists fullName.
Defined.

(** X9: the two searches throw exactly when the discovery of the
    repositories throws, with its error and at its history: no failure
    inside the loop over the repositories reaches the caller, and no
    request for commits or pull requests is made after a failed
    discovery. *)
Theorem searches_throw_only_at_discovery (cfg : Config) (env : Env) (username : string)
        (h h' : History) (e : JsError) :
  (searchRecentCommitsByUser cfg env username h = (Throw e, h')
   <-> getContributionRepos cfg env username h = (Throw e, h'))
  /\ (searchActivePRsByUser cfg env username h = (Throw e, h')
      <-> getContributionRepos cfg env username h = (Throw e, h')).
Proof.
  unfold searchRecentCommitsByUser, searchActivePRsByUser, bind.
  destruct (getContributionRepos cfg env username h) as [[repos|e0] h1]; [|split; split; by intros [= -> ->]].
  split; split; intros Hrun; try discriminate Hrun; apply (f_equal fst) in Hrun;
    by rewrite fanOut_outcomes in Hrun.
Qed.

(** ** Request budgets *)

Section AtMost.
Context {S : Type} (tr : S -> History) (c : Event -> bool).

Lemma count_silent (new : History) :
  Forall (fun ev => c ev = false) new -> List.filter c new = [].
Proof.
  induction 1 as [|ev new Hev _ IH]; simpl; [done|]. by rewrite Hev.
Qed.

Lemma count_app (new1 new2 : History) :
  length (List.filter c (new1 ++ new2))
  = (length (List.filter c new1) + length (List.filter c new2))%nat.
Proof. by rewrite List.filter_app, length_app. Qed.

Lemma atMost_silent {A} (n : nat) (m : SE S A) :
  emitsOnly tr (fun ev => c ev = false) m -> emitsAtMost tr c n m.
Proof.
  intros Hm s. destruct (Hm s) as (new & Htr & Hnew). exists new. split; [done|].
  rewrite count_silent by done. simpl. lia.
Qed.

Lemma atMost_ret {A} (n : nat) (a : A) : emitsAtMost tr c n (ret a).
Proof. intros s. exists []. split; [done|]. simpl. lia. Qed.

Lemma atMost_weaken {A} (n n' : nat) (m : SE S A) :
  (n <= n')%nat -> emitsAtMost tr c n m -> emitsAtMost tr c n' m.
Proof.
  intros Hle Hm s. destruct (Hm s) as (new & Htr & Hnew). exists new. split; [done|lia].
Qed.

Lemma atMost_bind {A B} (n1 n2 n : nat) (m : SE S A) (k : A -> SE S B) :
  (n1 + n2 <= n)%nat ->
  emitsAtMost tr c n1 m -> (forall a, emitsAtMost tr c n2 (k a)) ->
  emitsAtMost tr c n (bind m k).
Proof.
  intros Hsum Hm Hk s. destruct (Hm s) as (new1 & Htr1 & Hnew1). unfold bind.
  destruct (m s) as [[a|e] s1]; simpl in Htr1.
  - destruct (Hk a s1) as (new2 & Htr2 & Hnew2). exists (new2 ++ new1)%list.
    rewrite Htr2, Htr1, app_assoc. split; [done|]. rewrite count_app. lia.
  - exists new1. split; [done|lia].
Qed.

Lemma atMost_tryCatch {A} (n1 n2 n : nat) (m : SE S A) (handler : JsError -> SE S A) :
  (n1 + n2 <= n)%nat ->
  emitsAtMost tr c n1 m -> (forall e, emitsAtMost tr c n2 (handler e)) ->
  emitsAtMost tr c n (tryCatch m handler).
Proof.
  intros Hsum Hm Hh s. destruct (Hm s) as (new1 & Htr1 & Hnew1). unfold tryCatch.
  destruct (m s) as [[a|e] s1]; simpl in Htr1.
  - exists new1. split; [done|lia].
  - destruct (Hh e s1) as (new2 & Htr2 & Hnew2). exists (new2 ++ new1)%list.
    rewrite Htr2, Htr1, app_assoc. split; [done|]. rewrite count_app. lia.
Qed.

Lemma atMost_settle {A} (n : nat) (m : SE S A) :
  emitsAtMost tr c n m -> emitsAtMost tr c n (settle m).
Proof.
  intros Hm s. destruct (Hm s) as (new & Htr & Hnew). unfold settle.
  destruct (m s) as [r s1]. by exists new.
Qed.

End AtMost.

Section AtMostCalls.
Context (c : Event -> bool).

Abbreviation onHistory := (fun h : History => h).

Lemma atMost_call {A} (n : nat) (ev : Event) (answer : History -> Result A) :
  (1 <= n)%nat -> emitsAtMost onHistory c n (call ev answer).
Proof.
  intros Hn h. exists [ev]. split; [done|]. simpl. destruct (c ev); simpl; lia.
Qed.

Lemma atMost_liftT {A} (n : nat) (m : T A) :
  emitsAtMost onHistory c n m -> emitsAtMost trace c n (liftT m).
Proof.
  intros Hm w. destruct (Hm (trace w)) as (new & Htr & Hnew). exists new.
  unfold liftT. destruct (m (trace w)) as [r h]. by split.
Qed.

(** One iteration, one request at most: the loop makes no more requests
    than there are repositories. *)
Lemma atMost_fanOut (body : string -> T (option (list obj))) (repoFullNames : list string)
      (all : list obj) :
  (forall fullName, emitsAtMost onHistory c 1 (body fullName)) ->
  emitsAtMost onHistory c (length repoFullNames) (fanOut body repoFullNames all).
Proof.
  intros Hbody. revert all.
  induction repoFullNames as [|fullName rest IH]; intros all; simpl; [apply atMost_ret|].
  apply (atMost_bind _ _ 1 (length rest)); [lia| |intros fetched; apply IH].
  apply (atMost_tryCatch _ _ 1 0); [lia|apply Hbody|intros e; apply atMost_ret].
Qed.

Lemma atMost_fetchCached (env : Env) (n : nat) (key : string) (upstream : T (list obj)) :
  c EvNow = false ->
  emitsAtMost onHistory c n upstream -> emitsAtMost trace c n (fetchCached env key upstream).
Proof.
  intros Hnow Hup. unfold fetchCached.
  apply (atMost_bind _ _ 0 n); [lia| |].
  - apply atMost_silent. unfold getCachedData, now.
    repeat first [ emits_step | apply emits_modify; done | done ].
  - intros [payload|]; [apply atMost_ret|].
    apply (atMost_bind _ _ n 0); [lia|by apply atMost_liftT|]. intros payload.
    apply atMost_silent. unfold setCachedData, now.
    repeat first [ emits_step | apply emits_modify; done | done ].
Qed.

End AtMostCalls.

Section Budgets.
Context (cfg : Config) (env : Env).

Abbreviation onHistory := (fun h : History => h).

(** *** The activity feed *)

Lemma getContributionRepos_feed_budget username :
  emitsAtMost onHistory isFeedCall 1 (getContributionRepos cfg env username).
Proof.
  unfold getContributionRepos.
  apply (atMost_bind _ _ 0 1); [lia|by apply atMost_silent, getOctokit_emits|]. intros _.
  apply (atMost_bind _ _ 1 0); [lia|by apply atMost_call|]. intros events. apply atMost_ret.
Qed.

Lemma commitsOfRepo_emits (P : Event -> Prop) username fullName :
  (forall id, P (EvInstallation id)) -> P EvNow ->
  (forall owner repo since, P (EvCommits owner repo username since)) ->
  emitsOnly onHistory P (commitsOfRepo cfg env username fullName).
Proof.
  intros HP1 HP2 HP3. unfold commitsOfRepo, getRecentCommits, now.
  repeat first [ by apply getOctokit_emits | emits_step ].
Qed.

Lemma prsOfRepo_emits (P : Event -> Prop) username fullName :
  (forall id, P (EvInstallation id)) -> (forall owner repo, P (EvPulls owner repo)) ->
  emitsOnly onHistory P (prsOfRepo cfg env username fullName).
Proof.
  intros HP1 HP2. unfold prsOfRepo, getActivePullRequests.
  repeat first [ by apply getOctokit_emits | emits_step ].
Qed.

Lemma searchRecentCommitsByUser_feed_budget username :
  emitsAtMost onHistory isFeedCall 1 (searchRecentCommitsByUser cfg env username).
Proof.
  unfold searchRecentCommitsByUser.
  apply (atMost_bind _ _ 1 0); [lia|apply getContributionRepos_feed_budget|].
  intros repos. apply atMost_silent, fanOut_emits. intros fullName.
  by apply commitsOfRepo_emits.
Qed.

Lemma searchActivePRsByUser_feed_budget username :
  emitsAtMost onHistory isFeedCall 1 (searchActivePRsByUser cfg env username).
Proof.
  unfold searchActivePRsByUser.
  apply (atMost_bind _ _ 1 0); [lia|apply getContributionRepos_feed_budget|].
  intros repos. apply atMost_silent, fanOut_emits. intros fullName.
  by apply prsOfRepo_emits.
Qed.

Lemma fetchByIntent_feed_budget intent user :
  emitsAtMost trace isFeedCall 2 (fetchByIntent cfg env intent user).
Proof.
  assert (forall id, emitsAtMost trace isFeedCall 0 (fetchJiraData cfg env id)) as Hjira.
  { intros id. apply atMost_silent, fetchJiraData_emits; [done|]. by intros []. }
  assert (forall id, emitsAtMost trace isFeedCall 1 (fetchCommitsData cfg env id)) as Hcommits.
  { intros id. apply atMost_fetchCached; [done|apply searchRecentCommitsByUser_feed_budget]. }
  assert (forall id, emitsAtMost trace isFeedCall 1 (fetchPRsData cfg env id)) as Hprs.
  { intros id. apply atMost_fetchCached; [done|apply searchActivePRsByUser_feed_budget]. }
  unfold fetchByIntent.
  destruct (String.eqb intent "JIRA");
    [apply (atMost_bind _ _ 0 0); [lia|apply Hjira|intros ?; apply atMost_ret]|].
  destruct (String.eqb intent "COMMITS");
    [apply (atMost_bind _ _ 1 0); [lia|apply Hcommits|intros ?; apply atMost_ret]|].
  destruct (String.eqb intent "PRS");
    [apply (atMost_bind _ _ 1 0); [lia|apply Hprs|intros ?; apply atMost_ret]|].
  apply (atMost_bind _ _ 0 2); [lia|apply atMost_settle, Hjira|]. intros r1.
  apply (atMost_bind _ _ 1 1); [lia|apply atMost_settle, Hprs|]. intros r2.
  apply (atMost_bind _ _ 1 0); [lia|apply atMost_settle, Hcommits|]. intros r3.
  apply atMost_silent. repeat emits_step.
Qed.

(** *** The issue tracker *)

Lemma searchActiveIssuesByUser_budget userQuery :
  emitsAtMost onHistory isJiraPathCall 1 (searchActiveIssuesByUser cfg env userQuery).
Proof.
  unfold searchActiveIssuesByUser.
  apply (atMost_bind _ _ 0 1); [lia| |].
  - apply atMost_silent. unfold getJiraAuthHeader. repeat emits_step.
  - intros auth. destruct (JIRA_HOST cfg) as [jiraHost|]; [|apply atMost_silent; emits_step].
    destruct (negb (truthyStr jiraHost)); [apply atMost_silent; emits_step|].
    apply (atMost_tryCatch _ _ 1 0); [lia| |intros e; apply atMost_silent; emits_step].
    apply (atMost_bind _ _ 1 0); [lia|by apply atMost_call|]. intros response.
    apply atMost_silent. destruct (negb (resp_ok response)); [emits_step|].
    emits_step; [|emits_step]. intros h. by exists [].
Qed.

Lemma fetchByIntent_tracker_budget intent user :
  emitsAtMost trace isJiraPathCall 1 (fetchByIntent cfg env intent user).
Proof.
  assert (forall id, emitsAtMost trace isJiraPathCall 1 (fetchJiraData cfg env id)) as Hjira.
  { intros id. apply atMost_fetchCached; [done|apply searchActiveIssuesByUser_budget]. }
  assert (forall id, emitsAtMost trace isJiraPathCall 0 (fetchCommitsData cfg env id))
    as Hcommits.
  { intros id. apply atMost_silent, fetchCommitsData_emits. by intros []. }
  assert (forall id, emitsAtMost trace isJiraPathCall 0 (fetchPRsData cfg env id)) as Hprs.
  { intros id. apply atMost_silent, fetchPRsData_emits; [done|]. by intros []. }
  unfold fetchByIntent.
  destruct (String.eqb intent "JIRA");
    [apply (atMost_bind _ _ 1 0); [lia|apply Hjira|intros ?; apply atMost_ret]|].
  destruct (String.eqb intent "COMMITS");
    [apply (atMost_bind _ _ 0 0); [lia|apply Hcommits|intros ?; apply atMost_ret]|].
  destruct (String.eqb intent "PRS");
    [apply (atMost_bind _ _ 0 0); [lia|apply Hprs|intros ?; apply atMost_ret]|].
  apply (atMost_bind _ _ 1 0); [lia|apply atMost_settle, Hjira|]. intros r1.
  apply (atMost_bind _ _ 0 0); [lia|apply atMost_settle, Hprs|]. intros r2.
  apply (atMost_bind _ _ 0 0); [lia|apply atMost_settle, Hcommits|]. intros r3.
  apply atMost_silent. repeat emits_step.
Qed.

(** *** The whole query *)

Lemma classifyIntent_budget (c : Event -> bool) (n : nat) question :
  (1 <= n)%nat -> emitsAtMost trace c n (classifyIntent env question).
Proof.
  intros Hn w. rewrite classifyIntent_run. exists [EvGenerate (intentPrompt question)].
  split; [done|]. simpl. destruct (c _); simpl; lia.
Qed.

Lemma summarize_budget (c : Event -> bool) (n : nat) question user fetched :
  c EvNow = false -> (1 <= n)%nat ->
  emitsAtMost trace c n (summarize env question user fetched).
Proof.
  intros Hnow Hn. destruct fetched as [[jiraIssues githubPRs] githubCommits].
  unfold summarize. destruct (_ && _); [apply atMost_ret|].
  apply (atMost_bind _ _ 0 1); [lia| |].
  - apply atMost_silent, clockOnly_emits; [done|apply assemble_clockOnly].
  - intros [[issues' prs'] commits'].
    apply (atMost_bind _ _ 1 0); [lia| |intros ?; apply atMost_ret].
    unfold generate. by apply atMost_liftT, atMost_call.
Qed.

Lemma handleAIQuery_model_budget question :
  emitsAtMost trace isSummarizerCall 2 (handleAIQuery cfg env question).
Proof.
  unfold handleAIQuery.
  destruct (findUserInQuery env question) as [user|]; [|apply atMost_ret].
  apply (atMost_tryCatch _ _ 2 0); [lia| |intros e; apply atMost_ret]. unfold tryBlock.
  apply (atMost_bind _ _ 1 1); [lia|by apply classifyIntent_budget|]. intros intent.
  apply (atMost_bind _ _ 0 1); [lia|apply atMost_silent, fetchByIntent_emits|].
  intros fetched. by apply summarize_budget.
Qed.

Lemma handleAIQuery_upstream_budget (c : Event -> bool) (n : nat) question :
  c EvNow = false ->
  (forall prompt, c (EvGenerate prompt) = false) ->
  (forall intent user, emitsAtMost trace c n (fetchByIntent cfg env intent user)) ->
  emitsAtMost trace c n (handleAIQuery cfg env question).
Proof.
  intros Hnow Hmodel Hfetch. unfold handleAIQuery.
  destruct (findUserInQuery env question) as [user|]; [|apply atMost_ret].
  apply (atMost_tryCatch _ _ n 0); [lia| |intros e; apply atMost_ret]. unfold tryBlock.
  apply (atMost_bind _ _ 0 n); [lia| |].
  - apply atMost_silent. intros w. rewrite classifyIntent_run.
    exists [EvGenerate (intentPrompt question)]. split; [done|]. by constructor.
  - intros intent. apply (atMost_bind _ _ n 0); [lia|apply Hfetch|]. intros fetched.
    apply atMost_silent. destruct fetched as [[jiraIssues githubPRs] githubCommits].
    unfold summarize. destruct (_ && _); [apply emits_ret|].
    apply emits_bind; [by apply clockOnly_emits, assemble_clockOnly|].
    intros [[issues' prs'] commits']. unfold generate.
    apply emits_bind; [|intros ?; apply emits_ret].
    by apply emits_liftT, emits_call.
Qed.

End Budgets.

(** X10: what one query costs: whatever the question and the state of the
    cache, [handleAIQuery] calls the model at most twice, asks the issue
    tracker at most once and reads the activity feed at most twice (once
    for the pull requests, once for the commits). *)
Theorem handleAIQuery_request_budget (cfg : Config) (env : Env) (question : string)
        (w : World) :
  exists new,
    trace (snd (handleAIQuery cfg env question w)) = (new ++ trace w)%list
    /\ (length (List.filter isSummarizerCall new) <= 2)%nat
    /\ (length (List.filter isJiraPathCall new) <= 1)%nat
    /\ (length (List.filter isFeedCall new) <= 2)%nat.
Proof.
  destruct (handleAIQuery_model_budget cfg env question w) as (new & Htrace & Hmodel).
  destruct (handleAIQuery_upstream_budget cfg env isJiraPathCall 1 question eq_refl
              (fun _ => eq_refl) (fetchByIntent_tracker_budget cfg env) w)
    as (new1 & Htrace1 & Htracker).
  destruct (handleAIQuery_upstream_budget cfg env isFeedCall 2 question eq_refl
              (fun _ => eq_refl) (fetchByIntent_feed_budget cfg env) w)
    as (new2 & Htrace2 & Hfeed).
  rewrite Htrace in Htrace1, Htrace2.
  apply app_inv_tail in Htrace1 as <-. apply app_inv_tail in Htrace2 as <-.
  exists new. simpl in *. done.
Qed.

(** ** One request per repository *)

Section AsksAmong.
Context {S : Type} (tr : S -> History) (target : Event -> option (string * string)).

Lemma asks_silent {A} (wanted : list (string * string)) (m : SE S A) :
  emitsOnly tr (fun ev => target ev = None) m -> asksAmong tr target wanted m.
Proof.
  intros Hm s. destruct (Hm s) as (new & Htr & Hnew). exists new. split; [done|].
  assert (omap target (reverse new) = []) as ->; [|apply sublist_nil_l].
  clear Htr. induction Hnew as [|ev new Hev _ IH]; [done|].
  by rewrite reverse_cons, omap_app, IH; simpl; rewrite Hev.
Qed.

Lemma asks_ret {A} (wanted : list (string * string)) (a : A) :
  asksAmong tr target wanted (ret a).
Proof. intros s. exists []. split; [done|]. apply sublist_nil_l. Qed.

Lemma asks_bind {A B} (wanted1 wanted2 : list (string * string)) (m : SE S A)
      (k : A -> SE S B) :
  asksAmong tr target wanted1 m -> (forall a, asksAmong tr target wanted2 (k a)) ->
  asksAmong tr target (wanted1 ++ wanted2) (bind m k).
Proof.
  intros Hm Hk s. destruct (Hm s) as (new1 & Htr1 & Hnew1). unfold bind.
  destruct (m s) as [[a|e] s1]; simpl in Htr1.
  - destruct (Hk a s1) as (new2 & Htr2 & Hnew2). exists (new2 ++ new1)%list.
    rewrite Htr2, Htr1, app_assoc. split; [done|].
    rewrite reverse_app, omap_app. by apply sublist_app.
  - exists new1. split; [done|]. by apply sublist_inserts_r.
Qed.

Lemma asks_tryCatch {A} (wanted : list (string * string)) (m : SE S A)
      (handler : JsError -> SE S A) :
  asksAmong tr target wanted m -> (forall e, asksAmong tr target [] (handler e)) ->
  asksAmong tr target wanted (tryCatch m handler).
Proof.
  intros Hm Hh s. destruct (Hm s) as (new1 & Htr1 & Hnew1). unfold tryCatch.
  destruct (m s) as [[a|e] s1]; simpl in Htr1; [by exists new1|].
  destruct (Hh e s1) as (new2 & Htr2 & Hnew2). exists (new2 ++ new1)%list.
  rewrite Htr2, Htr1, app_assoc. split; [done|].
  rewrite reverse_app, omap_app. rewrite <- (app_nil_r wanted). by apply sublist_app.
Qed.

End AsksAmong.

Section FanOutRequests.
Context (cfg : Config) (env : Env).

Abbreviation onHistory := (fun h : History => h).

Lemma asks_call {A} (target : Event -> option (string * string)) (ev : Event)
      (answer : History -> Result A) :
  asksAmong onHistory target (option_list (target ev)) (call ev answer).
Proof.
  intros h. exists [ev]. split; [done|]. simpl. by destruct (target ev).
Qed.

Lemma omap_repoTarget_cons (fullName : string) (rest : list string) :
  omap repoTarget (fullName :: rest)
  = (option_list (repoTarget fullName) ++ omap repoTarget rest)%list.
Proof. simpl. by destruct (repoTarget fullName). Qed.

(** One iteration asks for its own repository, once at most: the loop asks
    for the repositories in their order. *)
Lemma asks_fanOut (target : Event -> option (string * string))
      (body : string -> T (option (list obj))) (repoFullNames : list string)
      (all : list obj) :
  (forall fullName,
      asksAmong onHistory target (option_list (repoTarget fullName)) (body fullName)) ->
  asksAmong onHistory target (omap repoTarget repoFullNames) (fanOut body repoFullNames all).
Proof.
  intros Hbody. revert all.
  induction repoFullNames as [|fullName rest IH]; intros all; [apply asks_ret|].
  rewrite omap_repoTarget_cons. simpl.
  apply asks_bind; [|intros fetched; apply IH].
  apply asks_tryCatch; [apply Hbody|intros e; apply asks_ret].
Qed.

Lemma commitsOfRepo_asks username fullName :
  asksAmong onHistory commitsTarget (option_list (repoTarget fullName))
            (commitsOfRepo cfg env username fullName).
Proof.
  unfold commitsOfRepo, repoTarget.
  destruct (splitSlash fullName) as [|owner [|repo rest]]; [apply asks_ret..|].
  destruct (_ || _); [apply asks_ret|]. simpl.
  rewrite <- (app_nil_r [(owner, repo)]).
  apply asks_bind; [|intros ?; apply asks_ret].
  unfold getRecentCommits.
  apply (asks_bind _ _ [] [(owner, repo)]);
    [by apply asks_silent, getOctokit_emits|]. intros _.
  apply (asks_bind _ _ [] [(owner, repo)]);
    [apply asks_silent; unfold now; emits_step|].
  intros today.
  apply (asks_call commitsTarget
           (EvCommits owner repo username (sevenDaysBefore env today))).
Qed.

Lemma prsOfRepo_asks username fullName :
  asksAmong onHistory pullsTarget (option_list (repoTarget fullName))
            (prsOfRepo cfg env username fullName).
Proof.
  unfold prsOfRepo, repoTarget.
  destruct (splitSlash fullName) as [|owner [|repo rest]]; [apply asks_ret..|].
  destruct (_ || _); [apply asks_ret|]. simpl.
  rewrite <- (app_nil_r [(owner, repo)]).
  apply asks_bind; [|intros ?; apply asks_ret].
  unfold getActivePullRequests.
  apply (asks_bind _ _ [] [(owner, repo)]);
    [by apply asks_silent, getOctokit_emits|]. intros _.
  rewrite <- (app_nil_r [(owner, repo)]).
  apply asks_bind; [|intros ?; apply asks_ret].
  apply (asks_call pullsTarget (EvPulls owner repo)).
Qed.

End FanOutRequests.

(** X11: once the repositories are discovered, a search asks the host at
    most once per repository of the list, in the order of the list: the
    commits requests of the commits search, in the order in which they were
    made, are for a sub-sequence of the listed repositories (a name stands
    for the repository of its first two parts, and for none when one of
    them is empty), each with the user as author; besides them the search
    only reads the clock and obtains the client.  The same holds of the
    pulls requests of the pull request search, which besides them only
    obtains the client.  The activity feed is not read again. *)
Theorem fan_out_request_budget (cfg : Config) (env : Env) (username : string)
        (h h1 : History) (repos : list string) :
  getContributionRepos cfg env username h = (Ok repos, h1) ->
  (exists new,
      snd (searchRecentCommitsByUser cfg env username h) = (new ++ h1)%list
      /\ omap commitsTarget (reverse new) `sublist_of` omap repoTarget repos
      /\ Forall (fun ev => match ev with
                           | EvCommits _ _ author _ => author = username
                           | EvNow | EvInstallation _ => True
                           | _ => False
                           end) new)
  /\ (exists new,
         snd (searchActivePRsByUser cfg env username h) = (new ++ h1)%list
         /\ omap pullsTarget (reverse new) `sublist_of` omap repoTarget repos
         /\ Forall (fun ev => match ev with
                              | EvPulls _ _ | EvInstallation _ => True
                              | _ => False
                              end) new).
Proof.
  intros Hrepos. split.
  - unfold searchRecentCommitsByUser. rewrite (bind_ok _ _ _ _ _ Hrepos).
    destruct (asks_fanOut commitsTarget (commitsOfRepo cfg env username) repos []
                (commitsOfRepo_asks cfg env username) h1) as (new & Htrace & Hasked).
    destruct (fanOut_emits
                (fun ev => match ev with
                           | EvCommits _ _ author _ => author = username
                           | EvNow | EvInstallation _ => True
                           | _ => False
                           end)
                (commitsOfRepo cfg env username) repos []
                (fun fullName => commitsOfRepo_emits cfg env _ username fullName
                                   (fun _ => I) I (fun _ _ _ => eq_refl)) h1)
      as (new' & Htrace' & Honly).
    rewrite Htrace in Htrace'. apply app_inv_tail in Htrace' as <-. by exists new.
  - unfold searchActivePRsByUser. rewrite (bind_ok _ _ _ _ _ Hrepos).
    destruct (asks_fanOut pullsTarget (prsOfRepo cfg env username) repos []
                (prsOfRepo_asks cfg env username) h1) as (new & Htrace & Hasked).
    destruct (fanOut_emits
                (fun ev => match ev with
                           | EvPulls _ _ | EvInstallation _ => True
                           | _ => False
                           end)
                (prsOfRepo cfg env username) repos []
                (fun fullName => prsOfRepo_emits cfg env _ username fullName
                                   (fun _ => I) (fun _ _ => I)) h1)
      as (new' & Htrace' & Honly).
    rewrite Htrace in Htrace'. apply app_inv_tail in Htrace' as <-. by exists new.
Qed.

Lemma fan_out_request_budget_witness :
  exists new,
    snd (searchRecentCommitsByUser Samples.cfg (Samples.busyEnv "COMMITS") "mikeross88" [])
    = (new ++ [EvEvents "mikeross88"])%list
    /\ omap commitsTarget (reverse new)
       `sublist_of` [("acme", "api"); ("acme", "gone"); ("acme", "web")]
    /\ Forall (fun ev => match ev with
                         | EvCommits _ _ author _ => author = "mikeross88"
                         | EvNow | EvInstallation _ => True
                         | _ => False
                         end) new.
Proof.
  exact (proj1 (fan_out_request_budget Samples.cfg (Samples.busyEnv "COMMITS") "mikeross88" []
                  [EvEvents "mikeross88"] ["acme/api"; "acme/gone"; "acme/web"]
                  ltac:(vm_compute; reflexivity))).
Defined.

(** ** The issue tracker's client ([jira-client.js]) *)

Section JiraSearches.
Context (cfg : Config) (env : Env).

Lemma searchActiveIssuesByUser_shared (userQuery : string) :
  searchActiveIssuesByUser cfg env userQuery = searchIssuesWith cfg env (activeJql userQuery).
Proof. reflexivity. Qed.

Lemma searchAllIssuesByUser_shared (userQuery : string) :
  searchAllIssuesByUser cfg env userQuery = searchIssuesWith cfg env (allJql userQuery).
Proof. reflexivity. Qed.

Lemma getJiraAuthHeader_run (h : History) :
  getJiraAuthHeader cfg h
  = match JIRA_USER_EMAIL cfg, JIRA_API_TOKEN cfg with
    | Some email, Some token =>
        if truthyStr email && truthyStr token then (Ok (email, token), h)
        else (Throw (mkError "JIRA_USER_EMAIL or JIRA_API_TOKEN is not set in .env"), h)
    | _, _ => (Throw (mkError "JIRA_USER_EMAIL or JIRA_API_TOKEN is not set in .env"), h)
    end.
Proof.
  unfold getJiraAuthHeader.
  destruct (JIRA_USER_EMAIL cfg) as [email|], (JIRA_API_TOKEN cfg) as [token|]; try done.
  by destruct (truthyStr email), (truthyStr token).
Qed.

(** Without credentials or without a host nothing is sent. *)
Lemma searchIssuesWith_unconfigured (jql : string) (h : History) :
  truthyOpt (JIRA_USER_EMAIL cfg) && truthyOpt (JIRA_API_TOKEN cfg) && truthyOpt (JIRA_HOST cfg)
  = false ->
  searchIssuesWith cfg env jql h
  = (Throw (mkError (if truthyOpt (JIRA_USER_EMAIL cfg) && truthyOpt (JIRA_API_TOKEN cfg)
                     then "JIRA_HOST is not set in .env"
                     else "JIRA_USER_EMAIL or JIRA_API_TOKEN is not set in .env")), h).
Proof.
  unfold searchIssuesWith, bind at 1. rewrite getJiraAuthHeader_run.
  destruct (JIRA_USER_EMAIL cfg) as [email|], (JIRA_API_TOKEN cfg) as [token|];
    simpl; try done; [|by destruct (truthyStr email)].
  destruct (truthyStr email), (truthyStr token); simpl; try done.
  destruct (JIRA_HOST cfg) as [host|]; simpl; [|done]. by intros ->.
Qed.

(** With them, one request is sent, and its answer decides. *)
Lemma searchIssuesWith_configured (jql email token host : string) (h : History) :
  JIRA_USER_EMAIL cfg = Some email -> JIRA_API_TOKEN cfg = Some token ->
  JIRA_HOST cfg = Some host ->
  truthyStr email = true -> truthyStr token = true -> truthyStr host = true ->
  searchIssuesWith cfg env jql h
  = (match jiraSearch env h (host ++ "/rest/api/3/search/jql") email token jql with
     | Ok response =>
         if resp_ok response then
           match resp_issues response with
           | Ok issues => Ok (map (simplifyIssue host) issues)
           | Throw e => Throw e
           end
         else Throw (mkError (rejectionMessage (resp_status response) (resp_text response)))
     | Throw e => Throw e
     end,
     EvJiraSearch (host ++ "/rest/api/3/search/jql") email token jql :: h).
Proof.
  intros Hemail Htoken Hhost Hemail' Htoken' Hhost'.
  unfold searchIssuesWith, bind at 1. rewrite getJiraAuthHeader_run.
  rewrite Hemail, Htoken, Hhost, Hemail', Htoken', Hhost'. simpl.
  unfold tryCatch, bind, call, throw, ret. simpl.
  destruct (jiraSearch env h _ email token jql) as [response|e]; [|done].
  destruct (resp_ok response); simpl; [|done].
  by destruct (resp_issues response).
Qed.

Lemma truthyOpt_some (o : option string) :
  truthyOpt o = true -> exists s, o = Some s /\ truthyStr s = true.
Proof. destruct o as [s|]; [|done]. intros Hs. by exists s. Qed.

End JiraSearches.

(** X12: the two issue searches send a request exactly when the
    credentials and the host are configured: then one request is sent, to
    the search endpoint of the host, with the credentials and a JQL text
    that names the user in quotes, and the two searches differ in the
    status filter of that text alone; otherwise they throw without sending
    anything, the missing credentials being reported before the missing
    host. *)
Theorem jira_request_iff_configured (cfg : Config) (env : Env) (userQuery : string)
        (h : History) :
  if truthyOpt (JIRA_USER_EMAIL cfg) && truthyOpt (JIRA_API_TOKEN cfg) then
    if truthyOpt (JIRA_HOST cfg) then
      exists host email token,
        JIRA_HOST cfg = Some host /\ JIRA_USER_EMAIL cfg = Some email
        /\ JIRA_API_TOKEN cfg = Some token
        /\ snd (searchActiveIssuesByUser cfg env userQuery h)
           = EvJiraSearch (host ++ "/rest/api/3/search/jql") email token
               ("assignee = " ++ dq ++ userQuery ++ dq ++ " AND statusCategory != "
                ++ dq ++ "Done" ++ dq ++ " ORDER BY updated DESC") :: h
        /\ snd (searchAllIssuesByUser cfg env userQuery h)
           = EvJiraSearch (host ++ "/rest/api/3/search/jql") email token
               ("assignee = " ++ dq ++ userQuery ++ dq ++ " ORDER BY updated DESC") :: h
    else
      searchActiveIssuesByUser cfg env userQuery h
      = (Throw (mkError "JIRA_HOST is not set in .env"), h)
      /\ searchAllIssuesByUser cfg env userQuery h
         = (Throw (mkError "JIRA_HOST is not set in .env"), h)
  else
    searchActiveIssuesByUser cfg env userQuery h
    = (Throw (mkError "JIRA_USER_EMAIL or JIRA_API_TOKEN is not set in .env"), h)
    /\ searchAllIssuesByUser cfg env userQuery h
       = (Throw (mkError "JIRA_USER_EMAIL or JIRA_API_TOKEN is not set in .env"), h).
Proof.
  rewrite searchActiveIssuesByUser_shared, searchAllIssuesByUser_shared.
  destruct (truthyOpt (JIRA_USER_EMAIL cfg) && truthyOpt (JIRA_API_TOKEN cfg)) eqn:Hcreds.
  - destruct (truthyOpt (JIRA_HOST cfg)) eqn:Hhost.
    + apply andb_true_iff in Hcreds as [Hemail Htoken].
      apply truthyOpt_some in Hemail as (email & Hemail & Hemail').
      apply truthyOpt_some in Htoken as (token & Htoken & Htoken').
      apply truthyOpt_some in Hhost as (host & Hhost & Hhost').
      exists host, email, token. split; [done|]. split; [done|]. split; [done|].
      by rewrite !(searchIssuesWith_configured cfg env _ email token host).
    + pose proof (searchIssuesWith_unconfigured cfg env) as Hnone.
      rewrite Hcreds, Hhost in Hnone. split; by apply Hnone.
  - pose proof (searchIssuesWith_unconfigured cfg env) as Hnone.
    rewrite Hcreds in Hnone. split; by apply Hnone.
Qed.

Section JiraRecords.
Context (cfg : Config) (env : Env).

(** An issue of the answer and the record made of it. *)
Lemma simplifyIssue_fields (host : string) (issue : RawIssue) :
  let record := simplifyIssue host issue in
  map fst record = issueFields
  /\ getField "key" record = JStr (raw_key issue)
  /\ getField "summary" record = JStr (raw_summary issue)
  /\ getField "status" record = JStr (raw_status issue)
  /\ getField "issueType" record = JStr (raw_issuetype issue)
  /\ getField "lastUpdated" record = JStr (raw_updated issue)
  /\ getField "link" record = JStr (host ++ "/browse/" ++ raw_key issue)
  /\ getField "priority" record
     = JStr (match raw_priority issue with
             | Some name => if truthyStr name then name else "Not set"
             | None => "Not set"
             end)
  /\ getField "priority" record <> JStr "".
Proof.
  repeat (split; [reflexivity|]). unfold getField. simpl.
  destruct (raw_priority issue) as [[|c name]|]; done.
Qed.

Lemma searchIssuesWith_records (jql : string) (h h' : History) (records : list obj) :
  searchIssuesWith cfg env jql h = (Ok records, h') ->
  exists host email token response issues,
    JIRA_HOST cfg = Some host /\ JIRA_USER_EMAIL cfg = Some email
    /\ JIRA_API_TOKEN cfg = Some token
    /\ jiraSearch env h (host ++ "/rest/api/3/search/jql") email token jql = Ok response
    /\ h' = EvJiraSearch (host ++ "/rest/api/3/search/jql") email token jql :: h
    /\ resp_ok response = true
    /\ resp_issues response = Ok issues
    /\ records = map (simplifyIssue host) issues.
Proof.
  intros Hrun.
  destruct (truthyOpt (JIRA_USER_EMAIL cfg) && truthyOpt (JIRA_API_TOKEN cfg)
            && truthyOpt (JIRA_HOST cfg)) eqn:Hconf;
    [|by rewrite searchIssuesWith_unconfigured in Hrun].
  apply andb_true_iff in Hconf as [[Hemail Htoken]%andb_true_iff Hhost].
  apply truthyOpt_some in Hemail as (email & Hemail & Hemail').
  apply truthyOpt_some in Htoken as (token & Htoken & Htoken').
  apply truthyOpt_some in Hhost as (host & Hhost & Hhost').
  rewrite (searchIssuesWith_configured cfg env _ email token host) in Hrun by done.
  destruct (jiraSearch env h _ email token jql) as [response|e] eqn:Hanswer; [|done].
  destruct (resp_ok response) eqn:Hok; [|done].
  destruct (resp_issues response) as [issues|e] eqn:Hissues; [|done].
  injection Hrun as <- <-. by exists host, email, token, response, issues.
Qed.

End JiraRecords.

(** X13: when an issue search returns, the tracker answered its one
    request (sent to the search endpoint of the host with the credentials
    and the JQL text of the search) with a response that was [ok], and the
    result has one record per issue of that response, in the response's
    order; each record has the seven properties [key], [summary],
    [status], [issueType], [priority], [lastUpdated] and [link], in this
    order, with the issue's key, summary, status name, type name and date,
    a link to [host/browse/key], and a priority that is never empty: the
    issue's priority name, or "Not set" when the issue has none or an
    empty one. *)
Theorem jira_search_records (cfg : Config) (env : Env) (userQuery : string)
        (h h' : History) (records : list obj) :
  searchActiveIssuesByUser cfg env userQuery h = (Ok records, h')
  \/ searchAllIssuesByUser cfg env userQuery h = (Ok records, h') ->
  exists host email token jql response issues,
    JIRA_HOST cfg = Some host /\ JIRA_USER_EMAIL cfg = Some email
    /\ JIRA_API_TOKEN cfg = Some token
    /\ (searchActiveIssuesByUser cfg env userQuery h = (Ok records, h') /\ jql = activeJql userQuery
        \/ searchAllIssuesByUser cfg env userQuery h = (Ok records, h') /\ jql = allJql userQuery)
    /\ jiraSearch env h (host ++ "/rest/api/3/search/jql") email token jql = Ok response
    /\ h' = EvJiraSearch (host ++ "/rest/api/3/search/jql") email token jql :: h
    /\ resp_ok response = true
    /\ resp_issues response = Ok issues
    /\ Forall2 (fun issue record =>
                  map fst record = issueFields
                  /\ getField "key" record = JStr (raw_key issue)
                  /\ getField "summary" record = JStr (raw_summary issue)
                  /\ getField "status" record = JStr (raw_status issue)
                  /\ getField "issueType" record = JStr (raw_issuetype issue)
                  /\ getField "lastUpdated" record = JStr (raw_updated issue)
                  /\ getField "link" record = JStr (host ++ "/browse/" ++ raw_key issue)
                  /\ getField "priority" record
                     = JStr (match raw_priority issue with
                             | Some name => if truthyStr name then name else "Not set"
                             | None => "Not set"
                             end)
                  /\ getField "priority" record <> JStr "")
               issues records.
Proof.
  intros Hrun.
  assert (exists jql,
             searchIssuesWith cfg env jql h = (Ok records, h')
             /\ (searchActiveIssuesByUser cfg env userQuery h = (Ok records, h')
                 /\ jql = activeJql userQuery
                 \/ searchAllIssuesByUser cfg env userQuery h = (Ok records, h')
                    /\ jql = allJql userQuery)) as (jql & Hjql & Hwhich).
  { destruct Hrun as [Hrun|Hrun].
    - exists (activeJql userQuery). split; [|by left].
      by rewrite <- searchActiveIssuesByUser_shared.
    - exists (allJql userQuery). split; [|by right].
      by rewrite <- searchAllIssuesByUser_shared. }
  destruct (searchIssuesWith_records cfg env jql h h' records Hjql)
    as (host & email & token & response & issues & Hhost & Hemail & Htoken & Hanswer
        & Htrace & Hok & Hissues & ->).
  exists host, email, token, jql, response, issues.
  repeat (split; [done|]).
  apply Forall2_fmap_r, Forall_Forall2_diag, Forall_forall. intros issue _.
  apply simplifyIssue_fields.
Qed.

Lemma jira_search_records_witness :
  fst (searchActiveIssuesByUser Samples.cfg (Samples.busyEnv "JIRA") "Mike Ross" [])
  = Ok [simplifyIssue "https://team.atlassian.net" Samples.issueTS102]
  /\ exists host email token jql response issues,
      JIRA_HOST Samples.cfg = Some host /\ JIRA_USER_EMAIL Samples.cfg = Some email
      /\ JIRA_API_TOKEN Samples.cfg = Some token
      /\ (searchActiveIssuesByUser Samples.cfg (Samples.busyEnv "JIRA") "Mike Ross" []
          = (Ok [simplifyIssue "https://team.atlassian.net" Samples.issueTS102],
             snd (searchActiveIssuesByUser Samples.cfg (Samples.busyEnv "JIRA") "Mike Ross" []))
          /\ jql = activeJql "Mike Ross"
          \/ searchAllIssuesByUser Samples.cfg (Samples.busyEnv "JIRA") "Mike Ross" []
             = (Ok [simplifyIssue "https://team.atlassian.net" Samples.issueTS102],
                snd (searchActiveIssuesByUser Samples.cfg (Samples.busyEnv "JIRA")
                       "Mike Ross" []))
             /\ jql = allJql "Mike Ross")
      /\ jiraSearch (Samples.busyEnv "JIRA") [] (host ++ "/rest/api/3/search/jql") email token
                    jql = Ok response
      /\ snd (searchActiveIssuesByUser Samples.cfg (Samples.busyEnv "JIRA") "Mike Ross" [])
         = EvJiraSearch (host ++ "/rest/api/3/search/jql") email token jql :: []
      /\ resp_ok response = true
      /\ resp_issues response = Ok issues
      /\ Forall2 (fun issue record =>
                    map fst record = issueFields
                    /\ getField "key" record = JStr (raw_key issue)
                    /\ getField "summary" record = JStr (raw_summary issue)
                    /\ getField "status" record = JStr (raw_status issue)
                    /\ getField "issueType" record = JStr (raw_issuetype issue)
                    /\ getField "lastUpdated" record = JStr (raw_updated issue)
                    /\ getField "link" record = JStr (host ++ "/browse/" ++ raw_key issue)
                    /\ getField "priority" record
                       = JStr (match raw_priority issue with
                               | Some name => if truthyStr name then name else "Not set"
                               | None => "Not set"
                               end)
                    /\ getField "priority" record <> JStr "")
                 issues [simplifyIssue "https://team.atlassian.net" Samples.issueTS102].
Proof.
  split; [vm_compute; reflexivity|].
  apply (jira_search_records Samples.cfg (Samples.busyEnv "JIRA") "Mike Ross" []
           (snd (searchActiveIssuesByUser Samples.cfg (Samples.busyEnv "JIRA") "Mike Ross" []))).
  left. vm_compute. reflexivity.
Defined.

(** ** A rejection by the issue tracker, seen from the orchestrator *)

Section Separators.

(** A needle without the character [c] does not reach across a [c]. *)
Lemma startsWith_sep (needle a b : string) (c : ascii) :
  ~ In c (list_ascii_of_string needle) ->
  startsWith needle (a ++ String c b) = startsWith needle a.
Proof.
  revert a. induction needle as [|x needle IH]; intros a Hc; [by destruct a|].
  simpl in Hc. destruct a as [|y a].
  - rewrite append_nil_l. simpl. destruct (Ascii.eqb x c) eqn:Hxc; [|done].
    apply Ascii.eqb_eq in Hxc. tauto.
  - rewrite append_cons. simpl. destruct (Ascii.eqb x y); [|done]. apply IH. tauto.
Qed.

Lemma includes_sep (needle a b : string) (c : ascii) :
  needle <> "" -> ~ In c (list_ascii_of_string needle) ->
  includes needle (a ++ String c b) = includes needle a || includes needle b.
Proof.
  intros Hne Hc. induction a as [|y a IH].
  - rewrite append_nil_l. rewrite (includes_unfold needle (String c b)).
    rewrite <- (append_nil_l (String c b)), startsWith_sep by done.
    destruct needle; [done|]. reflexivity.
  - rewrite append_cons, (includes_unfold needle (String y (a ++ String c b))),
      (includes_unfold needle (String y a)).
    rewrite <- append_cons, startsWith_sep by done.
    destruct (startsWith needle (String y a)); [done|]. apply IH.
Qed.

(** Where a needle made of digits can sit in the text of a rejection: in
    the status or in the body. *)
Lemma rejection_includes (needle : string) (status : Z) (body : string) :
  needle <> "" ->
  ~ In " "%char (list_ascii_of_string needle) ->
  ~ In ":"%char (list_ascii_of_string needle) ->
  includes needle "JIRA API request failed with status" = false ->
  includes needle (rejectionMessage status body)
  = includes needle (showZ status) || includes needle body.
Proof.
  intros Hne Hspace Hcolon Hhead.
  change (rejectionMessage status body)
    with ("JIRA API request failed with status"
          ++ String " " (showZ status ++ String ":" ("" ++ String " " body))).
  rewrite !includes_sep, Hhead by done. simpl.
  destruct needle; [done|]. reflexivity.
Qed.

End Separators.

(** X14: when the issue tracker answers a query about issues with a
    response that is not [ok], [handleAIQuery] answers with the message its
    [catch] block picks for the text "JIRA API request failed with status
    N: body", and stores nothing; the message is the one about missing
    repositories when the status is 404 or the body contains "404", and the
    one about the credentials when the status is 401 or 403 and the body
    does not contain "404". *)
Theorem tracker_rejection_answer (cfg : Config) (env : Env) (question : string)
        (user : Identity) (w : World) (host email token : string) (response : JiraResponse) :
  findUserInQuery env question = Some user ->
  fst (classifyIntent env question w) = Ok "JIRA" ->
  dataCache w !! ("jira_" ++ jiraId user) = None ->
  JIRA_USER_EMAIL cfg = Some email -> JIRA_API_TOKEN cfg = Some token ->
  JIRA_HOST cfg = Some host ->
  truthyStr email && truthyStr token && truthyStr host = true ->
  jiraSearch env (EvGenerate (intentPrompt question) :: trace w)
             (host ++ "/rest/api/3/search/jql") email token (activeJql (jiraId user))
  = Ok response ->
  resp_ok response = false ->
  let answer :=
    errorAnswer (mkError (rejectionMessage (resp_status response) (resp_text response))) in
  handleAIQuery cfg env question w
  = (Ok (Some answer),
     mkWorld (dataCache w)
             (EvJiraSearch (host ++ "/rest/api/3/search/jql") email token
                           (activeJql (jiraId user))
              :: EvGenerate (intentPrompt question) :: trace w))
  /\ (resp_status response = 404 \/ includes "404" (resp_text response) = true ->
      answer = notFoundMessage)
  /\ (resp_status response = 401 \/ resp_status response = 403 ->
      includes "404" (resp_text response) = false ->
      answer = authMessage).
Proof.
  intros Huser Hintent Hmiss Hemail Htoken Hhost Hset Hanswer Hok answer.
  apply andb_true_iff in Hset as [[Hemail' Htoken']%andb_true_iff Hhost'].
  split; [|split].
  - assert (classifyIntent env question w
            = (Ok "JIRA", mkWorld (dataCache w) (EvGenerate (intentPrompt question) :: trace w)))
      as Hclass.
    { rewrite classifyIntent_run in *. simpl in Hintent. by injection Hintent as ->. }
    assert (fetchJiraData cfg env (jiraId user)
              (mkWorld (dataCache w) (EvGenerate (intentPrompt question) :: trace w))
            = (Throw (mkError (rejectionMessage (resp_status response) (resp_text response))),
               mkWorld (dataCache w)
                       (EvJiraSearch (host ++ "/rest/api/3/search/jql") email token
                                     (activeJql (jiraId user))
                        :: EvGenerate (intentPrompt question) :: trace w))) as Hjira.
    { unfold fetchJiraData. rewrite fetchCached_run. simpl. rewrite Hmiss.
      rewrite searchActiveIssuesByUser_shared,
        (searchIssuesWith_configured cfg env _ email token host) by done.
      by rewrite Hanswer, Hok. }
    unfold handleAIQuery. rewrite Huser. unfold tryCatch, tryBlock.
    rewrite (bind_ok _ _ _ _ _ Hclass). unfold fetchByIntent. simpl.
    unfold bind. by rewrite Hjira.
  - unfold answer, errorAnswer. cbn [message].
    rewrite (rejection_includes "404") by (try done; simpl; intuition discriminate).
    intros [->| ->]; [done|]. by rewrite orb_true_r.
  - unfold answer, errorAnswer. cbn [message].
    rewrite (rejection_includes "404"), (rejection_includes "401"),
      (rejection_includes "403") by (try done; simpl; intuition discriminate).
    intros [->| ->] ->; [done|]. simpl. by rewrite orb_true_r.
Qed.

Lemma tracker_rejection_answer_witness :
  fst (handleAIQuery Samples.cfg MoreSamples.rejectingEnv "Which tickets does Mike have?"
                     Samples.start)
  = Ok (Some authMessage).
Proof.
  destruct (tracker_rejection_answer Samples.cfg MoreSamples.rejectingEnv
              "Which tickets does Mike have?" (mkIdentity "Mike Ross" "mikeross88")
              Samples.start "https://team.atlassian.net" "bot@example.com" "secret"
              (mkJiraResponse false 401 "Unauthorized" (Ok []))
              ltac:(vm_compute; reflexivity) ltac:(vm_compute; reflexivity)
              ltac:(reflexivity) ltac:(reflexivity) ltac:(reflexivity) ltac:(reflexivity)
              ltac:(reflexivity) ltac:(reflexivity) ltac:(reflexivity))
    as (Hrun & _ & Hauth).
  rewrite Hrun. cbn [fst]. rewrite Hauth; [reflexivity|by left|vm_compute; reflexivity].
Defined.

(** ** The classifier's reading of the model's answer *)

Section Trimming.

Lemma trimStart_blank (pad s : string) : blank pad = true -> trimStart (pad ++ s) = trimStart s.
Proof.
  unfold blank. induction pad as [|c pad IH]; [done|]. simpl.
  intros [Hc Hpad]%andb_true_iff. rewrite Hc. by apply IH.
Qed.

Lemma trimEnd_blank (pad : string) : blank pad = true -> trimEnd pad = "".
Proof.
  unfold blank. induction pad as [|c pad IH]; [done|]. simpl.
  intros [Hc Hpad]%andb_true_iff. by rewrite IH, Hc.
Qed.

Lemma trimEnd_app_blank (s pad : string) : blank pad = true -> trimEnd (s ++ pad) = trimEnd s.
Proof.
  intros Hpad. induction s as [|c s IH].
  - rewrite append_nil_l. by apply trimEnd_blank.
  - rewrite append_cons. simpl. by rewrite IH.
Qed.

(** A text without white space is left as it is. *)
Lemma trimEnd_solid (s : string) :
  forallb (fun c => negb (isSpace c)) (list_ascii_of_string s) = true -> trimEnd s = s.
Proof.
  induction s as [|c s IH]; [done|]. simpl. intros [Hc Hs]%andb_true_iff.
  rewrite IH by done. destruct s; [|done]. by destruct (isSpace c).
Qed.

Lemma trim_padded (before core after : string) :
  blank before = true -> blank after = true ->
  forallb (fun c => negb (isSpace c)) (list_ascii_of_string core) = true ->
  trimAscii (before ++ core ++ after) = core.
Proof.
  intros Hbefore Hafter Hcore. unfold trimAscii. rewrite trimStart_blank by done.
  destruct core as [|c core]; [rewrite append_nil_l|].
  - assert (trimStart after = "") as ->; [|done].
    clear -Hafter. unfold blank in Hafter. induction after as [|c after IH]; [done|].
    simpl in *. apply andb_true_iff in Hafter as [-> Hafter]. by apply IH.
  - rewrite append_cons. simpl in *. apply andb_true_iff in Hcore as [Hc Hcore].
    destruct (isSpace c) eqn:Hspace; [done|]. rewrite <- append_cons.
    rewrite trimEnd_app_blank by done. apply trimEnd_solid. simpl. by rewrite Hspace.
Qed.

Lemma isSpace_upperChar (c : ascii) : isSpace (upperChar c) = isSpace c.
Proof. by destruct c as [[] [] [] [] [] [] [] []]. Qed.

Lemma solid_upper (s : string) :
  forallb (fun c => negb (isSpace c)) (list_ascii_of_string (upperAscii s))
  = forallb (fun c => negb (isSpace c)) (list_ascii_of_string s).
Proof.
  unfold upperAscii. induction s as [|c s IH]; [done|]. simpl.
  by rewrite isSpace_upperChar, IH.
Qed.

End Trimming.

(** X15: on answers of ASCII characters the classifier reads the model's
    answer whatever its letter case and the white space around it: when
    the answer is a spelling of one of the four labels, in upper or lower
    case letters, with tabs, line feeds, vertical tabs, form feeds,
    carriage returns or spaces before or after, the intent is that
    label. *)
Theorem classifyIntent_tolerant (env : Env) (question : string) (w : World)
        (before spelled after label : string) :
  asciiFaithful env ->
  generateContent env (trace w) (intentPrompt question)
  = Ok (Some (before ++ spelled ++ after)) ->
  isAscii (before ++ spelled ++ after) = true ->
  blank before = true -> blank after = true ->
  upperAscii spelled = label ->
  label ∈ intentLabels ->
  fst (classifyIntent env question w) = Ok label.
Proof.
  intros Hfaithful Hanswer Hascii Hbefore Hafter Hspelled Hlabel.
  rewrite classifyIntent_run, Hanswer. simpl.
  assert (forallb (fun c => negb (isSpace c)) (list_ascii_of_string spelled) = true) as Hsolid.
  { rewrite <- solid_upper, Hspelled. clear -Hlabel. unfold intentLabels in Hlabel.
    repeat (apply elem_of_cons in Hlabel as [->|Hlabel]; [by vm_compute|]).
    by apply elem_of_nil in Hlabel. }
  destruct (Hfaithful _ Hascii) as (_ & _ & ->). rewrite trim_padded by done.
  assert (isAscii spelled = true) as Hword.
  { rewrite !isAscii_app in Hascii.
    by apply andb_true_iff in Hascii as [_ [? _]%andb_true_iff]. }
  destruct (Hfaithful _ Hword) as (_ & -> & _). rewrite Hspelled.
  assert (isLabel label = true) as ->; [|done].
  clear -Hlabel. unfold intentLabels in Hlabel.
  repeat (apply elem_of_cons in Hlabel as [->|Hlabel]; [by vm_compute|]).
  by apply elem_of_nil in Hlabel.
Qed.

Lemma classifyIntent_tolerant_witness :
  fst (classifyIntent (Samples.idleEnv (" Commits" ++ nl)) "What did Mike commit?"
                      Samples.start)
  = Ok "COMMITS".
Proof.
  apply (classifyIntent_tolerant (Samples.idleEnv (" Commits" ++ nl)) "What did Mike commit?"
           Samples.start " " "Commits" nl "COMMITS");
    try (vm_compute; reflexivity); [apply idleEnv_asciiFaithful|].
  unfold intentLabels. set_solver.
Defined.

(** ** What a query touches *)

Section Footprint.
Context (cfg : Config) (env : Env).

Lemma classifyIntent_at (question intent : string) (w : World) :
  fst (classifyIntent env question w) = Ok intent ->
  classifyIntent env question w
  = (Ok intent, mkWorld (dataCache w) (EvGenerate (intentPrompt question) :: trace w)).
Proof. rewrite classifyIntent_run. simpl. by intros [= ->]. Qed.

(** The state a query leaves, when its user is known, is the one its fetch
    and its summary leave after the classification. *)
Lemma handleAIQuery_after_classification (question intent : string) (user : Identity)
      (w : World) :
  findUserInQuery env question = Some user ->
  fst (classifyIntent env question w) = Ok intent ->
  snd (handleAIQuery cfg env question w)
  = snd (bind (fetchByIntent cfg env intent user) (summarize env question user)
              (mkWorld (dataCache w) (EvGenerate (intentPrompt question) :: trace w))).
Proof.
  intros Huser Hintent. unfold handleAIQuery. rewrite Huser, tryCatch_answer_world.
  unfold tryBlock. by rewrite (bind_ok _ _ _ _ _ (classifyIntent_at _ _ _ Hintent)).
Qed.

Lemma fetchCached_keeps_others (key key' : string) (upstream : T (list obj))
      (entry : option CacheEntry) :
  key' <> key ->
  preserves (fun cache => cache !! key' = entry) (fetchCached env key upstream).
Proof.
  intros Hne. apply (fetchCached_preserves env _ (fun _ => True)); [| |done].
  - intros cache Hcache. by rewrite lookup_delete_ne.
  - intros cache payload t Hcache _. by rewrite lookup_insert_ne.
Qed.

Lemma fetchByIntent_keeps_others (intent : string) (user : Identity) (key : string)
      (entry : option CacheEntry) :
  key ∉ intentKeys intent user ->
  preserves (fun cache => cache !! key = entry) (fetchByIntent cfg env intent user).
Proof.
  unfold intentKeys, fetchByIntent, fetchJiraData, fetchCommitsData, fetchPRsData.
  intros Hkey.
  repeat match goal with
         | |- context [String.eqb intent ?label] => destruct (String.eqb intent label)
         end;
    repeat first [ apply preserves_ret
                 | apply preserves_settle
                 | apply fetchCached_keeps_others; set_solver
                 | apply preserves_bind; [|intros ?]
                 | match goal with
                   | |- preserves _ (match ?x with _ => _ end) => destruct x
                   end
                 | by intros ? ? ].
Qed.

Lemma fetchByIntent_scoped (intent : string) (user : Identity) :
  emitsOnly trace (fun ev => ev = EvNow \/ intentCall intent ev = true)
            (fetchByIntent cfg env intent user).
Proof.
  unfold intentCall, fetchByIntent.
  destruct (String.eqb intent "JIRA");
    [emits_step; [|emits_step]; apply fetchJiraData_emits; [by left|by right]|].
  destruct (String.eqb intent "COMMITS");
    [emits_step; [|emits_step]; apply fetchCommitsData_emits; by right|].
  destruct (String.eqb intent "PRS");
    [emits_step; [|emits_step]; apply fetchPRsData_emits; [by left|by right]|].
  emits_step; [apply emits_settle, fetchJiraData_emits; [by left|]; intros []; by right|].
  emits_step; [apply emits_settle, fetchPRsData_emits; [by left|]; intros []; by right|].
  emits_step;
    [apply emits_settle, fetchCommitsData_emits; intros []; try done; by (left + right)|].
  repeat emits_step.
Qed.

Lemma summarize_scoped (question : string) (user : Identity)
      (fetched : list obj * list obj * list obj) :
  emitsOnly trace (fun ev => isSummarizerCall ev = true \/ ev = EvNow)
            (summarize env question user fetched).
Proof.
  destruct fetched as [[jiraIssues githubPRs] githubCommits]. unfold summarize.
  destruct (_ && _); [apply emits_ret|].
  apply emits_bind; [apply clockOnly_emits; [by right|apply assemble_clockOnly]|].
  intros [[issues' prs'] commits']. unfold generate.
  apply emits_bind; [|intros ?; apply emits_ret]. apply emits_liftT, emits_call. by left.
Qed.

End Footprint.

(** X16: a question that names no known user is answered at once: the
    answer is the fixed request for a known name, and the model, the clock,
    the tracker, the code host and the cache are left alone.  This is the
    only case in which a query leaves no trace: with a known user the
    first call is the classification of the question by the model. *)
Theorem handleAIQuery_silent_iff_unknown (cfg : Config) (env : Env) (question : string)
        (w : World) :
  (findUserInQuery env question = None
   <-> trace (snd (handleAIQuery cfg env question w)) = trace w)
  /\ match findUserInQuery env question with
     | None => handleAIQuery cfg env question w = (Ok (Some unknownUserMessage), w)
     | Some _ =>
         exists new,
           trace (snd (handleAIQuery cfg env question w))
           = (new ++ EvGenerate (intentPrompt question) :: trace w)%list
     end.
Proof.
  assert (match findUserInQuery env question with
          | None => handleAIQuery cfg env question w = (Ok (Some unknownUserMessage), w)
          | Some _ =>
              exists new,
                trace (snd (handleAIQuery cfg env question w))
                = (new ++ EvGenerate (intentPrompt question) :: trace w)%list
          end) as Hcases.
  { destruct (findUserInQuery env question) as [user|] eqn:Huser;
      [|unfold handleAIQuery; by rewrite Huser].
    assert (exists intent, fst (classifyIntent env question w) = Ok intent)
      as [intent Hintent] by (rewrite classifyIntent_run; by eexists).
    rewrite (handleAIQuery_after_classification cfg env question intent user w Huser Hintent).
    destruct (emits_bind trace (fun _ => True) _ _
                (fetchByIntent_extends cfg env intent user)
                (summarize_emits env question user)
                (mkWorld (dataCache w) (EvGenerate (intentPrompt question) :: trace w)))
      as (new & Htrace & _).
    by exists new. }
  split; [|done]. destruct (findUserInQuery env question) as [user|].
  - destruct Hcases as (new & ->). split; [done|]. intros Heq.
    apply (f_equal length) in Heq. rewrite length_app in Heq. simpl in Heq. lia.
  - by rewrite Hcases.
Qed.

(** X17: the fetch of a query is scoped by its intent.  Besides the model
    and the clock, a query classified JIRA calls the issue tracker alone, a
    query classified COMMITS the feed and the commits of the code host
    alone, a query classified PRS the feed and the pull requests alone; and
    whatever the intent, the only cache entries a query may change are
    those of the resolved user for the kinds of data the intent asks
    for. *)
Theorem intent_scopes_fetch (cfg : Config) (env : Env) (question intent : string)
        (user : Identity) (w : World) :
  findUserInQuery env question = Some user ->
  fst (classifyIntent env question w) = Ok intent ->
  (exists new,
      trace (snd (handleAIQuery cfg env question w)) = (new ++ trace w)%list
      /\ Forall (fun ev => isSummarizerCall ev = true \/ ev = EvNow
                           \/ intentCall intent ev = true) new)
  /\ (forall key, key ∉ intentKeys intent user ->
                  dataCache (snd (handleAIQuery cfg env question w)) !! key
                  = dataCache w !! key).
Proof.
  intros Huser Hintent.
  rewrite (handleAIQuery_after_classification cfg env question intent user w Huser Hintent).
  split.
  - destruct (emits_bind trace
                (fun ev => isSummarizerCall ev = true \/ ev = EvNow
                           \/ intentCall intent ev = true) _ _
                (emits_weaken _ _ _ _ (fun ev Hev => or_intror Hev)
                   (fetchByIntent_scoped cfg env intent user))
                (fun fetched =>
                   emits_weaken _ (fun ev => isSummarizerCall ev = true \/ ev = EvNow) _ _
                     (fun ev Hev => match Hev with
                                    | or_introl H => or_introl H
                                    | or_intror H => or_intror (or_introl H)
                                    end)
                     (summarize_scoped env question user fetched))
                (mkWorld (dataCache w) (EvGenerate (intentPrompt question) :: trace w)))
      as (new & -> & Hnew).
    exists (new ++ [EvGenerate (intentPrompt question)])%list.
    rewrite <- app_assoc. split; [done|]. apply Forall_app. split; [done|].
    constructor; [by left|done].
  - intros key Hkey.
    apply (preserves_bind (fun cache => cache !! key = dataCache w !! key) _ _
             (fetchByIntent_keeps_others cfg env intent user key _ Hkey)
             (fun fetched => summarize_keeps_cache env _ question user fetched)
             (mkWorld (dataCache w) (EvGenerate (intentPrompt question) :: trace w))).
    done.
Qed.

Lemma intent_scopes_fetch_witness :
  exists new,
    trace (snd (handleAIQuery Samples.cfg (Samples.busyEnv "PRS")
                              "Show me the pull requests of Mike" Samples.start))
    = (new ++ trace Samples.start)%list
    /\ Forall (fun ev => isSummarizerCall ev = true \/ ev = EvNow
                         \/ intentCall "PRS" ev = true) new.
Proof.
  exact (proj1 (intent_scopes_fetch Samples.cfg (Samples.busyEnv "PRS")
                  "Show me the pull requests of Mike" "PRS"
                  (mkIdentity "Mike Ross" "mikeross88") Samples.start
                  ltac:(vm_compute; reflexivity) ltac:(vm_compute; reflexivity))).
Defined.

(** ** The HTTP routes ([server.js]) *)

Section Routes.
Context (cfg : Config) (env : Env).

Lemma world_eta (w : World) : mkWorld (dataCache w) (trace w) = w.
Proof. by destruct w. Qed.

(** The shape the seven GET handlers share. *)
Lemma get_route_reply {A} (present : bool) (missing : string) (work : T A)
      (sent : A -> Payload) (w : World) :
  (forall a, isErrorPayload (sent a) = false) ->
  exists response w',
    liftT (tryCatch (if negb present then status_json 400 (PError missing)
                     else let* a := work in json (sent a))
                    (fun err => status_json 500 (PError (message err)))) w
    = (Ok response, w')
    /\ (statusCode response = 200 \/ statusCode response = 400 \/ statusCode response = 500)
    /\ (statusCode response = 400 <-> negb present = true)
    /\ (statusCode response = 400 -> w' = w)
    /\ (isErrorPayload (payload response) = true <-> statusCode response <> 200)
    /\ dataCache w' = dataCache w.
Proof.
  intros Hsent. unfold liftT, tryCatch, bind, status_json, json, ret.
  destruct present; simpl.
  - destruct (work (trace w)) as [[a|e] h]; eexists _, _; (split; [done|]); simpl.
    + rewrite Hsent. repeat split; try done; auto.
    + repeat split; try done; auto.
  - eexists _, _; (split; [done|]); simpl. rewrite world_eta.
    repeat split; try done; auto.
Qed.

End Routes.


(** X19: [/ask] turns every upstream failure into an answer: a question
    that is a non-empty text is answered with status 200 and the answer of
    [handleAIQuery], whatever the tracker, the code host and the model do.
    The status is 500 in two cases only, in both of which nothing is
    called: the request has no parsed body, so that reading [question] off
    it throws; the question is not a text (a number, an object, ...), which
    fails in the identity lookup. *)
Theorem ask_status (cfg : Config) (env : Env) (req : Request) (w : World) :
  match body req with
  | None =>
      route_ask cfg env req w
      = (Ok (mkResponse 500
               (PError "Cannot destructure property 'question' of 'req.body' as it is undefined.")),
         w)
  | Some fields =>
      match getField "question" fields with
      | JStr text =>
          if truthyStr text then
            exists answer w',
              handleAIQuery cfg env text w = (Ok answer, w')
              /\ route_ask cfg env req w = (Ok (mkResponse 200 (PAnswer answer)), w')
          else
            route_ask cfg env req w
            = (Ok (mkResponse 400 (PError "Missing required body param: question")), w)
      | question =>
          route_ask cfg env req w
          = (Ok (if truthy question
                 then mkResponse 500 (PError "question.toLowerCase is not a function")
                 else mkResponse 400 (PError "Missing required body param: question")), w)
      end
  end.
Proof.
  unfold route_ask, destructureQuestion, tryCatch, bind, status_json, json, ret,
    handleAIQueryOn, throw.
  destruct (body req) as [fields|]; [|done].
  destruct (getField "question" fields) as [| |b|n|text|items|fields']; simpl; try done.
  - by destruct b.
  - by destruct (negb (n =? 0)).
  - destruct (truthyStr text); simpl; [|done].
    destruct (handleAIQuery_returns cfg env text w) as (answer & w' & Hrun).
    exists answer, w'. by rewrite Hrun.
Qed.

(** X20: the routes [/search/commits] and [/search/prs] reply with status
    200 whenever the discovery of the user's repositories succeeds, even if
    requests for single repositories fail; they reply with status 500, and
    with the text of the discovery's error, exactly when the discovery
    fails. *)
Theorem search_routes_status (cfg : Config) (env : Env) (req : Request) (user : string)
        (h : History) :
  query req !! "user" = Some user ->
  user <> "" ->
  match getContributionRepos cfg env user h with
  | (Ok repos, h1) =>
      (exists commits h',
          route_search_commits cfg env req h = (Ok (mkResponse 200 (PCommits commits)), h'))
      /\ (exists prs h',
             route_search_prs cfg env req h = (Ok (mkResponse 200 (PPrs prs)), h'))
  | (Throw e, h1) =>
      route_search_commits cfg env req h = (Ok (mkResponse 500 (PError (message e))), h1)
      /\ route_search_prs cfg env req h = (Ok (mkResponse 500 (PError (message e))), h1)
  end.
Proof.
  intros Huser Hne.
  assert (truthyStr user = true) as Htruthy by (by destruct user).
  unfold route_search_commits, route_search_prs. rewrite Huser. simpl. rewrite Htruthy. simpl.
  unfold tryCatch, bind at 1 3, status_json, json, ret.
  unfold searchRecentCommitsByUser, searchActivePRsByUser, bind.
  destruct (getContributionRepos cfg env user h) as [[repos|e] h1]; [|done].
  pose proof (fanOut_outcomes (commitsOfRepo cfg env user) repos [] h1) as Hcommits.
  pose proof (fanOut_outcomes (prsOfRepo cfg env user) repos [] h1) as Hprs.
  destruct (fanOut (commitsOfRepo cfg env user) repos [] h1) as [[commits|e] h2];
    [|done].
  destruct (fanOut (prsOfRepo cfg env user) repos [] h1) as [[prs|e] h3]; [|done].
  split; by eexists _, _.
Qed.

Lemma search_routes_status_witness :
  exists commits h',
    route_search_commits Samples.cfg (Samples.busyEnv "COMMITS")
                         (mkRequest {[ "user" := "mikeross88" ]} None) []
    = (Ok (mkResponse 200 (PCommits commits)), h').
Proof.
  exact (proj1 (search_routes_status Samples.cfg (Samples.busyEnv "COMMITS")
                  (mkRequest {[ "user" := "mikeross88" ]} None) "mikeross88" []
                  ltac:(apply lookup_singleton_eq) ltac:(discriminate))).
Defined.

(** ** The chat page ([public/script.js]) *)

Section Blank.

Lemma trimStart_all_blank (s : string) : blank s = true -> trimStart s = "".
Proof.
  unfold blank. induction s as [|c s IH]; [done|]. simpl.
  intros [-> Hs]%andb_true_iff. by apply IH.
Qed.

Lemma trimEnd_head (c : ascii) (s : string) :
  isSpace c = false -> trimEnd (String c s) <> "".
Proof. intros Hc. simpl. destruct (trimEnd s); [by rewrite Hc|done]. Qed.

Lemma trimStart_head (s : string) :
  blank s = false -> exists c t, trimStart s = String c t /\ isSpace c = false.
Proof.
  unfold blank. induction s as [|c s IH]; [done|]. simpl.
  destruct (isSpace c) eqn:Hc; simpl; [done|]. intros _. by exists c, s.
Qed.

(** Of a text of ASCII characters [trim] leaves nothing exactly when the
    text is made of white space. *)
Lemma trim_empty_iff_blank (s : string) : truthyStr (trimAscii s) = negb (blank s).
Proof.
  unfold trimAscii. destruct (blank s) eqn:Hblank.
  - by rewrite trimStart_all_blank.
  - destruct (trimStart_head s Hblank) as (c & t & -> & Hc).
    pose proof (trimEnd_head c t Hc). by destruct (trimEnd (String c t)).
Qed.

End Blank.

(** X21: a submit of the chat form posts a question exactly when the
    trimmed input is not empty, which for an input of ASCII characters
    means that it holds more than white space.  An input that trims to
    nothing changes nothing.  Otherwise the trimmed input is posted once,
    from a page with the form disabled and the loading indicator shown; and
    whatever comes back (an answer, an error status, a body that is not
    JSON, no response at all), the listener returns with the form enabled
    again, the indicator hidden, the input cleared, and exactly two more
    bubbles in the chat: the question, then the bot's text, which is the
    answer of an [ok] response and an apology that quotes the error
    otherwise. *)
Theorem submit_posts_once_and_restores (trim : string -> string)
        (fetchAsk : Page -> string -> Result HttpReply) (p : Page) :
  let question := trim (inputValue p) in
  (if truthyStr question then
     onSubmit trim fetchAsk p
     = (Ok tt,
        mkPage "" false false true
               (chat p ++ [ mkBubble "user-bubble" question;
                            mkBubble "bot-bubble" (botText (fetchAsk (waiting p question)
                                                                     question)) ])
               (posted p ++ [question]))
   else onSubmit trim fetchAsk p = (Ok tt, p))
  /\ (trimsAscii trim -> isAscii (inputValue p) = true ->
      truthyStr question = negb (blank (inputValue p))).
Proof.
  split; [|intros Htrim Hascii; rewrite (Htrim _ Hascii); apply trim_empty_iff_blank].
  destruct (truthyStr (trim (inputValue p))) eqn:Hquestion;
    unfold onSubmit, bind at 1, gets; cbn beta iota zeta; rewrite Hquestion; cbn [negb];
    [|done].
  unfold bind, finally, tryCatch, setFormDisabled, addMessageToChat, modify, throw, botText,
    waiting. simpl.
  destruct (fetchAsk _ (trim (inputValue p))) as [response|e]; simpl;
    [|by rewrite <- ?app_assoc].
  destruct (reply_ok response); simpl;
    destruct (reply_json response) as [replied|e]; simpl; by rewrite <- ?app_assoc.
Qed.

(** ** Invariants of the server *)

Section ServerInvariants.
Context (cfg : Config) (env : Env).

Lemma findUserInQuery_registered (question : string) (user : Identity) :
  findUserInQuery env question = Some user -> exists key, (key, user) ∈ userMapping.
Proof.
  intros (i & key & Hi & _)%firstIncluded_some. exists key.
  by apply (list_elem_of_lookup_2 _ i).
Qed.

Lemma intentKeys_registered (intent : string) (user : Identity) (alias key : string) :
  (alias, user) ∈ userMapping -> key ∈ intentKeys intent user -> key ∈ registeredKeys.
Proof.
  intros Hentry Hkey. unfold registeredKeys. apply list_elem_of_bind.
  exists (alias, user). split; [|done]. simpl. unfold intentKeys in Hkey.
  apply list_elem_of_In. apply list_elem_of_In in Hkey.
  repeat match type of Hkey with
         | context [String.eqb intent ?label] => destruct (String.eqb intent label)
         end; simpl in *; tauto.
Qed.

Lemma handleAIQuery_keeps_unregistered (question key : string) :
  key ∉ registeredKeys ->
  preserves (fun cache => cache !! key = None) (handleAIQuery cfg env question).
Proof.
  intros Hkey. unfold handleAIQuery.
  destruct (findUserInQuery env question) as [user|] eqn:Huser; [|apply preserves_ret].
  destruct (findUserInQuery_registered _ _ Huser) as [alias Halias].
  apply preserves_tryCatch; [|intros e; apply preserves_ret]. unfold tryBlock.
  apply preserves_bind; [intros w Hw; by rewrite classifyIntent_run|]. intros intent.
  apply preserves_bind; [|intros fetched; apply summarize_keeps_cache].
  apply fetchByIntent_keeps_others. intros Hin. apply Hkey.
  by apply (intentKeys_registered intent user alias).
Qed.

Lemma serve_keeps_unregistered (endpoint : Endpoint) (req : Request) (key : string) :
  key ∉ registeredKeys ->
  preserves (fun cache => cache !! key = None) (serve cfg env endpoint req).
Proof.
  intros Hkey. destruct endpoint; simpl; try apply preserves_liftT.
  unfold route_ask, destructureQuestion, handleAIQueryOn, status_json, json.
  apply preserves_tryCatch; [|intros e; apply preserves_ret].
  apply preserves_bind; [destruct (body req); by intros w Hw|]. intros question.
  destruct (negb _); [apply preserves_ret|].
  apply preserves_bind; [|intros answer; apply preserves_ret].
  destruct question; try (by intros w Hw).
  by apply handleAIQuery_keeps_unregistered.
Qed.

Lemma registered_size (cache : gmap string CacheEntry) :
  keysRegistered cache -> (size cache <= 13)%nat.
Proof.
  intros Hkeys. rewrite <- (size_dom (D := gset string)).
  assert (dom cache ⊆ (list_to_set (remove_dups registeredKeys) : gset string)) as Hsub.
  { apply elem_of_subseteq. intros key Hin. apply elem_of_list_to_set, elem_of_remove_dups.
    destruct (decide (key ∈ registeredKeys)) as [|Hout]; [done|].
    apply Hkeys in Hout. by apply not_elem_of_dom in Hout. }
  apply subseteq_size in Hsub. rewrite size_list_to_set in Hsub by apply NoDup_remove_dups.
  replace (length (remove_dups registeredKeys)) with 13%nat in Hsub
    by (vm_compute; reflexivity).
  done.
Qed.

End ServerInvariants.

(** X22: the cache stays within the keys of the registered identities:
    if every entry of the cache is stored under a key made of a data kind
    and an identifier of [userMapping], the same holds after any request to
    any route, and the cache holds thirteen entries at most. *)
Theorem cache_stays_within_registered_keys (cfg : Config) (env : Env) (endpoint : Endpoint)
        (req : Request) (w : World) :
  keysRegistered (dataCache w) ->
  keysRegistered (dataCache (snd (serve cfg env endpoint req w)))
  /\ (size (dataCache (snd (serve cfg env endpoint req w))) <= 13)%nat.
Proof.
  intros Hkeys.
  assert (keysRegistered (dataCache (snd (serve cfg env endpoint req w)))) as Hafter.
  { intros key Hkey. apply (serve_keeps_unregistered cfg env endpoint req key Hkey w).
    by apply Hkeys. }
  split; [done|]. by apply registered_size.
Qed.

Lemma cache_stays_within_registered_keys_witness :
  (size (dataCache (snd (serve Samples.cfg (Samples.busyEnv "FULL_SUMMARY") PostAsk
                               (mkRequest ∅ (Some [("question", JStr "What is Mike working on?")]))
                               Samples.start))) <= 13)%nat.
Proof.
  apply (cache_stays_within_registered_keys Samples.cfg (Samples.busyEnv "FULL_SUMMARY") PostAsk
           (mkRequest ∅ (Some [("question", JStr "What is Mike working on?")])) Samples.start).
  intros key _. apply lookup_empty.
Defined.

Section WithToken.
Context (cfg : Config) (env : Env) (Htoken : truthyOpt (GITHUB_TOKEN cfg) = true).

Abbreviation onHistory := (fun h : History => h).
Abbreviation unattended := (fun ev : Event => isInstallationCall ev = false).

Lemma getOctokit_token : emitsOnly onHistory unattended (getOctokit cfg env).
Proof. unfold getOctokit. rewrite Htoken. apply emits_ret. Qed.

Lemma getRecentCommits_token username owner repo :
  emitsOnly onHistory unattended (getRecentCommits cfg env username owner repo).
Proof.
  unfold getRecentCommits, now. repeat first [ apply getOctokit_token | emits_step ].
Qed.

Lemma getActivePullRequests_token username owner repo :
  emitsOnly onHistory unattended (getActivePullRequests cfg env username owner repo).
Proof.
  unfold getActivePullRequests. repeat first [ apply getOctokit_token | emits_step ].
Qed.

Lemma getContributionRepos_token username :
  emitsOnly onHistory unattended (getContributionRepos cfg env username).
Proof.
  unfold getContributionRepos. repeat first [ apply getOctokit_token | emits_step ].
Qed.

Lemma searchRecentCommitsByUser_token username :
  emitsOnly onHistory unattended (searchRecentCommitsByUser cfg env username).
Proof.
  unfold searchRecentCommitsByUser.
  emits_step; [apply getContributionRepos_token|].
  apply fanOut_emits. intros fullName. unfold commitsOfRepo.
  repeat first [ apply getRecentCommits_token | emits_step ].
Qed.

Lemma searchActivePRsByUser_token username :
  emitsOnly onHistory unattended (searchActivePRsByUser cfg env username).
Proof.
  unfold searchActivePRsByUser.
  emits_step; [apply getContributionRepos_token|].
  apply fanOut_emits. intros fullName. unfold prsOfRepo.
  repeat first [ apply getActivePullRequests_token | emits_step ].
Qed.

Lemma searchIssuesWith_token jql :
  emitsOnly onHistory unattended (searchIssuesWith cfg env jql).
Proof.
  unfold searchIssuesWith, getJiraAuthHeader. repeat emits_step. intros h. by exists [].
Qed.

Lemma handleAIQuery_token question :
  emitsOnly trace unattended (handleAIQuery cfg env question).
Proof.
  unfold handleAIQuery. destruct (findUserInQuery env question) as [user|]; [|apply emits_ret].
  apply emits_tryCatch; [|intros e; apply emits_ret]. unfold tryBlock.
  apply emits_bind.
  { intros w. rewrite classifyIntent_run. exists [EvGenerate (intentPrompt question)].
    split; [done|]. by constructor. }
  intros intent. apply emits_bind.
  - unfold fetchByIntent, fetchJiraData, fetchCommitsData, fetchPRsData.
    rewrite searchActiveIssuesByUser_shared.
    repeat first [ apply fetchCached_emits; [done|]
                 | apply searchIssuesWith_token
                 | apply searchRecentCommitsByUser_token
                 | apply searchActivePRsByUser_token
                 | emits_step ].
  - intros fetched.
    apply (emits_weaken _ (fun ev => isSummarizerCall ev = true \/ ev = EvNow));
      [by intros [] [Hev|Hev]|apply summarize_scoped].
Qed.

End WithToken.

(** X23: with a personal access token in [GITHUB_TOKEN], no request to any
    route ever asks for the installation client of the GitHub App: the
    token takes precedence wherever a client is obtained. *)
Theorem token_skips_installation (cfg : Config) (env : Env) (endpoint : Endpoint)
        (req : Request) (w : World) :
  truthyOpt (GITHUB_TOKEN cfg) = true ->
  exists new,
    trace (snd (serve cfg env endpoint req w)) = (new ++ trace w)%list
    /\ Forall (fun ev => isInstallationCall ev = false) new.
Proof.
  intros Htoken. revert w.
  change (emitsOnly trace (fun ev => isInstallationCall ev = false)
                    (serve cfg env endpoint req)).
  destruct endpoint; simpl;
    unfold route_commits, route_prs, route_repos, route_search_commits, route_search_prs,
      route_search_jira, route_search_jira_all, route_ask, destructureQuestion,
      handleAIQueryOn, status_json, json;
    rewrite ?searchActiveIssuesByUser_shared, ?searchAllIssuesByUser_shared;
    repeat first [ apply (getRecentCommits_token cfg env Htoken)
                 | apply (getActivePullRequests_token cfg env Htoken)
                 | apply (getContributionRepos_token cfg env Htoken)
                 | apply (searchRecentCommitsByUser_token cfg env Htoken)
                 | apply (searchActivePRsByUser_token cfg env Htoken)
                 | apply searchIssuesWith_token
                 | apply (handleAIQuery_token cfg env Htoken)
                 | emits_step ].
Qed.

Lemma token_skips_installation_witness :
  exists new,
    trace (snd (serve Samples.cfg (Samples.busyEnv "PRS") GetSearchPrs
                      (mkRequest {[ "user" := "mikeross88" ]} None) Samples.start))
    = (new ++ trace Samples.start)%list
    /\ Forall (fun ev => isInstallationCall ev = false) new.
Proof.
  apply (token_skips_installation Samples.cfg (Samples.busyEnv "PRS") GetSearchPrs
           (mkRequest {[ "user" := "mikeross88" ]} None) Samples.start).
  reflexivity.
Defined.
